(** * crypto-price-tracker: the resilient acquisition pipeline

    A shallow embedding of the backend's retry executor ([lib/retry.py]),
    market-cap classifier ([lib/formatters.py]), validator and batch filter
    ([services/validation_service.py]), response mappers
    ([services/coingecko_client.py], [services/coinmarketcap_client.py]) and
    cache service ([services/cache_service.py], [lib/redis_client.py]),
    followed by the properties the specification states about them.
    The embedding then goes on to the formatting functions, the error
    messages ([lib/error_handling.py]), the public methods of the cache, the
    request methods of the two clients, the CoinGecko mapper, the connection
    pool and the health route ([api/routes/health.py]), with the properties
    that the code of these shows.

    Conventions of the embedding:
    - a Python [int] is a [Z]; a Python [float] is an IEEE-754 binary64 value
      ([spec_float] at precision 53, exponent bound 1024), so rounding and
      overflow are the ones of the interpreter;
    - a Python call either returns or raises: [outcome];
    - exceptions are values of [exception], classes are [exn_class] with the
      single-inheritance hierarchy of the interpreter and of httpx;
    - a [dict] with string keys is an association list in insertion order;
    - an aware [datetime] is its instant in microseconds, a naive one its
      wall-clock reading; [datetime.min] and [datetime.max] bound the result
      of datetime arithmetic;
    - the wall clock and the backing store are explicit arguments, and so is
      the console in the batch filter, which prints what its input holds;
      the other [print] calls are not modelled. *)

From Stdlib Require Import ZArith QArith List String Ascii Bool Lia SpecFloat.
Import ListNotations.

Local Open Scope Z_scope.

(** * The embedding *)

(** ** Python values, exceptions and arithmetic *)

Module Py.

(** *** Exception classes *)

Inductive exn_class : Type :=
| BaseException | Exception
| CancelledError | KeyboardInterrupt
| ArithmeticError | OverflowError | ZeroDivisionError
| AssertionError | AttributeError
| LookupError | KeyError
| RuntimeError | TypeError | ValueError | JSONDecodeError
| AsyncioTimeoutError
| RedisError | RedisConnectionError
| HTTPError | RequestError | TransportError
| TimeoutException | ConnectTimeout | ReadTimeout | WriteTimeout | PoolTimeout
| NetworkError | ConnectError | ReadError
| HTTPStatusError
| RetryExhausted.

Definition exn_class_eq_dec (c d : exn_class) : {c = d} + {c <> d}.
Proof. decide equality. Defined.

(** The direct base class ([None] for the root). *)
Definition base (c : exn_class) : option exn_class :=
  match c with
  | BaseException => None
  | Exception | CancelledError | KeyboardInterrupt => Some BaseException
  | ArithmeticError | AssertionError | AttributeError | LookupError
  | RuntimeError | TypeError | ValueError | AsyncioTimeoutError
  | RedisError | HTTPError | RetryExhausted => Some Exception
  | OverflowError | ZeroDivisionError => Some ArithmeticError
  | KeyError => Some LookupError
  | JSONDecodeError => Some ValueError
  | RedisConnectionError => Some RedisError
  | RequestError | HTTPStatusError => Some HTTPError
  | TransportError => Some RequestError
  | TimeoutException | NetworkError => Some TransportError
  | ConnectTimeout | ReadTimeout | WriteTimeout | PoolTimeout => Some TimeoutException
  | ConnectError | ReadError => Some NetworkError
  end.

(** [issubclass c d], climbing at most [fuel] base links. *)
Fixpoint issubclass_fuel (fuel : nat) (c d : exn_class) : bool :=
  if exn_class_eq_dec c d then true
  else match fuel with
       | O => false
       | S fuel' => match base c with
                    | None => false
                    | Some b => issubclass_fuel fuel' b d
                    end
       end.

(** The hierarchy is at most seven links deep. *)
Definition issubclass : exn_class -> exn_class -> bool := issubclass_fuel 8.

Record Response : Type := { status_code : Z }.

(** An exception instance.  [Exc c] is an instance of a class whose
    attributes are not modelled; the instances of [HTTPStatusError] and
    [RetryExhausted], which carry a response and the last failure, are built
    with their own constructors and never with [Exc]. *)
Inductive exception : Type :=
| Exc (c : exn_class)
| HTTPStatusError_ (response : Response)
| RetryExhausted_ (attempts : Z) (last_exception : exception).

Definition type_of (e : exception) : exn_class :=
  match e with
  | Exc c => c
  | HTTPStatusError_ _ => HTTPStatusError
  | RetryExhausted_ _ _ => RetryExhausted
  end.

Definition isinstance (e : exception) (c : exn_class) : bool :=
  issubclass (type_of e) c.

(** [isinstance(e, (c1, ..., cn))], also the test of an [except] clause. *)
Definition isinstance_any (e : exception) (cs : list exn_class) : bool :=
  existsb (isinstance e) cs.

(** *** Outcome of a call *)

Inductive outcome (A : Type) : Type :=
| Return (a : A)
| Raise (e : exception).
Arguments Return {A} a.
Arguments Raise {A} e.

Definition bind {A B : Type} (m : outcome A) (k : A -> outcome B) : outcome B :=
  match m with
  | Return a => k a
  | Raise e => Raise e
  end.

Definition returns {A : Type} (m : outcome A) : bool :=
  match m with Return _ => true | Raise _ => false end.

(** *** Numbers *)

Definition float : Type := spec_float.
Definition prec : Z := 53.
Definition emax : Z := 1024.

Inductive num : Type :=
| PInt (z : Z)
| PFloat (f : float).

(** A float written as [m * 2^e], rounded to nearest even. *)
Definition mkfloat (m e : Z) : float := binary_normalize prec emax m e false.

Definition is_nan (f : float) : bool :=
  match f with S754_nan => true | _ => false end.
Definition is_inf (f : float) : bool :=
  match f with S754_infinity _ => true | _ => false end.
Definition is_zero (f : float) : bool :=
  match f with S754_zero _ => true | _ => false end.

(** [float(z)]: correctly rounded; too large a magnitude raises. *)
Definition float_of_int (z : Z) : outcome float :=
  let f := mkfloat z 0 in
  if is_inf f then Raise (Exc OverflowError) else Return f.

(** The exact value of a number, for comparisons: the interpreter compares
    an int with a float without rounding either. *)
Inductive xreal : Type :=
| XNaN
| XInf (negative : bool)
| XFin (q : Q).

Definition signed (s : bool) (m : positive) : Z :=
  if s then Z.neg m else Z.pos m.

Definition float_value (f : float) : xreal :=
  match f with
  | S754_zero _ => XFin 0
  | S754_infinity s => XInf s
  | S754_nan => XNaN
  | S754_finite s m e =>
      match e with
      | Z.neg p => XFin (Qmake (signed s m) (2 ^ p))
      | _ => XFin (inject_Z (signed s m * 2 ^ e))
      end
  end.

Definition value_of (x : num) : xreal :=
  match x with
  | PInt z => XFin (inject_Z z)
  | PFloat f => float_value f
  end.

(** [None] when the operands are unordered (one of them is NaN). *)
Definition xcompare (a b : xreal) : option comparison :=
  match a, b with
  | XNaN, _ | _, XNaN => None
  | XInf s, XInf t => Some (if s then (if t then Eq else Lt) else (if t then Gt else Eq))
  | XInf s, XFin _ => Some (if s then Lt else Gt)
  | XFin _, XInf t => Some (if t then Gt else Lt)
  | XFin p, XFin q => Some (Qcompare p q)
  end.

Definition num_compare (x y : num) : option comparison :=
  xcompare (value_of x) (value_of y).

Definition py_lt (x y : num) : bool :=
  match num_compare x y with Some Lt => true | _ => false end.
Definition py_le (x y : num) : bool :=
  match num_compare x y with Some Lt | Some Eq => true | _ => false end.
Definition py_gt (x y : num) : bool :=
  match num_compare x y with Some Gt => true | _ => false end.
Definition py_ge (x y : num) : bool :=
  match num_compare x y with Some Gt | Some Eq => true | _ => false end.

(** The operands of a binary float operation. *)
Definition to_float (x : num) : outcome float :=
  match x with
  | PInt z => float_of_int z
  | PFloat f => Return f
  end.

(** [x * y] *)
Definition py_mul (x y : num) : outcome num :=
  match x, y with
  | PInt a, PInt b => Return (PInt (a * b))
  | _, _ =>
      bind (to_float x) (fun fx =>
      bind (to_float y) (fun fy =>
      Return (PFloat (SFmul prec emax fx fy))))
  end.

(** An int as a float operand that is not rounded yet. *)
Definition raw_int (z : Z) : float :=
  match z with
  | Z0 => S754_zero false
  | Z.pos p => S754_finite false p 0
  | Z.neg p => S754_finite true p 0
  end.

(** [x / y]: true division.  The quotient of two ints is the correctly
    rounded exact quotient. *)
Definition py_truediv (x y : num) : outcome num :=
  match x, y with
  | PInt a, PInt b =>
      if b =? 0 then Raise (Exc ZeroDivisionError)
      else let q := SFdiv prec emax (raw_int a) (raw_int b) in
           if is_inf q then Raise (Exc OverflowError) else Return (PFloat q)
  | _, _ =>
      bind (to_float x) (fun fx =>
      bind (to_float y) (fun fy =>
      if is_zero fy then Raise (Exc ZeroDivisionError)
      else Return (PFloat (SFdiv prec emax fx fy))))
  end.

(** [min(x, y)]: the first argument unless the second is smaller. *)
Definition py_min (x y : num) : num :=
  if py_lt y x then y else x.

(** [math.isnan(x)], [math.isinf(x)]: the argument is converted first. *)
Definition math_isnan (x : num) : outcome bool :=
  bind (to_float x) (fun f => Return (is_nan f)).
Definition math_isinf (x : num) : outcome bool :=
  bind (to_float x) (fun f => Return (is_inf f)).

End Py.

Export Py.

Declare Scope py_scope.
Delimit Scope py_scope with py.
Notation "x <- m ;; k" := (bind m (fun x => k))
  (at level 61, m at next level, right associativity) : py_scope.

(** ** lib/formatters.py *)

Module Formatters.

(** [class MarketCategory(str, Enum)] *)
Inductive MarketCategory : Type :=
| LARGE_CAP
| MID_CAP
| SMALL_CAP.

(** The [str] value of a member. *)
Definition category_value (c : MarketCategory) : string :=
  match c with
  | LARGE_CAP => "large"
  | MID_CAP => "mid"
  | SMALL_CAP => "small"
  end.

Definition compute_market_cap_category (market_cap : num) : MarketCategory :=
  if py_gt market_cap (PInt 10000000000) then LARGE_CAP
  else if py_ge market_cap (PInt 1000000000) then MID_CAP
  else SMALL_CAP.

End Formatters.

(** ** lib/retry.py *)

Module Retry.
Local Open Scope py_scope.

(** [exception.response], which an [httpx.HTTPStatusError] always has. *)
Definition response_of (exception : exception) : option Response :=
  match exception with
  | HTTPStatusError_ response => Some response
  | _ => None
  end.

(** [is_retryable_error(exception)], test after test as in the source. *)
Definition is_retryable_error (exception : exception) : bool :=
  if isinstance_any exception [TimeoutException; AsyncioTimeoutError] then true
  else if isinstance_any exception [ConnectError; ConnectTimeout] then true
  else if isinstance exception HTTPStatusError then
    match response_of exception with
    | Some response => (500 <=? status_code response) && (status_code response <? 600)
    | None => false
    end
  else if isinstance exception HTTPStatusError then
    match response_of exception with
    | Some response => status_code response =? 429
    | None => false
    end
  else false.

(** What the executor does that the outside can observe: a call of the
    wrapped operation (with the index of the attempt) and a sleep. *)
Inductive event : Type :=
| Invoke (attempt : Z)
| Sleep (delay : num).

(** The float [30.0]. *)
Definition thirty : num := PFloat (mkfloat 30 0).

(** [min(base_delay * (2**attempt), 30.0)] *)
Definition delay_of (attempt : Z) (base_delay : num) : outcome num :=
  scaled <- py_mul base_delay (PInt (2 ^ attempt)) ;;
  Return (py_min scaled thirty).

(** [exponential_backoff_delay(attempt, base_delay)]: the events it adds. *)
Definition exponential_backoff_delay (attempt : Z) (base_delay : num)
  : outcome unit * list event :=
  match delay_of attempt base_delay with
  | Return delay => (Return tt, [Sleep delay])
  | Raise e => (Raise e, [])
  end.

(** [range(n)] *)
Definition range (n : Z) : list Z :=
  map Z.of_nat (seq 0 (Z.to_nat n)).

Section Wrapper.
Context {S T : Type}.
Variable max_attempts : Z.
Variable base_delay : num.
Variable retryable_exceptions : list exn_class.
(** The wrapped operation: a call changes the state of its environment
    and returns or raises. *)
Variable func : S -> outcome T * S.

Definition run : Type := outcome T * S * list event.

Definition after (events : list event) (r : run) : run :=
  let '(result, s, trace) := r in (result, s, events ++ trace).

(** The [for attempt in range(max_attempts)] loop and the two statements
    that follow it. *)
Fixpoint attempts (rng : list Z) (last_exception : option exception) (s : S)
  : run :=
  match rng with
  | [] =>
      match last_exception with
      | None => (Raise (Exc AssertionError), s, [])
      | Some e => (Raise (RetryExhausted_ max_attempts e), s, [])
      end
  | attempt :: rest =>
      let '(result, s1) := func s in
      after [Invoke attempt]
        match result with
        | Return r => (Return r, s1, [])
        | Raise e =>
            if isinstance_any e retryable_exceptions then
              if negb (is_retryable_error e) then (Raise e, s1, [])
              else if attempt =? max_attempts - 1
              then (Raise (RetryExhausted_ max_attempts e), s1, [])
              else
                match exponential_backoff_delay attempt base_delay with
                | (Return _, slept) => after slept (attempts rest (Some e) s1)
                | (Raise e', slept) => (Raise e', s1, slept)
                end
            else (Raise e, s1, [])
        end
  end.

Definition wrapper (s : S) : run :=
  attempts (range max_attempts) None s.

End Wrapper.

(** [retry_with_backoff(max_attempts, base_delay, retryable_exceptions)(func)] *)
Definition retry_with_backoff {S T : Type} (max_attempts : Z) (base_delay : num)
  (retryable_exceptions : list exn_class) (func : S -> outcome T * S)
  : S -> outcome T * S * list event :=
  wrapper max_attempts base_delay retryable_exceptions func.

(** [retry_api_call] *)
Definition retry_api_call {S T : Type} (func : S -> outcome T * S)
  : S -> outcome T * S * list event :=
  retry_with_backoff 3 (PFloat (mkfloat 1 0))
    [TimeoutException; ConnectError; ConnectTimeout; HTTPStatusError] func.

(** The events of a run, in order. *)
Definition trace_of {S T : Type} (r : outcome T * S * list event) : list event :=
  snd r.

(** How many times the wrapped operation was called. *)
Definition call_count (trace : list event) : nat :=
  List.length (filter (fun ev => match ev with Invoke _ => true | Sleep _ => false end) trace).

End Retry.

(** ** Python objects handled by the validator, the mappers and the cache *)

Module Values.
Import Formatters.

(** [datetime]: [utcoffset] is [None] for a naive value and the offset from
    UTC in microseconds for an aware one; [micros] counts microseconds, of
    the instant for an aware value and of the wall-clock reading for a
    naive one. *)
Record datetime : Type := { utcoffset : option Z; micros : Z }.

Definition utc (instant : Z) : datetime :=
  {| utcoffset := Some 0; micros := instant |}.
Definition naive (reading : Z) : datetime :=
  {| utcoffset := None; micros := reading |}.

(** The objects that occur in records, payloads and cached values: the
    JSON types, [datetime], the members of the [MarketCategory] enum, and
    [VObject] for an object of any other type, of which only the type name
    and the truth value are kept. *)
#[warnings="-register-all"] Inductive value : Type :=
| VNone
| VBool (b : bool)
| VInt (z : Z)
| VFloat (f : float)
| VStr (s : string)
| VEnum (c : MarketCategory)
| VDatetime (d : datetime)
| VList (items : list value)
| VDict (entries : list (string * value))
| VObject (type_name : string) (truth : bool).

(** [dict[str, Any]] *)
Definition dict : Type := list (string * value).

Fixpoint lookup (d : dict) (key : string) : option value :=
  match d with
  | [] => None
  | (k, v) :: rest => if String.eqb k key then Some v else lookup rest key
  end.

(** [d.get(key, default)] and [d.get(key)] *)
Definition get_default (d : dict) (key : string) (default : value) : value :=
  match lookup d key with Some v => v | None => default end.
Definition get (d : dict) (key : string) : value := get_default d key VNone.

(** [d[key]] *)
Definition getitem (d : dict) (key : string) : outcome value :=
  match lookup d key with Some v => Return v | None => Raise (Exc KeyError) end.

(** [bool(v)] *)
Definition truthy (v : value) : bool :=
  match v with
  | VNone => false
  | VBool b => b
  | VInt z => negb (z =? 0)
  | VFloat f => negb (is_zero f)
  | VStr s => negb (String.eqb s "")
  | VEnum c => negb (String.eqb (category_value c) "")
  | VDatetime _ => true
  | VList items => match items with [] => false | _ => true end
  | VDict entries => match entries with [] => false | _ => true end
  | VObject _ truth => truth
  end.

(** [isinstance(v, str)]: the enum derives from [str]. *)
Definition is_str (v : value) : bool :=
  match v with VStr _ | VEnum _ => true | _ => false end.

(** [isinstance(v, int)]: [bool] derives from [int]. *)
Definition as_int (v : value) : option Z :=
  match v with
  | VBool b => Some (if b then 1 else 0)
  | VInt z => Some z
  | _ => None
  end.

(** [isinstance(v, (int, float))] *)
Definition as_num (v : value) : option num :=
  match v with
  | VBool b => Some (PInt (if b then 1 else 0))
  | VInt z => Some (PInt z)
  | VFloat f => Some (PFloat f)
  | _ => None
  end.

Definition of_num (x : num) : value :=
  match x with PInt z => VInt z | PFloat f => VFloat f end.

Definition is_datetime (v : value) : bool :=
  match v with VDatetime _ => true | _ => false end.

(** The text of a [str] instance. *)
Definition str_value (v : value) : option string :=
  match v with
  | VStr s => Some s
  | VEnum c => Some (category_value c)
  | _ => None
  end.

(** [v == s] for a string literal [s] *)
Definition eq_str (v : value) (s : string) : bool :=
  match str_value v with Some t => String.eqb t s | None => false end.

(** [v in [s1, ..., sn]] for string literals *)
Definition in_strs (v : value) (strs : list string) : bool :=
  existsb (eq_str v) strs.

End Values.

(** ** services/validation_service.py *)

Module Validation.
Import Formatters Values.
Local Open Scope py_scope.

(** The messages appended to [errors], one constructor per message of the
    source; an index or an age that the message quotes is an argument. *)
Inductive validation_error : Type :=
| Invalid_id                        (* Missing or invalid id: must be non-empty string *)
| Invalid_symbol                    (* Missing or invalid symbol: ... *)
| Invalid_name                      (* Missing or invalid name: ... *)
| Invalid_currentPrice              (* must be positive number *)
| Invalid_marketCap                 (* must be positive number *)
| Invalid_volume24h                 (* must be non-negative number *)
| Invalid_priceChange24h            (* must be number *)
| Invalid_priceChangePercent24h     (* must be finite number *)
| Invalid_rank                      (* must be integer between 1 and 20 *)
| Invalid_lastUpdated               (* must be datetime object *)
| Stale_lastUpdated (age_micros : Z) (* data is stale (... minutes old, ...) *)
| Invalid_sparklineData             (* must be array *)
| Long_sparklineData                (* maximum 168 data points allowed *)
| Invalid_sparkline_point (i : nat)     (* sparklineData[i]: must be PriceDataPoint object *)
| Invalid_sparkline_timestamp (i : nat) (* sparklineData[i].timestamp: must be datetime *)
| Invalid_sparkline_price (i : nat)     (* sparklineData[i].price: must be positive number *)
| Invalid_priceDirection            (* must be 'up' or 'down' *)
| Invalid_marketCapCategory         (* must be 'small', 'mid', or 'large' *)
| Invalid_timestamp                 (* Invalid timestamp: must be datetime object *)
| Invalid_price.                    (* Invalid price: must be positive number *)

(** [class ValidationResult] *)
Record ValidationResult : Type := {
  is_valid : bool;
  errors : list validation_error;
  data : option dict
}.

(** [if cond: errors.append(message)] *)
Definition append_if (cond : bool) (message : validation_error)
  (errors : list validation_error) : list validation_error :=
  if cond then errors ++ [message] else errors.

(** [not data.get(key) or not isinstance(data[key], str)] *)
Definition not_a_name (data : dict) (key : string) : outcome bool :=
  if negb (truthy (get data key)) then Return true
  else v <- getitem data key ;; Return (negb (is_str v)).

(** [not isinstance(v, (int, float)) or test(v)] *)
Definition not_a_number_or (v : value) (test : num -> bool) : bool :=
  match as_num v with
  | None => true
  | Some x => test x
  end.

(** [_is_finite(value)] *)
Definition _is_finite (value : num) : outcome bool :=
  nan <- math_isnan value ;;
  if nan then Return false
  else inf <- math_isinf value ;; Return (negb inf).

(** The body of the loop over [enumerate(sparkline_data)], from index [i]. *)
Fixpoint sparkline_errors (i : nat) (points : list value)
  (errors : list validation_error) : list validation_error :=
  match points with
  | [] => errors
  | point :: rest =>
      match point with
      | VDict point =>
          let errors :=
            append_if (negb (is_datetime (get point "timestamp")))
              (Invalid_sparkline_timestamp i) errors in
          let price := get point "price" in
          let errors :=
            append_if (not_a_number_or price (fun p => py_le p (PInt 0)))
              (Invalid_sparkline_price i) errors in
          sparkline_errors (S i) rest errors
      | _ =>
          sparkline_errors (S i) rest (errors ++ [Invalid_sparkline_point i])
      end
  end.

(** Five minutes, in microseconds. *)
Definition five_minutes : Z := 300000000.

(** [validate_cryptocurrency(data)], where [now] is the instant that
    [datetime.now(timezone.utc)] returns.  Subtracting a naive datetime from
    it raises [TypeError].  The age test [age_minutes > 5], with
    [age_minutes = total_seconds() / 60], is written on the microseconds of
    the difference: both divisions round monotonically and keep 300 and 5
    exact, so the float exceeds 5 exactly when the age exceeds 300 s. *)
Definition validate_cryptocurrency (now : Z) (data : dict)
  : outcome ValidationResult :=
  let errors := [] in
  bad_id <- not_a_name data "id" ;;
  let errors := append_if bad_id Invalid_id errors in
  bad_symbol <- not_a_name data "symbol" ;;
  let errors := append_if bad_symbol Invalid_symbol errors in
  bad_name <- not_a_name data "name" ;;
  let errors := append_if bad_name Invalid_name errors in
  let current_price := get data "currentPrice" in
  let errors :=
    append_if (not_a_number_or current_price (fun x => py_le x (PInt 0)))
      Invalid_currentPrice errors in
  let market_cap := get data "marketCap" in
  let errors :=
    append_if (not_a_number_or market_cap (fun x => py_le x (PInt 0)))
      Invalid_marketCap errors in
  let volume_24h := get data "volume24h" in
  let errors :=
    append_if (not_a_number_or volume_24h (fun x => py_lt x (PInt 0)))
      Invalid_volume24h errors in
  let price_change_24h := get data "priceChange24h" in
  let errors :=
    append_if (not_a_number_or price_change_24h (fun _ => false))
      Invalid_priceChange24h errors in
  let price_change_percent := get data "priceChangePercent24h" in
  bad_percent <-
    match as_num price_change_percent with
    | None => Return true
    | Some x => finite <- _is_finite x ;; Return (negb finite)
    end ;;
  let errors := append_if bad_percent Invalid_priceChangePercent24h errors in
  let rank := get data "rank" in
  let errors :=
    append_if
      match as_int rank with
      | None => true
      | Some r => (r <? 1) || (20 <? r)
      end
      Invalid_rank errors in
  let last_updated := get data "lastUpdated" in
  errors <-
    match last_updated with
    | VDatetime last_updated =>
        match utcoffset last_updated with
        | None => Raise (Exc TypeError)
        | Some _ =>
            let age_micros := now - micros last_updated in
            Return (append_if (five_minutes <? age_micros)
                      (Stale_lastUpdated age_micros) errors)
        end
    | _ => Return (errors ++ [Invalid_lastUpdated])
    end ;;
  let sparkline_data := get data "sparklineData" in
  let errors :=
    match sparkline_data with
    | VList sparkline_data =>
        if (168 <? List.length sparkline_data)%nat
        then errors ++ [Long_sparklineData]
        else if (0 <? List.length sparkline_data)%nat
        then sparkline_errors 0 sparkline_data errors
        else errors
    | _ => errors ++ [Invalid_sparklineData]
    end in
  let price_direction := get data "priceDirection" in
  let errors :=
    append_if (negb (in_strs price_direction ["up"; "down"]%string))
      Invalid_priceDirection errors in
  let market_cap_category := get data "marketCapCategory" in
  let errors :=
    append_if (negb (in_strs market_cap_category ["small"; "mid"; "large"]%string))
      Invalid_marketCapCategory errors in
  Return {| is_valid := (List.length errors =? 0)%nat;
            errors := errors;
            data := if (List.length errors =? 0)%nat then Some data else None |}.

(** [validate_price_data_point(point)] *)
Definition validate_price_data_point (point : dict) : ValidationResult :=
  let errors := [] in
  let errors :=
    append_if (negb (is_datetime (get point "timestamp"))) Invalid_timestamp errors in
  let price := get point "price" in
  let errors :=
    append_if (not_a_number_or price (fun p => py_le p (PInt 0))) Invalid_price errors in
  {| is_valid := (List.length errors =? 0)%nat;
     errors := errors;
     data := if (List.length errors =? 0)%nat then Some point else None |}.

(** An entry of [invalid_cryptos]: the dict with keys [id], [errors], [data]. *)
Record rejection : Type := {
  rejected_id : value;
  rejected_errors : list validation_error;
  rejected_data : dict
}.

(** The [for] loop of [filter_valid_cryptocurrencies] from the [i]-th entry
    on, without the logging that follows it ([log_rejections] below);
    [clock i] is the instant the clock shows while entry [i] is validated.
    [validation.is_valid and validation.data] holds when [is_valid] is set
    and [data] is a non-empty dict. *)
Fixpoint filter_from (clock : nat -> Z) (i : nat) (crypto_list : list dict)
  (valid_cryptos : list dict) (invalid_cryptos : list rejection)
  : outcome (list dict * list rejection) :=
  match crypto_list with
  | [] => Return (valid_cryptos, invalid_cryptos)
  | crypto_data :: rest =>
      validation <- validate_cryptocurrency (clock i) crypto_data ;;
      let invalid :=
        {| rejected_id := get_default crypto_data "id" (VStr "unknown");
           rejected_errors := errors validation;
           rejected_data := crypto_data |} in
      match is_valid validation, data validation with
      | true, Some d =>
          if truthy (VDict d)
          then filter_from clock (S i) rest (valid_cryptos ++ [d]) invalid_cryptos
          else filter_from clock (S i) rest valid_cryptos (invalid_cryptos ++ [invalid])
      | _, _ =>
          filter_from clock (S i) rest valid_cryptos (invalid_cryptos ++ [invalid])
      end
  end.

Section Logging.
(** The console.  The filter prints a summary line with the number of
    rejected entries and then one line for each of them, in which it formats
    the id and the messages; formatting and printing a line changes the
    console and may raise (an id that cannot be formatted, a text that the
    stream cannot encode, a closed stream). *)
Variable console : Type.
Variable print_summary : nat -> console -> outcome unit * console.
Variable print_rejection : rejection -> console -> outcome unit * console.

(** [for invalid in invalid_cryptos: print(...)] *)
Fixpoint print_rejections (invalid_cryptos : list rejection) (out : console)
  : outcome unit * console :=
  match invalid_cryptos with
  | [] => (Return tt, out)
  | invalid :: rest =>
      match print_rejection invalid out with
      | (Raise e, out) => (Raise e, out)
      | (Return _, out) => print_rejections rest out
      end
  end.

(** [if invalid_cryptos: ...], the logging after the loop. *)
Definition log_rejections (invalid_cryptos : list rejection) (out : console)
  : outcome unit * console :=
  match invalid_cryptos with
  | [] => (Return tt, out)
  | _ :: _ =>
      match print_summary (List.length invalid_cryptos) out with
      | (Raise e, out) => (Raise e, out)
      | (Return _, out) => print_rejections invalid_cryptos out
      end
  end.

Definition filter_valid_cryptocurrencies (clock : nat -> Z) (crypto_list : list dict)
  (out : console) : outcome (list dict * list rejection) * console :=
  match filter_from clock 0 crypto_list [] [] with
  | Raise e => (Raise e, out)
  | Return (valid_cryptos, invalid_cryptos) =>
      match log_rejections invalid_cryptos out with
      | (Raise e, out) => (Raise e, out)
      | (Return _, out) => (Return (valid_cryptos, invalid_cryptos), out)
      end
  end.

End Logging.

End Validation.

(** ** services/coingecko_client.py *)

Module CoinGecko.
Import Values.
Local Open Scope py_scope.

(** [timedelta(hours=1)] and [timedelta(days=1)], in microseconds. *)
Definition hour : Z := 3600000000.
Definition day : Z := 24 * hour.

(** [datetime.min] (0001-01-01T00:00:00) and [datetime.max]
    (9999-12-31T23:59:59.999999), as instants of the UTC clock in
    microseconds. *)
Definition datetime_min : Z := -62135596800000000.
Definition datetime_max : Z := 253402300799999999.

(** [now.replace(minute=0, second=0, microsecond=0)] on a UTC datetime. *)
Definition top_of_hour (now : Z) : Z := now - now mod hour.

(** [timedelta(hours=h)], in microseconds: a timedelta holds at most
    999999999 days, of either sign. *)
Definition timedelta_hours (h : Z) : outcome Z :=
  let delta := h * hour in
  if (delta / day <? -999999999) || (999999999 <? delta / day)
  then Raise (Exc OverflowError)
  else Return delta.

(** [d - delta] for a datetime [d]: the result has to be a datetime. *)
Definition datetime_sub (d delta : Z) : outcome Z :=
  let result := d - delta in
  if (result <? datetime_min) || (datetime_max <? result)
  then Raise (Exc OverflowError)
  else Return result.

(** A [PriceDataPoint] dictionary. *)
Definition price_data_point (timestamp : Z) (price : value) : dict :=
  [("timestamp", VDatetime (utc timestamp)); ("price", price)]%string.

(** The loop over [enumerate(prices)]: [rest] is what is left of [prices]
    from index [i] on, [n] is [len(prices)]. *)
Fixpoint sparkline_from (now n i : Z) (rest : list value)
  (price_data_points : list dict) : outcome (list dict) :=
  match rest with
  | [] => Return price_data_points
  | price :: rest =>
      let hours_ago := n - i - 1 in
      delta <- timedelta_hours hours_ago ;;
      timestamp <- datetime_sub (top_of_hour now) delta ;;
      sparkline_from now n (i + 1) rest
        (price_data_points ++ [price_data_point timestamp price])
  end.

(** [map_sparkline_data(prices)], where [now] is the instant that
    [datetime.now(timezone.utc)] returns. *)
Definition map_sparkline_data (now : Z) (prices : list value) : outcome (list dict) :=
  if negb (truthy (VList prices)) then Return []
  else sparkline_from now (Z.of_nat (List.length prices)) 0 prices [].

End CoinGecko.

(** ** services/coinmarketcap_client.py *)

Module CoinMarketCap.
Import Formatters Values.
Local Open Scope py_scope.

(** [v[key]] for a string key: only a dict can be indexed by a string. *)
Definition subscript (v : value) (key : string) : outcome value :=
  match v with
  | VDict d => getitem d key
  | _ => Raise (Exc TypeError)
  end.

(** An operand of [/], [*], [>=] or [>] against a number: anything that
    is not a number raises [TypeError]. *)
Definition number (v : value) : outcome num :=
  match as_num v with
  | Some x => Return x
  | None => Raise (Exc TypeError)
  end.

(** [s.replace('Z', '+00:00')] *)
Fixpoint replace_Z (s : string) : string :=
  match s with
  | EmptyString => EmptyString
  | String c rest =>
      if Ascii.eqb c "Z" then ("+00:00" ++ replace_Z rest)%string
      else String c (replace_Z rest)
  end.

Section Mapper.
(** [str.lower] and [datetime.fromisoformat] of the interpreter. *)
Variable str_lower : string -> string.
Variable fromisoformat : string -> outcome datetime.

(** [v.lower()] *)
Definition lower (v : value) : outcome value :=
  match str_value v with
  | Some s => Return (VStr (str_lower s))
  | None => Raise (Exc AttributeError)
  end.

(** [datetime.fromisoformat(v.replace('Z', '+00:00'))] *)
Definition parse_timestamp (v : value) : outcome value :=
  match str_value v with
  | Some s => d <- fromisoformat (replace_Z s) ;; Return (VDatetime d)
  | None => Raise (Exc AttributeError)
  end.

Definition map_coinmarketcap_response (api_data : dict) : outcome dict :=
  quote <- getitem api_data "quote" ;;
  usd_quote <- subscript quote "USD" ;;
  percent <- subscript usd_quote "percent_change_24h" ;;
  percent <- number percent ;;
  fraction <- py_truediv percent (PInt 100) ;;
  price <- subscript usd_quote "price" ;;
  price <- number price ;;
  price_change_24h <- py_mul fraction price ;;
  symbol <- getitem api_data "symbol" ;;
  id <- lower symbol ;;
  symbol <- getitem api_data "symbol" ;;
  name <- getitem api_data "name" ;;
  current_price <- subscript usd_quote "price" ;;
  market_cap <- subscript usd_quote "market_cap" ;;
  volume_24h <- subscript usd_quote "volume_24h" ;;
  price_change_percent <- subscript usd_quote "percent_change_24h" ;;
  rank <- getitem api_data "cmc_rank" ;;
  last_updated <- subscript usd_quote "last_updated" ;;
  last_updated <- parse_timestamp last_updated ;;
  percent <- subscript usd_quote "percent_change_24h" ;;
  percent <- number percent ;;
  let price_direction := (if py_ge percent (PInt 0) then "up" else "down")%string in
  cap <- subscript usd_quote "market_cap" ;;
  cap <- number cap ;;
  Return [ ("id", id);
           ("symbol", symbol);
           ("name", name);
           ("currentPrice", current_price);
           ("marketCap", market_cap);
           ("volume24h", volume_24h);
           ("priceChange24h", of_num price_change_24h);
           ("priceChangePercent24h", price_change_percent);
           ("sparklineData", VList []);
           ("rank", rank);
           ("lastUpdated", last_updated);
           ("priceDirection", VStr price_direction);
           ("marketCapCategory", VEnum (compute_market_cap_category cap)) ]%string.

End Mapper.

End CoinMarketCap.

(** ** lib/redis_client.py and services/cache_service.py *)

Module CacheService.
Import Formatters Values.
Local Open Scope py_scope.

Section Service.
(** The state of the backing store: the server and the connection to it. *)
Variable store : Type.

(** The commands of a Redis client that the service uses; a command runs
    against the store and returns or raises. *)
Record Redis : Type := {
  redis_get : string -> store -> outcome (option string) * store;
  redis_setex : string -> Z -> string -> store -> outcome unit * store
}.

(** [json.loads], the text that [json.dumps] writes for a value made of
    JSON types only, and [datetime.isoformat]. *)
Variable json_loads : string -> outcome value.
Variable json_text : value -> string.
Variable isoformat : datetime -> string.

(** [get_redis_client()], given the global [_redis_client]. *)
Definition get_redis_client (_redis_client : option Redis) : outcome Redis :=
  match _redis_client with
  | None => Raise (Exc RuntimeError)
  | Some client => Return client
  end.

(** [_json_serializer(obj)]: what it returns is a [str]. *)
Definition _json_serializer (obj : value) : outcome string :=
  match obj with
  | VDatetime d => Return (isoformat d)
  | _ => Raise (Exc TypeError)
  end.

(** The traversal of [json.dumps(data, default=default)]: a value of a
    JSON type is kept, any other object is replaced by [default(obj)]. *)
Fixpoint jsonable (default : value -> outcome string) (obj : value)
  : outcome value :=
  match obj with
  | VNone | VBool _ | VInt _ | VFloat _ | VStr _ => Return obj
  | VEnum c => Return (VStr (category_value c))
  | VList items =>
      items <-
        (fix each (l : list value) : outcome (list value) :=
           match l with
           | [] => Return []
           | x :: l => x <- jsonable default x ;; l <- each l ;; Return (x :: l)
           end) items ;;
      Return (VList items)
  | VDict entries =>
      entries <-
        (fix each (l : list (string * value)) : outcome (list (string * value)) :=
           match l with
           | [] => Return []
           | (k, x) :: l => x <- jsonable default x ;; l <- each l ;; Return ((k, x) :: l)
           end) entries ;;
      Return (VDict entries)
  | VDatetime _ | VObject _ _ => s <- default obj ;; Return (VStr s)
  end.

(** [json.dumps(data, default=_json_serializer)] *)
Definition json_dumps (data : value) : outcome string :=
  tree <- jsonable _json_serializer data ;; Return (json_text tree).

(** [try: body / except cls: handler] *)
Definition try_except {A : Type} (body : outcome A * store) (cls : exn_class)
  (handler : exception -> store -> outcome A * store) : outcome A * store :=
  match body with
  | (Raise e, s) => if isinstance e cls then handler e s else (Raise e, s)
  | (Return a, s) => (Return a, s)
  end.

(** [CacheService._get_json(key)] *)
Definition _get_json (_redis_client : option Redis) (key : string) (s : store)
  : outcome value * store :=
  try_except
    match get_redis_client _redis_client with
    | Raise e => (Raise e, s)
    | Return client =>
        match redis_get client key s with
        | (Raise e, s1) => (Raise e, s1)
        | (Return None, s1) => (Return VNone, s1)
        | (Return (Some value), s1) => (json_loads value, s1)
        end
    end
    Exception
    (fun _ s1 => (Return VNone, s1)).

(** [CacheService._set_json(key, data, ttl)] *)
Definition _set_json (_redis_client : option Redis) (key : string) (data : value)
  (ttl : Z) (s : store) : outcome unit * store :=
  try_except
    match get_redis_client _redis_client with
    | Raise e => (Raise e, s)
    | Return client =>
        match json_dumps data with
        | Raise e => (Raise e, s)
        | Return value => redis_setex client key ttl value s
        end
    end
    Exception
    (fun _ s1 => (Return tt, s1)).

End Service.

Arguments redis_get {store}.
Arguments redis_setex {store}.

End CacheService.

(** ** lib/formatters.py: the formatting functions *)

Module Formatting.
Local Open Scope py_scope.
Local Open Scope string_scope.

(** [abs(x)] and [-x] *)
Definition py_abs (x : num) : num :=
  match x with
  | PInt z => PInt (Z.abs z)
  | PFloat f => PFloat (SFabs f)
  end.
Definition py_neg (x : num) : num :=
  match x with
  | PInt z => PInt (- z)
  | PFloat f => PFloat (SFopp f)
  end.

(** The float literal [0.01]. *)
Definition hundredth : num := PFloat (SFdiv prec emax (raw_int 1) (raw_int 100)).

Section Format.
(** The number formatting of the interpreter: [format(x, '.{d}f')],
    [format(x, ',.{d}f')] and [format(x, '.4e')].  A format raises when an
    int does not fit a float or the precision is refused. *)
Variable fixed : Z -> num -> outcome string.
Variable grouped : Z -> num -> outcome string.
Variable scientific : num -> outcome string.

Definition format_price (price : num) (decimals : Z) : outcome string :=
  if py_ge price (PInt 1000000000000) then
    scaled <- py_truediv price (PInt 1000000000000) ;;
    text <- fixed 2 scaled ;; Return ("$" ++ text ++ "T")
  else if py_ge price (PInt 1000000000) then
    scaled <- py_truediv price (PInt 1000000000) ;;
    text <- fixed 2 scaled ;; Return ("$" ++ text ++ "B")
  else if py_ge price (PInt 1000000) then
    scaled <- py_truediv price (PInt 1000000) ;;
    text <- fixed 2 scaled ;; Return ("$" ++ text ++ "M")
  else if py_ge price (PInt 1000) then
    scaled <- py_truediv price (PInt 1000) ;;
    text <- fixed 2 scaled ;; Return ("$" ++ text ++ "K")
  else if py_lt price hundredth then
    text <- scientific price ;; Return ("$" ++ text)
  else
    text <- grouped decimals price ;; Return ("$" ++ text).

(** [format_market_cap(market_cap)] and [format_volume(volume)] *)
Definition format_market_cap (market_cap : num) : outcome string :=
  format_price market_cap 2.
Definition format_volume (volume : num) : outcome string :=
  format_price volume 2.

Definition format_percentage (percentage : num) (decimals : Z) (include_sign : bool)
  : outcome string :=
  if include_sign then
    let sign := if py_ge percentage (PInt 0) then "+" else "" in
    text <- fixed decimals percentage ;; Return (sign ++ text ++ "%")
  else
    text <- fixed decimals (py_abs percentage) ;; Return (text ++ "%").

Definition format_number_compact (value : num) : outcome string :=
  if py_ge value (PInt 1000000000000) then
    scaled <- py_truediv value (PInt 1000000000000) ;;
    text <- fixed 2 scaled ;; Return (text ++ "T")
  else if py_ge value (PInt 1000000000) then
    scaled <- py_truediv value (PInt 1000000000) ;;
    text <- fixed 2 scaled ;; Return (text ++ "B")
  else if py_ge value (PInt 1000000) then
    scaled <- py_truediv value (PInt 1000000) ;;
    text <- fixed 2 scaled ;; Return (text ++ "M")
  else if py_ge value (PInt 1000) then
    scaled <- py_truediv value (PInt 1000) ;;
    text <- fixed 2 scaled ;; Return (text ++ "K")
  else
    fixed 2 value.

End Format.

End Formatting.

(** ** lib/error_handling.py *)

Module ErrorHandling.
Local Open Scope string_scope.

(** [d.get(key, default)] on a dict of texts. *)
Fixpoint mapping_get (d : list (string * string)) (key default : string) : string :=
  match d with
  | [] => default
  | (k, v) :: rest => if String.eqb k key then v else mapping_get rest key default
  end.

Definition error_mappings : list (string * string) :=
  [ ("TimeoutError", "Request timed out. Please try again.");
    ("ConnectionError", "Unable to connect to service. Please try again later.");
    ("HTTPStatusError", "External service error. Please try again later.");
    ("ValidationError", "Invalid data format. Please check your input.") ].

Section Messages.
(** The exceptions that can be passed, of any class whatever, and
    [type(exception).__name__], which is all that the function reads of
    its argument. *)
Variable Exn : Type.
Variable type_name : Exn -> string.

Definition safe_error_message (exception : Exn) : string :=
  let exception_type := type_name exception in
  mapping_get error_mappings exception_type
    "An unexpected error occurred. Please try again later.".

End Messages.

(** [create_degraded_service_warning()] *)
Definition create_degraded_service_warning : string :=
  "Data may be stale. External APIs unavailable.".

End ErrorHandling.

(** ** services/cache_service.py: the keys and the public methods *)

Module CacheApi.
Import Values CacheService.
Local Open Scope string_scope.

(** The keys: the literals and the f-strings of the methods. *)
Definition top_key : string := "crypto:list:top20".
Definition gainers_key : string := "crypto:gainers:top20".
Definition losers_key : string := "crypto:losers:top20".
Definition details_key (crypto_id : string) : string := "crypto:details:" ++ crypto_id.
Definition sparkline_key (crypto_id : string) : string := "crypto:sparkline:" ++ crypto_id.

(** [ttl or default] for [ttl: Optional[int]]: [None] and [0] are falsy. *)
Definition ttl_or (ttl : option Z) (default : Z) : Z :=
  match ttl with
  | Some t => if Z.eqb t 0 then default else t
  | None => default
  end.

(** [self.sparkline_ttl] *)
Definition sparkline_ttl : Z := 3600.

Section Api.
Variable store : Type.
Variable json_loads : string -> outcome value.
Variable json_text : value -> string.
Variable isoformat : datetime -> string.
(** [self.default_ttl], read from the environment by [__init__], and the
    global [_redis_client]. *)
Variable default_ttl : Z.
Variable _redis_client : option (Redis store).

Definition get_top_cryptocurrencies (s : store) : outcome value * store :=
  _get_json store json_loads _redis_client top_key s.
Definition set_top_cryptocurrencies (data : value) (ttl : option Z) (s : store)
  : outcome unit * store :=
  _set_json store json_text isoformat _redis_client top_key data
    (ttl_or ttl default_ttl) s.

Definition get_gainers (s : store) : outcome value * store :=
  _get_json store json_loads _redis_client gainers_key s.
Definition set_gainers (data : value) (ttl : option Z) (s : store)
  : outcome unit * store :=
  _set_json store json_text isoformat _redis_client gainers_key data
    (ttl_or ttl default_ttl) s.

Definition get_losers (s : store) : outcome value * store :=
  _get_json store json_loads _redis_client losers_key s.
Definition set_losers (data : value) (ttl : option Z) (s : store)
  : outcome unit * store :=
  _set_json store json_text isoformat _redis_client losers_key data
    (ttl_or ttl default_ttl) s.

Definition get_cryptocurrency_details (crypto_id : string) (s : store)
  : outcome value * store :=
  _get_json store json_loads _redis_client (details_key crypto_id) s.
Definition set_cryptocurrency_details (crypto_id : string) (data : value)
  (ttl : option Z) (s : store) : outcome unit * store :=
  _set_json store json_text isoformat _redis_client (details_key crypto_id) data
    (ttl_or ttl default_ttl) s.

Definition get_sparkline (crypto_id : string) (s : store) : outcome value * store :=
  _get_json store json_loads _redis_client (sparkline_key crypto_id) s.
Definition set_sparkline (crypto_id : string) (data : value) (ttl : option Z)
  (s : store) : outcome unit * store :=
  _set_json store json_text isoformat _redis_client (sparkline_key crypto_id) data
    (ttl_or ttl sparkline_ttl) s.

End Api.

End CacheApi.

(** ** The request methods of the two API clients *)

Module Clients.
Import Values Retry CoinMarketCap.
Local Open Scope py_scope.

Section Client.
(** The network, as the requests see it. *)
Variable W : Type.
(** Of the HTTP library: entering and leaving
    [async with httpx.AsyncClient(...) as client], [client.get(...)],
    [response.raise_for_status()] and [response.json()]. *)
Variable aenter : W -> outcome unit * W.
Variable aexit : W -> outcome unit * W.
Variable request : W -> outcome Response * W.
Variable raise_for_status : Response -> outcome unit.
Variable json : Response -> outcome value.

(** [async with ...: body]: the exit runs whether or not the body raised,
    and a failure of the exit is the failure of the block. *)
Definition async_with {A : Type} (body : W -> outcome A * W) (s : W) : outcome A * W :=
  match aenter s with
  | (Raise e, s1) => (Raise e, s1)
  | (Return _, s1) =>
      let '(result, s2) := body s1 in
      match aexit s2 with
      | (Raise e, s3) => (Raise e, s3)
      | (Return _, s3) => (result, s3)
      end
  end.

(** The body of [CoinGeckoClient.get_top_cryptocurrencies] and of
    [get_cryptocurrency_by_id]. *)
Definition fetch : W -> outcome value * W :=
  async_with (fun s =>
    match request s with
    | (Return response, s1) => (_ <- raise_for_status response ;; json response, s1)
    | (Raise e, s1) => (Raise e, s1)
    end).

(** The body of [CoinMarketCapClient.get_top_cryptocurrencies], which
    returns [response.json()['data']]. *)
Definition fetch_data : W -> outcome value * W :=
  async_with (fun s =>
    match request s with
    | (Return response, s1) =>
        (_ <- raise_for_status response ;;
         payload <- json response ;;
         subscript payload "data", s1)
    | (Raise e, s1) => (Raise e, s1)
    end).

(** The body of [ping], of either client. *)
Definition probe (s : W) : outcome bool * W :=
  match
    async_with (fun s =>
      match request s with
      | (Return response, s1) => (_ <- raise_for_status response ;; Return true, s1)
      | (Raise e, s1) => (Raise e, s1)
      end) s
  with
  | (Raise e, s1) => if isinstance e Exception then (Return false, s1) else (Raise e, s1)
  | (Return available, s1) => (Return available, s1)
  end.

(** The methods, decorated with [@retry_api_call]. *)
Definition get_top_cryptocurrencies : W -> outcome value * W * list event :=
  retry_api_call fetch.
Definition get_cryptocurrency_by_id : W -> outcome value * W * list event :=
  retry_api_call fetch.
Definition get_top_listings : W -> outcome value * W * list event :=
  retry_api_call fetch_data.
Definition ping : W -> outcome bool * W * list event :=
  retry_api_call probe.

End Client.

End Clients.

(** ** services/coingecko_client.py: the mapper *)

Module CoinGeckoMapper.
Import Formatters Values CoinGecko CoinMarketCap.
Local Open Scope py_scope.

(** [key in d] *)
Definition contains (d : dict) (key : string) : bool :=
  match lookup d key with Some _ => true | None => false end.

(** [v.get(key, default)]: of the objects of a payload only a dict has
    the method. *)
Definition method_get (v : value) (key : string) (default : value) : outcome value :=
  match v with
  | VDict d => Return (get_default d key default)
  | _ => Raise (Exc AttributeError)
  end.

Section Mapper.
(** [str.upper], [datetime.fromisoformat] and the iteration over a [str],
    which yields its characters as texts, of the interpreter. *)
Variable str_upper : string -> string.
Variable fromisoformat : string -> outcome datetime.
Variable characters : string -> list string.

(** What [enumerate(v)] goes through, [len(v)] items: the items of a list,
    the keys of a dict, the characters of a str; the other objects of a
    payload are not iterable. *)
Definition items_of (v : value) : outcome (list value) :=
  match v with
  | VList items => Return items
  | VDict entries => Return (map (fun entry => VStr (fst entry)) entries)
  | VStr s => Return (map VStr (characters s))
  | VEnum c => Return (map VStr (characters (category_value c)))
  | _ => Raise (Exc TypeError)
  end.

(** [map_sparkline_data(prices)] on any object [prices]. *)
Definition map_sparkline (now : Z) (prices : value) : outcome (list dict) :=
  if negb (truthy prices) then Return []
  else items <- items_of prices ;;
       sparkline_from now (Z.of_nat (List.length items)) 0 items [].

(** [v.upper()] *)
Definition upper (v : value) : outcome value :=
  match str_value v with
  | Some s => Return (VStr (str_upper s))
  | None => Raise (Exc AttributeError)
  end.

Definition map_coingecko_response (now : Z) (api_data : dict) : outcome dict :=
  sparkline_prices <-
    (if contains api_data "sparkline_in_7d"
     then method_get (get_default api_data "sparkline_in_7d" (VDict [])) "price" (VList [])
     else Return (VList [])) ;;
  id <- getitem api_data "id" ;;
  symbol <- getitem api_data "symbol" ;;
  symbol <- upper symbol ;;
  name <- getitem api_data "name" ;;
  current_price <- getitem api_data "current_price" ;;
  market_cap <- getitem api_data "market_cap" ;;
  volume_24h <- getitem api_data "total_volume" ;;
  price_change_24h <- getitem api_data "price_change_24h" ;;
  price_change_percent <- getitem api_data "price_change_percentage_24h" ;;
  sparkline_data <- map_sparkline now sparkline_prices ;;
  rank <- getitem api_data "market_cap_rank" ;;
  last_updated <- getitem api_data "last_updated" ;;
  last_updated <- parse_timestamp fromisoformat last_updated ;;
  percent <- getitem api_data "price_change_percentage_24h" ;;
  percent <- number percent ;;
  let price_direction := (if py_ge percent (PInt 0) then "up" else "down")%string in
  cap <- getitem api_data "market_cap" ;;
  cap <- number cap ;;
  Return [ ("id", id);
           ("symbol", symbol);
           ("name", name);
           ("currentPrice", current_price);
           ("marketCap", market_cap);
           ("volume24h", volume_24h);
           ("priceChange24h", price_change_24h);
           ("priceChangePercent24h", price_change_percent);
           ("sparklineData", VList (map VDict sparkline_data));
           ("rank", rank);
           ("lastUpdated", last_updated);
           ("priceDirection", VStr price_direction);
           ("marketCapCategory", VEnum (compute_market_cap_category cap)) ]%string.

End Mapper.

End CoinGeckoMapper.

(** ** lib/redis_client.py: the connection pool and its client *)

Module RedisClient.
Local Open Scope py_scope.
Local Open Scope string_scope.

Section Pool.
(** The world outside the process: the server, the connections, the clock. *)
Variable W : Type.

(** The Redis client, with the commands used here, and the pool. *)
Record Client : Type := {
  client_ping : W -> outcome unit * W;
  client_close : W -> outcome unit * W
}.
Record ConnectionPool : Type := {
  disconnect : W -> outcome unit * W
}.

(** The module's globals. *)
Record globals : Type := {
  _redis_pool : option ConnectionPool;
  _redis_client : option Client
}.

(** [os.environ], [int(text)], [str(n)] inside an f-string,
    [ConnectionPool.from_url(url, ...)], [Redis(connection_pool=pool)] and
    [time.time()]. *)
Variable environ : string -> option string.
Variable int : string -> outcome Z.
Variable str : Z -> string.
Variable from_url : string -> outcome ConnectionPool.
Variable Redis : ConnectionPool -> Client.
Variable time : W -> float.

(** [os.getenv(key, default)] *)
Definition getenv (key default : string) : string :=
  match environ key with Some text => text | None => default end.

Definition get_redis_url : outcome string :=
  let host := getenv "REDIS_HOST" "localhost" in
  port <- int (getenv "REDIS_PORT" "6379") ;;
  db <- int (getenv "REDIS_DB" "0") ;;
  let password := getenv "REDIS_PASSWORD" "" in
  if negb (String.eqb password "")
  then Return ("redis://:" ++ password ++ "@" ++ host ++ ":" ++ str port ++ "/" ++ str db)
  else Return ("redis://" ++ host ++ ":" ++ str port ++ "/" ++ str db).

Definition init_redis_pool (g : globals) (s : W) : outcome unit * globals * W :=
  match get_redis_url with
  | Raise e => (Raise e, g, s)
  | Return redis_url =>
      match from_url redis_url with
      | Raise e => (Raise e, g, s)
      | Return pool =>
          let g := {| _redis_pool := Some pool; _redis_client := _redis_client g |} in
          let client := Redis pool in
          let g := {| _redis_pool := _redis_pool g; _redis_client := Some client |} in
          match client_ping client s with
          | (Raise e, s1) => (Raise e, g, s1)
          | (Return _, s1) => (Return tt, g, s1)
          end
      end
  end.

(** The second half of [close_redis_pool]. *)
Definition close_pool (g : globals) (s : W) : outcome unit * globals * W :=
  match _redis_pool g with
  | Some pool =>
      match disconnect pool s with
      | (Raise e, s1) => (Raise e, g, s1)
      | (Return _, s1) =>
          (Return tt, {| _redis_pool := None; _redis_client := _redis_client g |}, s1)
      end
  | None => (Return tt, g, s)
  end.

Definition close_redis_pool (g : globals) (s : W) : outcome unit * globals * W :=
  match _redis_client g with
  | Some client =>
      match client_close client s with
      | (Raise e, s1) => (Raise e, g, s1)
      | (Return _, s1) =>
          close_pool {| _redis_pool := _redis_pool g; _redis_client := None |} s1
      end
  | None => close_pool g s
  end.

Definition get_redis_client (g : globals) : outcome Client :=
  match _redis_client g with
  | None => Raise (Exc RuntimeError)
  | Some client => Return client
  end.

(** [(time.time() - start) * 1000] *)
Definition latency_ms (start finish : float) : float :=
  SFmul prec emax (SFsub prec emax finish start) (mkfloat 1000 0).

Definition ping_redis (g : globals) (s : W) : outcome (bool * option float) * W :=
  match
    match get_redis_client g with
    | Raise e => (Raise e, s)
    | Return client =>
        let start := time s in
        match client_ping client s with
        | (Raise e, s1) => (Raise e, s1)
        | (Return _, s1) => (Return (true, Some (latency_ms start (time s1))), s1)
        end
    end
  with
  | (Raise e, s1) =>
      if isinstance e Exception then (Return (false, None), s1) else (Raise e, s1)
  | (Return result, s1) => (Return result, s1)
  end.

End Pool.

Arguments client_ping {W}.
Arguments client_close {W}.
Arguments disconnect {W}.
Arguments _redis_pool {W}.
Arguments _redis_client {W}.

End RedisClient.

(** ** api/routes/health.py *)

Module Health.
Import Values Retry Clients RedisClient.
Local Open Scope string_scope.

Section Route.
Variable W : Type.
(** [time.time()], the instant that [datetime.now(timezone.utc)] returns,
    [datetime.isoformat], and of the HTTP library the client's context,
    the requests of the two [ping] methods and [raise_for_status]. *)
Variable time : W -> float.
Variable clock : W -> Z.
Variable isoformat : datetime -> string.
Variable aenter : W -> outcome unit * W.
Variable aexit : W -> outcome unit * W.
Variable coingecko_request : W -> outcome Response * W.
Variable coinmarketcap_request : W -> outcome Response * W.
Variable raise_for_status : Response -> outcome unit.

(** ['available' if available else 'unavailable'] *)
Definition availability (available : bool) : value :=
  VStr (if available then "available" else "unavailable").

Definition health_check (g : globals W) (s : W) : outcome dict * W :=
  match ping_redis W time g s with
  | (Raise e, s) => (Raise e, s)
  | (Return (redis_connected, redis_latency), s) =>
      let '(coingecko_available, s, _) := ping W aenter aexit coingecko_request raise_for_status s in
      match coingecko_available with
      | Raise e => (Raise e, s)
      | Return coingecko_available =>
          let '(coinmarketcap_available, s, _) :=
            ping W aenter aexit coinmarketcap_request raise_for_status s in
          match coinmarketcap_available with
          | Raise e => (Raise e, s)
          | Return coinmarketcap_available =>
              let status :=
                if negb redis_connected then "degraded"
                else if negb coingecko_available && negb coinmarketcap_available
                     then "degraded"
                     else "healthy" in
              (Return
                 [ ("status", VStr status);
                   ("timestamp", VStr (isoformat (utc (clock s))));
                   ("cache",
                    VDict [ ("connected", VBool redis_connected);
                            ("latency_ms",
                             match redis_latency with
                             | Some latency =>
                                 if truthy (VFloat latency) then VFloat latency else VNone
                             | None => VNone
                             end) ]);
                   ("external_apis",
                    VDict [ ("coingecko", availability coingecko_available);
                            ("coinmarketcap", availability coinmarketcap_available) ]) ],
               s)
          end
      end
  end.

End Route.

End Health.

(** * Properties *)

(** ** Outcomes and exception classes *)

(** Every class descends from [BaseException]: the climb is long enough. *)
Lemma issubclass_BaseException (c : exn_class) : issubclass c BaseException = true.
Proof. destruct c; reflexivity. Qed.

(** A sequence of calls returns only if each call does. *)
Lemma bind_Return_inv {A B : Type} (m : outcome A) (k : A -> outcome B) (b : B) :
  bind m k = Return b -> exists a, m = Return a /\ k a = Return b.
Proof. destruct m as [a | e]; simpl; [eauto | discriminate]. Qed.

Ltac invert_binds H :=
  repeat match type of H with
         | bind _ _ = Return _ =>
             let a := fresh "a" in
             let Ha := fresh "Ha" in
             apply bind_Return_inv in H as (a & Ha & H)
         end.

Ltac invert_bind H x Hx := apply bind_Return_inv in H as (x & Hx & H).

(** ** Properties of lib/formatters.py *)

Module FormattersSpec.
Import Formatters.

Lemma compare_with_int (x : num) (c : Z) :
  num_compare x (PInt c) = xcompare (value_of x) (XFin (inject_Z c)).
Proof. reflexivity. Qed.

(** C6: the category is SMALL strictly below 1e9, MID from 1e9 to 1e10 with
    both endpoints, LARGE strictly above 1e10; the four boundary values of
    the specification are classified accordingly. *)
Theorem compute_market_cap_category_thresholds (market_cap : num) :
  (py_lt market_cap (PInt (10 ^ 9)) = true ->
   compute_market_cap_category market_cap = SMALL_CAP) /\
  (py_ge market_cap (PInt (10 ^ 9)) = true ->
   py_le market_cap (PInt (10 ^ 10)) = true ->
   compute_market_cap_category market_cap = MID_CAP) /\
  (py_gt market_cap (PInt (10 ^ 10)) = true ->
   compute_market_cap_category market_cap = LARGE_CAP) /\
  compute_market_cap_category (PInt 999999999) = SMALL_CAP /\
  compute_market_cap_category (PInt 1000000000) = MID_CAP /\
  compute_market_cap_category (PInt 10000000000) = MID_CAP /\
  compute_market_cap_category (PInt 10000000001) = LARGE_CAP.
Proof.
  change (10 ^ 9) with 1000000000. change (10 ^ 10) with 10000000000.
  unfold compute_market_cap_category, py_lt, py_le, py_gt, py_ge.
  rewrite !compare_with_int.
  repeat split; try reflexivity;
    destruct (value_of market_cap) as [ | [ | ] | q ]; simpl;
    try discriminate; try reflexivity;
    destruct (Qcompare_spec q (inject_Z 1000000000));
    destruct (Qcompare_spec q (inject_Z 10000000000));
    intros; try reflexivity; try discriminate; exfalso;
    destruct q as [n d]; unfold Qlt, Qeq, inject_Z in *; simpl in *; lia.
Qed.

(** Five billion, as a float, is a mid cap. *)
Lemma compute_market_cap_category_thresholds_witness :
  compute_market_cap_category (PFloat (mkfloat 5000000000 0)) = MID_CAP.
Proof.
  apply (proj1 (proj2 (compute_market_cap_category_thresholds
                         (PFloat (mkfloat 5000000000 0)))));
    vm_compute; reflexivity.
Defined.

(** NaN compares false with everything and falls through to the last case. *)
Example nan_is_small : compute_market_cap_category (PFloat S754_nan) = SMALL_CAP.
Proof. reflexivity. Qed.

End FormattersSpec.

(** ** Properties of lib/retry.py *)

Module RetrySpec.
Import Retry.

(** An operation that replays a script of outcomes, one per call; once the
    script is over it keeps raising [RuntimeError]. *)
Definition replay {T : Type} (script : list (outcome T))
  : outcome T * list (outcome T) :=
  match script with
  | [] => (Raise (Exc RuntimeError), [])
  | r :: rest => (r, rest)
  end.

Definition too_many_requests : exception := HTTPStatusError_ {| status_code := 429 |}.
Definition bad_request : exception := HTTPStatusError_ {| status_code := 400 |}.
Definition service_unavailable : exception := HTTPStatusError_ {| status_code := 503 |}.

(** The classifier on the failures the specification lists. *)
Example timeouts_are_retryable :
  is_retryable_error (Exc TimeoutException) = true /\
  is_retryable_error (Exc ReadTimeout) = true /\
  is_retryable_error (Exc AsyncioTimeoutError) = true /\
  is_retryable_error (Exc ConnectError) = true /\
  is_retryable_error (Exc ConnectTimeout) = true.
Proof. repeat split; reflexivity. Qed.

Lemma server_errors_are_retryable (response : Response) :
  500 <= status_code response < 600 ->
  is_retryable_error (HTTPStatusError_ response) = true.
Proof.
  intros H. unfold is_retryable_error. simpl.
  apply andb_true_iff. split; [apply Z.leb_le | apply Z.ltb_lt]; lia.
Qed.

Lemma other_statuses_are_not_retryable (response : Response) :
  ~ 500 <= status_code response < 600 ->
  is_retryable_error (HTTPStatusError_ response) = false.
Proof.
  intros H. unfold is_retryable_error. simpl.
  apply andb_false_iff.
  destruct (Z.leb_spec 500 (status_code response)); [right | left; reflexivity].
  apply Z.ltb_ge. lia.
Qed.

(** C1 (the code departs from the specification): a 429 response is classified as
    not retryable, because the test for the 5xx range answers for every
    [HTTPStatusError] and the test for 429 below it is never reached; the
    executor configured as [retry_api_call] therefore calls the operation
    once and re-raises the 429 without sleeping. *)
Theorem rate_limit_is_not_retried :
  is_retryable_error too_many_requests = false /\
  retry_api_call replay [Raise too_many_requests; Return 7%nat]
  = (Raise too_many_requests, [Return 7%nat], [Invoke 0]).
Proof. split; reflexivity. Qed.

Lemma range_cons (n : Z) :
  1 <= n -> range n = 0 :: map Z.of_nat (seq 1 (Z.to_nat n - 1)).
Proof.
  intros H. unfold range.
  destruct (Z.to_nat n) as [ | m] eqn:E; [lia | ].
  simpl. now rewrite Nat.sub_0_r.
Qed.

Section Executor.
Context {S T : Type}.
Variable max_attempts : Z.
Variable base_delay : num.
Variable retryable_exceptions : list exn_class.
Variable func : S -> outcome T * S.

Local Abbreviation attempts :=
  (Retry.attempts max_attempts base_delay retryable_exceptions func).

Lemma trace_of_after (events : list event) (r : @run S T) :
  trace_of (after events r) = events ++ trace_of r.
Proof. destruct r as [[result s] trace]. reflexivity. Qed.

(** Every iteration starts by calling the operation. *)
Lemma attempts_starts_with_call (attempt : Z) (rest : list Z)
  (last : option exception) (s : S) :
  exists trace, trace_of (attempts (attempt :: rest) last s) = Invoke attempt :: trace.
Proof.
  simpl. destruct (func s) as [result s1].
  rewrite trace_of_after. eexists. reflexivity.
Qed.

Lemma sleep_before_later_attempts (n : nat) :
  forall (a : nat) (last : option exception) (s : S) (k : Z),
    Z.of_nat a < k ->
    In (Invoke k) (trace_of (attempts (map Z.of_nat (seq a n)) last s)) ->
    exists pre post delay,
      trace_of (attempts (map Z.of_nat (seq a n)) last s)
      = pre ++ Sleep delay :: Invoke k :: post /\
      delay_of (k - 1) base_delay = Return delay.
Proof.
  induction n as [ | n IH]; intros a last s k Hk Hin.
  - simpl in Hin. destruct last; simpl in Hin; contradiction.
  - revert Hin. simpl.
    destruct (func s) as [result s1].
    rewrite trace_of_after.
    destruct result as [r | e].
    { simpl. intros [H | []]. injection H as H. lia. }
    destruct (isinstance_any e retryable_exceptions);
      [ | simpl; intros [H | []]; injection H as H; lia ].
    destruct (negb (is_retryable_error e));
      [ simpl; intros [H | []]; injection H as H; lia | ].
    destruct (Z.of_nat a =? max_attempts - 1);
      [ simpl; intros [H | []]; injection H as H; lia | ].
    unfold exponential_backoff_delay.
    destruct (delay_of (Z.of_nat a) base_delay) as [delay | e'] eqn:Hdelay;
      [ | simpl; intros [H | []]; injection H as H; lia ].
    rewrite trace_of_after. simpl.
    intros [H | [H | Hin]]; [ injection H as H; lia | discriminate | ].
    destruct (Z.eq_dec k (Z.of_nat (Datatypes.S a))) as [-> | Hne].
    + destruct n as [ | n'].
      * simpl in Hin. contradiction.
      * destruct (attempts_starts_with_call (Z.of_nat (Datatypes.S a))
                    (map Z.of_nat (seq (Datatypes.S (Datatypes.S a)) n')) (Some e) s1)
          as [post Hpost].
        cbn [seq map]. rewrite Hpost.
        exists [Invoke (Z.of_nat a)], post, delay. split; [reflexivity | ].
        replace (Z.of_nat (Datatypes.S a) - 1) with (Z.of_nat a) by lia.
        exact Hdelay.
    + destruct (IH (Datatypes.S a) (Some e) s1 k ltac:(lia) Hin)
        as (pre & post & d & Htrace & Hd).
      rewrite Htrace.
      exists (Invoke (Z.of_nat a) :: Sleep delay :: pre), post, d.
      split; [reflexivity | exact Hd].
Qed.

End Executor.


(** A run with base delay 0.5 in which three attempts time out. *)
Definition three_timeouts : list (outcome nat) :=
  [Raise (Exc ReadTimeout); Raise (Exc ConnectTimeout); Raise (Exc ReadTimeout); Return 42%nat].


(** The run above, event by event: 0.5 s, 1 s and 2 s of sleep. *)
Example three_timeouts_run :
  retry_with_backoff 4 (PFloat (mkfloat 1 (-1))) [Exception] replay three_timeouts
  = (Return 42%nat, [],
     [Invoke 0; Sleep (PFloat (mkfloat 1 (-1)));
      Invoke 1; Sleep (PFloat (mkfloat 1 0));
      Invoke 2; Sleep (PFloat (mkfloat 2 0));
      Invoke 3]).
Proof. vm_compute. reflexivity. Qed.

(** Three server errors in a row exhaust [retry_api_call]: three calls, a
    sleep of 1 s and one of 2 s, and [RetryExhausted] with the last error. *)
Example exhausted_after_three_attempts :
  retry_api_call replay
    [Raise service_unavailable; Raise service_unavailable; Raise service_unavailable;
     Return 42%nat]
  = (Raise (RetryExhausted_ 3 service_unavailable), [Return 42%nat],
     [Invoke 0; Sleep (PFloat (mkfloat 1 0)); Invoke 1; Sleep (PFloat (mkfloat 2 0));
      Invoke 2]).
Proof. vm_compute. reflexivity. Qed.

(** The delays for attempts 1 to 3 and base delays 0.5, 1 and 2, as floats
    ([mkfloat m e] is [m * 2^e]). *)
Example delays_on_the_grid :
  map (fun base => map (fun k => delay_of (k - 1) (PFloat base)) [1; 2; 3])
      [mkfloat 1 (-1); mkfloat 1 0; mkfloat 2 0]
  = [ [Return (PFloat (mkfloat 1 (-1))); Return (PFloat (mkfloat 1 0)); Return (PFloat (mkfloat 2 0))];
      [Return (PFloat (mkfloat 1 0)); Return (PFloat (mkfloat 2 0)); Return (PFloat (mkfloat 4 0))];
      [Return (PFloat (mkfloat 2 0)); Return (PFloat (mkfloat 4 0)); Return (PFloat (mkfloat 8 0))] ].
Proof. vm_compute. reflexivity. Qed.

(** The same delays compared, as exact numbers, with [d * 2^(k-1)] for
    [d] = 1/2, 1 and 2: all are below the cap of 30. *)
Example delays_on_the_grid_are_exact :
  map (fun '(base, d) =>
         map (fun k =>
                match delay_of (k - 1) (PFloat base) with
                | Return delay =>
                    xcompare (value_of delay) (XFin (d * inject_Z (2 ^ (k - 1))))
                | Raise _ => None
                end) [1; 2; 3])
      [(mkfloat 1 (-1), 1 # 2); (mkfloat 1 0, 1 # 1); (mkfloat 2 0, 2 # 1)]%Q
  = [ [Some Eq; Some Eq; Some Eq];
      [Some Eq; Some Eq; Some Eq];
      [Some Eq; Some Eq; Some Eq] ].
Proof. vm_compute. reflexivity. Qed.

(** The cap: before attempt 6 with base delay 1.0 the delay is 30 s, not 32. *)
Example delay_is_capped :
  delay_of 5 (PFloat (mkfloat 1 0)) = Return thirty.
Proof. vm_compute. reflexivity. Qed.

(** Comparing an int with the float 30.0 is exact. *)
Lemma thirty_lt_int (v : Z) : py_lt thirty (PInt v) = (30 <? v).
Proof.
  unfold py_lt, num_compare.
  replace (value_of thirty) with (XFin (8444249301319680 # 281474976710656))
    by (vm_compute; reflexivity).
  cbn [value_of xcompare]. unfold Qcompare. cbn [Qnum Qden inject_Z].
  destruct (Z.compare_spec (8444249301319680 * 1) (v * Z.pos 281474976710656));
    destruct (Z.ltb_spec 30 v); try reflexivity; lia.
Qed.

(** With an int base delay the delay is the exact minimum. *)
Lemma delay_of_int_base (attempt d : Z) :
  delay_of attempt (PInt d)
  = Return (if 30 <? d * 2 ^ attempt then thirty else PInt (d * 2 ^ attempt)).
Proof.
  unfold delay_of. cbn [py_mul bind]. unfold py_min.
  now rewrite thirty_lt_int.
Qed.

(** C5: when the first call raises a failure that the classifier does not
    accept, the executor re-raises that failure at once: the operation has
    been called exactly once and nothing was slept. *)
Theorem non_retryable_failure_is_not_retried {S T : Type} (max_attempts : Z)
  (base_delay : num) (retryable_exceptions : list exn_class)
  (func : S -> outcome T * S) (s s1 : S) (e : exception) :
  1 <= max_attempts ->
  func s = (Raise e, s1) ->
  is_retryable_error e = false ->
  retry_with_backoff max_attempts base_delay retryable_exceptions func s
  = (Raise e, s1, [Invoke 0]) /\
  call_count
    (trace_of (retry_with_backoff max_attempts base_delay retryable_exceptions func s))
  = 1%nat.
Proof.
  intros Hn Hfunc Hclass.
  assert (retry_with_backoff max_attempts base_delay retryable_exceptions func s
          = (Raise e, s1, [Invoke 0])) as Hrun.
  { unfold retry_with_backoff, wrapper. rewrite (range_cons max_attempts Hn).
    simpl. rewrite Hfunc, Hclass. simpl.
    destruct (isinstance_any e retryable_exceptions); reflexivity. }
  split; [exact Hrun | ]. rewrite Hrun. reflexivity.
Qed.

Lemma non_retryable_failure_is_not_retried_witness :
  retry_with_backoff 3 (PFloat (mkfloat 1 0)) [Exception] replay
    [Raise bad_request; Return 1%nat]
  = (Raise bad_request, [Return 1%nat], [Invoke 0]) /\
  call_count
    (trace_of (retry_with_backoff 3 (PFloat (mkfloat 1 0)) [Exception] replay
                 [Raise bad_request; Return 1%nat]))
  = 1%nat.
Proof.
  apply (non_retryable_failure_is_not_retried 3 (PFloat (mkfloat 1 0)) [Exception]
           replay [Raise bad_request; Return 1%nat] [Return 1%nat] bad_request).
  - lia.
  - reflexivity.
  - reflexivity.
Defined.

End RetrySpec.

(** ** Properties of services/validation_service.py *)

Module ValidationSpec.
Import Formatters Values Validation.

Lemma length_eqb_0 {A : Type} (l : list A) :
  (List.length l =? 0)%nat = true <-> l = [].
Proof.
  destruct l; simpl; split; intros H; try reflexivity; discriminate.
Qed.

(** Messages are only ever appended. *)
Lemma append_if_nil (cond : bool) (message : validation_error)
  (errors : list validation_error) :
  append_if cond message errors = [] -> errors = [] /\ cond = false.
Proof.
  unfold append_if. destruct cond; intros H; [ | auto].
  apply app_eq_nil in H as [_ H]. discriminate.
Qed.

Lemma sparkline_errors_nil (points : list value) :
  forall i errors, sparkline_errors i points errors = [] -> errors = [].
Proof.
  induction points as [ | point rest IH]; intros i errors H; simpl in H; [exact H | ].
  destruct point; try (apply IH in H; apply app_eq_nil in H as [H _]; exact H).
  apply IH in H. apply append_if_nil in H as [H _].
  apply append_if_nil in H as [H _]. exact H.
Qed.

(** The invariant of a [ValidationResult] built for [record]. *)
Definition well_formed (record : dict) (result : ValidationResult) : Prop :=
  (is_valid result = true <-> errors result = []) /\
  (is_valid result = true -> data result = Some record) /\
  (is_valid result = false -> data result = None).

Lemma well_formed_intro (record : dict) (errs : list validation_error) :
  well_formed record
    {| is_valid := (List.length errs =? 0)%nat;
       errors := errs;
       data := if (List.length errs =? 0)%nat then Some record else None |}.
Proof.
  unfold well_formed. simpl. split; [apply length_eqb_0 | ].
  split; intros H; rewrite H; reflexivity.
Qed.

Lemma validate_cryptocurrency_well_formed (now : Z) (record : dict)
  (result : ValidationResult) :
  validate_cryptocurrency now record = Return result -> well_formed record result.
Proof.
  intros H. unfold validate_cryptocurrency in H. invert_binds H.
  injection H as <-. apply well_formed_intro.
Qed.

(** A record that passes has a truthy [id], so it is not the empty dict. *)
Lemma valid_record_has_id (now : Z) (record : dict) (result : ValidationResult) :
  validate_cryptocurrency now record = Return result ->
  is_valid result = true ->
  truthy (get record "id") = true.
Proof.
  intros H Hvalid. unfold validate_cryptocurrency in H.
  invert_bind H bad_id Hid. invert_bind H bad_symbol Hsymbol.
  invert_bind H bad_name Hname. invert_bind H bad_percent Hpercent.
  invert_bind H errs Herrs.
  injection H as <-. simpl in Hvalid. apply length_eqb_0 in Hvalid.
  apply append_if_nil in Hvalid as [Hvalid _].
  apply append_if_nil in Hvalid as [Hvalid _].
  assert (errs = []) as ->.
  { destruct (get record "sparklineData"); try (apply app_eq_nil in Hvalid as [E _]; exact E).
    destruct (168 <? List.length items)%nat;
      [apply app_eq_nil in Hvalid as [E _]; exact E | ].
    destruct (0 <? List.length items)%nat; [ | exact Hvalid].
    eapply sparkline_errors_nil; eassumption. }
  assert (bad_id = false) as ->.
  { destruct (get record "lastUpdated") as [ | | | | | | d | | | ];
      try (injection Herrs as Herrs; apply app_eq_nil in Herrs as [_ Herrs]; discriminate).
    destruct (utcoffset d); [ | discriminate]. injection Herrs as Herrs.
    repeat (apply append_if_nil in Herrs as [Herrs ?]). assumption. }
  unfold not_a_name in Hid.
  destruct (truthy (get record "id")); [reflexivity | discriminate].
Qed.

Lemma truthy_get_not_empty (record : dict) (key : string) :
  truthy (get record key) = true -> truthy (VDict record) = true.
Proof. destruct record; [discriminate | reflexivity]. Qed.

(** *** Sample records *)

(** 2026-01-09T12:30:00Z, in microseconds since the epoch. *)
Definition half_past_twelve : Z := 1767961800000000.

Definition sample (id : string) (last_updated : value) : dict :=
  [ ("id", VStr id); ("symbol", VStr "BTC"); ("name", VStr "Bitcoin");
    ("currentPrice", VFloat (mkfloat 4235025 (-2)));
    ("marketCap", VInt 831245678901);
    ("volume24h", VInt 28456789012);
    ("priceChange24h", VFloat (mkfloat 52375 (-2)));
    ("priceChangePercent24h", VFloat (mkfloat 5 (-2)));
    ("sparklineData",
      VList [VDict [("timestamp", VDatetime (utc (half_past_twelve - 1800000000)));
                    ("price", VFloat (mkfloat 4235025 (-2)))]]);
    ("rank", VInt 1);
    ("lastUpdated", last_updated);
    ("priceDirection", VStr "up");
    ("marketCapCategory", VEnum LARGE_CAP) ]%string.

(** Updated one minute before [half_past_twelve], with a time zone. *)
Definition fresh (id : string) : dict :=
  sample id (VDatetime (utc (half_past_twelve - 60000000))).
(** The same reading without a time zone. *)
Definition zoneless (id : string) : dict :=
  sample id (VDatetime (naive (half_past_twelve - 60000000))).
(** Updated ten minutes before [half_past_twelve]. *)
Definition stale (id : string) : dict :=
  sample id (VDatetime (utc (half_past_twelve - 600000000))).

Example fresh_is_valid :
  validate_cryptocurrency half_past_twelve (fresh "bitcoin")
  = Return {| is_valid := true; errors := []; data := Some (fresh "bitcoin") |}.
Proof. vm_compute. reflexivity. Qed.

Example stale_is_invalid :
  validate_cryptocurrency half_past_twelve (stale "bitcoin")
  = Return {| is_valid := false; errors := [Stale_lastUpdated 600000000]; data := None |}.
Proof. vm_compute. reflexivity. Qed.

(** [timedelta.total_seconds() / 60] for a difference of [age_micros]
    microseconds, as the interpreter computes it. *)
Definition age_minutes (age_micros : Z) : outcome num :=
  bind (py_truediv (PInt age_micros) (PInt 1000000)) (fun seconds =>
  py_truediv seconds (PInt 60)).

(** The float test and the test on microseconds agree around the limit. *)
Example staleness_limit :
  map (fun age => bind (age_minutes age) (fun m => Return (py_gt m (PInt 5))))
      [299999999; 300000000; 300000001]
  = [Return false; Return false; Return true] /\
  map (fun age => five_minutes <? age) [299999999; 300000000; 300000001]
  = [false; false; true].
Proof. split; vm_compute; reflexivity. Qed.

(** Every violation is reported, in the order of the checks. *)
Example empty_record_errors :
  validate_cryptocurrency half_past_twelve []
  = Return {| is_valid := false;
              errors := [Invalid_id; Invalid_symbol; Invalid_name; Invalid_currentPrice;
                         Invalid_marketCap; Invalid_volume24h; Invalid_priceChange24h;
                         Invalid_priceChangePercent24h; Invalid_rank; Invalid_lastUpdated;
                         Invalid_sparklineData; Invalid_priceDirection;
                         Invalid_marketCapCategory];
              data := None |}.
Proof. vm_compute. reflexivity. Qed.

(** *** The batch filter *)

(** Whether validating [record] at instant [now] passes, fails, or raises
    ([None]). *)
Definition verdict (now : Z) (record : dict) : option bool :=
  match validate_cryptocurrency now record with
  | Return result => Some (is_valid result)
  | Raise _ => None
  end.

Definition individually_valid (now : Z) (record : dict) : Prop :=
  verdict now record = Some true.
Definition individually_invalid (now : Z) (record : dict) : Prop :=
  verdict now record = Some false.

(** [enumerate(l, start=i)] *)
Definition enumerate_from {A : Type} (i : nat) (l : list A) : list (nat * A) :=
  combine (seq i (List.length l)) l.

Definition accepted (clock : nat -> Z) (entry : nat * dict) : bool :=
  match verdict (clock (fst entry)) (snd entry) with
  | Some true => true
  | _ => false
  end.

Definition refused (clock : nat -> Z) (entry : nat * dict) : bool :=
  match verdict (clock (fst entry)) (snd entry) with
  | Some false => true
  | _ => false
  end.

(** The entry that reports the refusal of a record. *)
Definition rejection_of (clock : nat -> Z) (entry : nat * dict) : rejection :=
  {| rejected_id := get_default (snd entry) "id" (VStr "unknown");
     rejected_errors :=
       match validate_cryptocurrency (clock (fst entry)) (snd entry) with
       | Return result => errors result
       | Raise _ => []
       end;
     rejected_data := snd entry |}.

(** The number [m] of individually invalid records of a batch. *)
Definition invalid_count (clock : nat -> Z) (batch : list dict) : nat :=
  List.length (filter (refused clock) (enumerate_from 0 batch)).

Lemma enumerate_from_cons {A : Type} (i : nat) (x : A) (l : list A) :
  enumerate_from i (x :: l) = (i, x) :: enumerate_from (S i) l.
Proof. reflexivity. Qed.

Lemma length_enumerate_from {A : Type} (i : nat) (l : list A) :
  List.length (enumerate_from i l) = List.length l.
Proof.
  unfold enumerate_from. rewrite length_combine, length_seq. apply Nat.min_id.
Qed.

Lemma in_enumerate_from {A : Type} (l : list A) :
  forall (i k : nat) (x : A),
    In (k, x) (enumerate_from i l) <->
    exists j, k = (i + j)%nat /\ nth_error l j = Some x.
Proof.
  induction l as [ | y l IH]; intros i k x.
  - simpl. split; [contradiction | ]. intros (j & _ & H). destruct j; discriminate.
  - rewrite enumerate_from_cons. simpl. rewrite IH. split.
    + intros [H | (j & -> & H)].
      * injection H as <- <-. exists 0%nat. split; [lia | reflexivity].
      * exists (S j). split; [lia | exact H].
    + intros (j & -> & H). destruct j as [ | j]; simpl in H.
      * left. injection H as <-. f_equal. lia.
      * right. exists j. split; [lia | exact H].
Qed.

Lemma filter_complement_length {A : Type} (f : A -> bool) (l : list A) :
  (List.length (filter f l) + List.length (filter (fun x => negb (f x)) l)
   = List.length l)%nat.
Proof.
  induction l as [ | x l IH]; simpl; [reflexivity | ].
  destruct (f x); simpl; lia.
Qed.

(** What the loop computes when every record gets a verdict. *)
Lemma filter_from_partition (clock : nat -> Z) (crypto_list : list dict) :
  forall (i : nat) (valid_cryptos : list dict) (invalid_cryptos : list rejection),
    (forall j r, nth_error crypto_list j = Some r ->
                 verdict (clock (i + j)%nat) r <> None) ->
    filter_from clock i crypto_list valid_cryptos invalid_cryptos
    = Return
        (valid_cryptos
           ++ map snd (filter (accepted clock) (enumerate_from i crypto_list)),
         invalid_cryptos
           ++ map (rejection_of clock)
                (filter (fun e => negb (accepted clock e)) (enumerate_from i crypto_list))).
Proof.
  induction crypto_list as [ | crypto_data rest IH];
    intros i valid_cryptos invalid_cryptos Hverdict.
  - simpl. now rewrite !app_nil_r.
  - assert (forall j r, nth_error rest j = Some r ->
                        verdict (clock (S i + j)%nat) r <> None) as Hrest.
    { intros j r Hj. replace (S i + j)%nat with (i + S j)%nat by lia.
      apply Hverdict. exact Hj. }
    specialize (Hverdict 0%nat crypto_data eq_refl).
    rewrite Nat.add_0_r in Hverdict.
    unfold verdict in Hverdict.
    destruct (validate_cryptocurrency (clock i) crypto_data) as [result | e] eqn:E;
      [ | congruence].
    assert (accepted clock (i, crypto_data) = is_valid result) as Hacc.
    { unfold accepted, verdict. cbn [fst snd]. rewrite E.
      destruct (is_valid result); reflexivity. }
    assert (rejection_of clock (i, crypto_data)
            = {| rejected_id := get_default crypto_data "id" (VStr "unknown");
                 rejected_errors := errors result;
                 rejected_data := crypto_data |}) as Hrej.
    { unfold rejection_of. cbn [fst snd]. now rewrite E. }
    rewrite enumerate_from_cons. cbn [filter_from filter]. rewrite E, Hacc.
    cbn [bind].
    destruct (validate_cryptocurrency_well_formed _ _ _ E) as (_ & Hdata & Hnone).
    destruct (is_valid result) eqn:Hvalid.
    + rewrite (Hdata eq_refl).
      rewrite (truthy_get_not_empty _ _ (valid_record_has_id _ _ _ E Hvalid)).
      rewrite (IH (S i) _ _ Hrest). cbn [negb map snd].
      now rewrite <- app_assoc.
    + rewrite (IH (S i) _ _ Hrest). cbn [negb map]. rewrite Hrej.
      now rewrite <- app_assoc.
Qed.

Lemma refused_is_not_accepted (clock : nat -> Z) (batch : list dict) :
  (forall i r, nth_error batch i = Some r ->
               individually_valid (clock i) r \/ individually_invalid (clock i) r) ->
  filter (fun e => negb (accepted clock e)) (enumerate_from 0 batch)
  = filter (refused clock) (enumerate_from 0 batch).
Proof.
  intros Hverdict. apply filter_ext_in. intros [i r] Hin.
  apply in_enumerate_from in Hin as (j & -> & Hj).
  unfold accepted, refused. cbn [fst snd].
  destruct (Hverdict _ _ Hj) as [H | H]; red in H; simpl; now rewrite H.
Qed.

(** When every record of the batch is individually valid or invalid
    (validating it returns a verdict), the loop returns the pair of the
    valid records, in order, and of one entry per invalid record, in order,
    carrying its id, its error list and the record; no valid record is
    missing from the first list, no other record is in it, and the lengths
    add up to the length of the batch, with [m] entries rejected. *)
Lemma loop_partitions (clock : nat -> Z) (batch : list dict) :
  (forall i r, nth_error batch i = Some r ->
               individually_valid (clock i) r \/ individually_invalid (clock i) r) ->
  exists valid rejected,
    filter_from clock 0 batch [] [] = Return (valid, rejected) /\
    valid = map snd (filter (accepted clock) (enumerate_from 0 batch)) /\
    rejected = map (rejection_of clock) (filter (refused clock) (enumerate_from 0 batch)) /\
    (forall i r, nth_error batch i = Some r ->
                 individually_valid (clock i) r -> In r valid) /\
    (forall r, In r valid ->
               exists i, nth_error batch i = Some r /\ individually_valid (clock i) r) /\
    (forall x, In x rejected ->
               exists i r result,
                 nth_error batch i = Some r /\
                 validate_cryptocurrency (clock i) r = Return result /\
                 is_valid result = false /\
                 rejected_id x = get_default r "id" (VStr "unknown") /\
                 rejected_errors x = errors result /\
                 rejected_data x = r) /\
    List.length rejected = invalid_count clock batch /\
    (List.length valid + List.length rejected = List.length batch)%nat.
Proof.
  intros Hverdict.
  exists (map snd (filter (accepted clock) (enumerate_from 0 batch))),
         (map (rejection_of clock) (filter (refused clock) (enumerate_from 0 batch))).
  split; [ | split; [reflexivity | split; [reflexivity | ] ] ].
  { rewrite filter_from_partition.
    - simpl. now rewrite (refused_is_not_accepted clock batch Hverdict).
    - intros j r Hj. simpl.
      destruct (Hverdict _ _ Hj) as [H | H]; red in H; rewrite H; discriminate. }
  split; [ | split; [ | split; [ | split] ] ].
  - intros i r Hi Hvalid. apply in_map_iff. exists (i, r). split; [reflexivity | ].
    apply filter_In. split.
    + apply in_enumerate_from. exists i. auto.
    + unfold accepted. cbn [fst snd]. red in Hvalid. now rewrite Hvalid.
  - intros r Hin. apply in_map_iff in Hin as ([i r'] & Heq & Hin).
    simpl in Heq. subst r'. apply filter_In in Hin as [Hin Hacc].
    apply in_enumerate_from in Hin as (j & -> & Hj).
    exists j. split; [exact Hj | ].
    unfold accepted in Hacc. cbn [fst snd] in Hacc. simpl in Hacc. red.
    destruct (verdict (clock j) r) as [ [ | ] | ]; try discriminate. reflexivity.
  - intros x Hin. apply in_map_iff in Hin as ([i r] & Heq & Hin).
    apply filter_In in Hin as [Hin Href].
    apply in_enumerate_from in Hin as (j & -> & Hj). simpl in Href.
    unfold refused, verdict in Href. cbn [fst snd] in Href.
    destruct (validate_cryptocurrency (clock j) r) as [result | e] eqn:E;
      [ | discriminate].
    exists j, r, result. subst x. unfold rejection_of. cbn [fst snd]. simpl.
    rewrite E.
    destruct (is_valid result); [discriminate | ]. auto 6.
  - now rewrite length_map.
  - rewrite !length_map.
    rewrite <- (refused_is_not_accepted clock batch Hverdict).
    rewrite filter_complement_length. apply length_enumerate_from.
Qed.

(** A console on which every line can be printed. *)
Definition lines_of_summary (n : nat) (out : nat) : outcome unit * nat :=
  (Return tt, S out).
Definition lines_of_rejection (invalid : rejection) (out : nat) : outcome unit * nat :=
  (Return tt, S out).

(** A batch of three records validated at [half_past_twelve]: the second
    one is stale, and two lines are printed about it. *)
Example stale_record_is_rejected :
  filter_valid_cryptocurrencies nat lines_of_summary lines_of_rejection
    (fun _ => half_past_twelve)
    [fresh "bitcoin"; stale "dogecoin"; fresh "ethereum"] 0%nat
  = (Return ([fresh "bitcoin"; fresh "ethereum"],
             [ {| rejected_id := VStr "dogecoin";
                  rejected_errors := [Stale_lastUpdated 600000000];
                  rejected_data := stale "dogecoin" |} ]),
     2%nat).
Proof. vm_compute. reflexivity. Qed.

(** *** When validation raises *)

(** [lastUpdated] is a datetime without a time zone. *)
Definition zoneless_timestamp (record : dict) : bool :=
  match get record "lastUpdated" with
  | VDatetime d => match utcoffset d with None => true | Some _ => false end
  | _ => false
  end.

(** [priceChangePercent24h] is an int too large for a float. *)
Definition oversized_percent (record : dict) : bool :=
  match as_num (get record "priceChangePercent24h") with
  | Some (PInt z) => is_inf (mkfloat z 0)
  | _ => false
  end.

Lemma not_a_name_returns (record : dict) (key : string) :
  exists b, not_a_name record key = Return b.
Proof.
  unfold not_a_name, get, get_default, getitem.
  destruct (lookup record key) as [v | ]; simpl.
  - destruct (truthy v); simpl; eauto.
  - eauto.
Qed.

(** Validation returns a result except in these two cases. *)
Lemma validate_cryptocurrency_returns (now : Z) (record : dict) :
  returns (validate_cryptocurrency now record)
  = negb (oversized_percent record) && negb (zoneless_timestamp record).
Proof.
  unfold validate_cryptocurrency, oversized_percent, zoneless_timestamp.
  destruct (not_a_name_returns record "id") as [b1 ->].
  destruct (not_a_name_returns record "symbol") as [b2 ->].
  destruct (not_a_name_returns record "name") as [b3 ->].
  cbn [bind].
  destruct (as_num (get record "priceChangePercent24h")) as [ [z | f] | ];
    unfold _is_finite, math_isnan, math_isinf, to_float, float_of_int;
    cbv zeta; cbn [bind].
  - destruct (is_inf (mkfloat z 0)) eqn:Hinf; cbn [bind negb andb]; [reflexivity | ].
    destruct (is_nan (mkfloat z 0)); cbn [bind]; try rewrite Hinf; cbn [bind];
      destruct (get record "lastUpdated") as [ | | | | | | d | | | ]; try reflexivity;
      destruct (utcoffset d); reflexivity.
  - destruct (is_nan f); cbn [bind negb andb];
      destruct (get record "lastUpdated") as [ | | | | | | d | | | ]; try reflexivity;
      destruct (utcoffset d); reflexivity.
  - cbn [negb andb].
    destruct (get record "lastUpdated") as [ | | | | | | d | | | ]; try reflexivity;
      destruct (utcoffset d); reflexivity.
Qed.

(** The filter stops at the first record whose validation raises. *)
Lemma filter_from_raises (clock : nat -> Z) (e : exception) (record : dict)
  (rest : list dict) (before : list dict) :
  forall (i : nat) (valid_cryptos : list dict) (invalid_cryptos : list rejection),
    (forall j r, nth_error before j = Some r ->
                 verdict (clock (i + j)%nat) r <> None) ->
    validate_cryptocurrency (clock (i + List.length before)%nat) record = Raise e ->
    filter_from clock i (before ++ record :: rest) valid_cryptos invalid_cryptos
    = Raise e.
Proof.
  induction before as [ | r0 before IH]; intros i valid_cryptos invalid_cryptos Hbefore Hraise.
  - simpl in *. rewrite Nat.add_0_r in Hraise. now rewrite Hraise.
  - assert (forall j r, nth_error before j = Some r ->
                        verdict (clock (S i + j)%nat) r <> None) as Hrest.
    { intros j r Hj. replace (S i + j)%nat with (i + S j)%nat by lia.
      apply Hbefore. exact Hj. }
    assert (validate_cryptocurrency (clock (S i + List.length before)%nat) record
            = Raise e) as Hraise'.
    { rewrite <- Hraise. f_equal. f_equal. simpl. lia. }
    specialize (Hbefore 0%nat r0 eq_refl). rewrite Nat.add_0_r in Hbefore.
    unfold verdict in Hbefore. cbn [app filter_from].
    destruct (validate_cryptocurrency (clock i) r0) as [result | e0]; [ | congruence].
    cbn [bind].
    destruct (is_valid result); [destruct (data result) as [d | ]; [destruct (truthy (VDict d)) | ] | ];
      apply IH; assumption.
Qed.

(** When the loop raises, so does the filter, and nothing is printed. *)
Lemma filter_raises_with_the_loop (console : Type)
  (print_summary : nat -> console -> outcome unit * console)
  (print_rejection : rejection -> console -> outcome unit * console)
  (clock : nat -> Z) (batch : list dict) (out : console) (e : exception) :
  filter_from clock 0 batch [] [] = Raise e ->
  filter_valid_cryptocurrencies console print_summary print_rejection clock batch out
  = (Raise e, out).
Proof. intros H. unfold filter_valid_cryptocurrencies. now rewrite H. Qed.

(** C2 (the code departs from the specification): a record whose [lastUpdated] has
    no time zone makes the validator raise [TypeError], and the filter, which
    does not catch it, raises too, whatever the console: the valid records
    before and after it are lost with the batch. *)
Theorem zoneless_timestamp_aborts_the_batch :
  validate_cryptocurrency half_past_twelve (zoneless "dogecoin") = Raise (Exc TypeError) /\
  forall (console : Type) (print_summary : nat -> console -> outcome unit * console)
         (print_rejection : rejection -> console -> outcome unit * console)
         (out : console),
    filter_valid_cryptocurrencies console print_summary print_rejection
      (fun _ => half_past_twelve)
      [fresh "bitcoin"; zoneless "dogecoin"; fresh "ethereum"] out
    = (Raise (Exc TypeError), out).
Proof.
  split; [vm_compute; reflexivity | ].
  intros console print_summary print_rejection out.
  apply filter_raises_with_the_loop. vm_compute. reflexivity.
Qed.

(** The same happens for an int percentage beyond the range of a float. *)
Example oversized_percent_aborts_the_batch :
  forall (console : Type) (print_summary : nat -> console -> outcome unit * console)
         (print_rejection : rejection -> console -> outcome unit * console)
         (out : console),
    filter_valid_cryptocurrencies console print_summary print_rejection
      (fun _ => half_past_twelve)
      [fresh "bitcoin";
       ("priceChangePercent24h", VInt (10 ^ 400))%string :: fresh "dogecoin"] out
    = (Raise (Exc OverflowError), out).
Proof.
  intros console print_summary print_rejection out.
  apply filter_raises_with_the_loop. vm_compute. reflexivity.
Qed.

(** C4 (the code departs from the specification): of three records, one
    valid, one stale and one whose [lastUpdated] has no time zone, the claim
    has the first in the valid list and the other two rejected with their
    ids and errors, three entries in all.  The filter returns no pair: the
    third record makes the validator raise, and the rejection of the second,
    already recorded, is lost with the batch, unprinted. *)
Theorem rejected_entries_are_lost :
  individually_valid half_past_twelve (fresh "bitcoin") /\
  individually_invalid half_past_twelve (stale "dogecoin") /\
  validate_cryptocurrency half_past_twelve (zoneless "ethereum") = Raise (Exc TypeError) /\
  forall (console : Type) (print_summary : nat -> console -> outcome unit * console)
         (print_rejection : rejection -> console -> outcome unit * console)
         (out : console),
    filter_valid_cryptocurrencies console print_summary print_rejection
      (fun _ => half_past_twelve)
      [fresh "bitcoin"; stale "dogecoin"; zoneless "ethereum"] out
    = (Raise (Exc TypeError), out).
Proof.
  split; [vm_compute; reflexivity | ].
  split; [vm_compute; reflexivity | ].
  split; [vm_compute; reflexivity | ].
  intros console print_summary print_rejection out.
  apply filter_raises_with_the_loop. vm_compute. reflexivity.
Qed.

(** A console that cannot print the id of an entry that is not a text. *)
Definition prints_texts_only (invalid : rejection) (out : nat) : outcome unit * nat :=
  match rejected_id invalid with
  | VStr _ => (Return tt, S out)
  | _ => (Raise (Exc ValueError), out)
  end.

(** A failure of the logging loses the pair as well: here validation
    returns on the only record, which is rejected for its id, and the line
    about it cannot be printed. *)
Example unprintable_id_aborts_the_batch :
  filter_valid_cryptocurrencies nat lines_of_summary prints_texts_only
    (fun _ => half_past_twelve)
    [("id", VInt (10 ^ 5000))%string :: fresh "bitcoin"] 0%nat
  = (Raise (Exc ValueError), 1%nat).
Proof. vm_compute. reflexivity. Qed.

(** C10: a result of validation is valid exactly when it has no error
    message, carries the input record when valid and no data otherwise;
    this holds for every result [validate_cryptocurrency] returns, and
    [validate_price_data_point] returns such a result for every point. *)
Theorem validation_result_invariant :
  (forall (now : Z) (record : dict) (result : ValidationResult),
      validate_cryptocurrency now record = Return result ->
      well_formed record result) /\
  (forall point : dict, well_formed point (validate_price_data_point point)).
Proof.
  split.
  - exact validate_cryptocurrency_well_formed.
  - intros point. unfold validate_price_data_point. apply well_formed_intro.
Qed.

Lemma validation_result_invariant_witness :
  well_formed (stale "bitcoin")
    {| is_valid := false; errors := [Stale_lastUpdated 600000000]; data := None |}.
Proof.
  apply (proj1 validation_result_invariant half_past_twelve (stale "bitcoin")).
  vm_compute. reflexivity.
Defined.

End ValidationSpec.

(** ** Properties of services/coingecko_client.py *)

Module CoinGeckoSpec.
Import Values CoinGecko.

(** [top_of_hour] is the truncation to a whole number of hours. *)
Lemma top_of_hour_truncates (now : Z) :
  top_of_hour now mod hour = 0 /\
  top_of_hour now <= now < top_of_hour now + hour.
Proof.
  unfold top_of_hour.
  assert (0 < hour) as Hpos by reflexivity.
  pose proof (Z.mod_pos_bound now hour Hpos) as Hbound.
  split; [ | lia].
  rewrite Zminus_mod, Zmod_mod, Z.sub_diag. reflexivity.
Qed.

(** The first datetime is at the top of an hour. *)
Lemma top_of_hour_in_range (now : Z) :
  datetime_min <= now <= datetime_max ->
  datetime_min <= top_of_hour now <= datetime_max.
Proof.
  intros [Hmin Hmax]. destruct (top_of_hour_truncates now) as [Hmod Hbound].
  split; [ | lia].
  assert (datetime_min = (-17259888) * hour) as Emin by reflexivity.
  apply Z.mod_divide in Hmod; [ | discriminate]. destruct Hmod as [k Hk].
  rewrite Hk in *. rewrite Emin in *. unfold hour in *. lia.
Qed.

(** *** The points when no timestamp leaves the range of [datetime] *)

Fixpoint points_from (now n i : Z) (rest : list value) (acc : list dict) : list dict :=
  match rest with
  | [] => acc
  | price :: rest =>
      points_from now n (i + 1) rest
        (acc ++ [price_data_point (top_of_hour now - (n - i - 1) * hour) price])
  end.

Lemma points_from_length (now n : Z) (rest : list value) :
  forall (i : Z) (acc : list dict),
    List.length (points_from now n i rest acc)
    = (List.length acc + List.length rest)%nat.
Proof.
  induction rest as [ | price rest IH]; intros i acc; simpl.
  - lia.
  - rewrite IH, length_app. simpl. lia.
Qed.

Lemma points_from_prefix (now n : Z) (rest : list value) :
  forall (i : Z) (acc : list dict) (k : nat),
    (k < List.length acc)%nat ->
    nth_error (points_from now n i rest acc) k = nth_error acc k.
Proof.
  induction rest as [ | price rest IH]; intros i acc k Hk; simpl; [reflexivity | ].
  rewrite IH by (rewrite length_app; simpl; lia).
  now apply nth_error_app1.
Qed.

Lemma points_from_nth (now n : Z) (rest : list value) :
  forall (i : Z) (acc : list dict) (k : nat) (price : value),
    nth_error rest k = Some price ->
    nth_error (points_from now n i rest acc) (List.length acc + k)
    = Some (price_data_point
              (top_of_hour now - (n - (i + Z.of_nat k) - 1) * hour) price).
Proof.
  induction rest as [ | p rest IH]; intros i acc k price Hk.
  - destruct k; discriminate.
  - destruct k as [ | k]; simpl in Hk.
    + injection Hk as ->. cbn [points_from].
      rewrite points_from_prefix by (rewrite length_app; simpl; lia).
      rewrite Nat.add_0_r, nth_error_app2, Nat.sub_diag by lia.
      cbn [nth_error]. do 2 f_equal. lia.
    + cbn [points_from].
      specialize (IH (i + 1) (acc ++ [price_data_point
                                        (top_of_hour now - (n - i - 1) * hour) p])
                    k price Hk).
      rewrite length_app in IH. simpl in IH.
      replace (List.length acc + S k)%nat with (List.length acc + 1 + k)%nat by lia.
      rewrite IH. do 2 f_equal. lia.
Qed.

(** *** The range of [datetime] *)

Lemma timedelta_hours_in_range (h : Z) :
  0 <= h * hour <= datetime_max - datetime_min ->
  timedelta_hours h = Return (h * hour).
Proof.
  intros [Hlow Hhigh]. unfold timedelta_hours. cbv zeta.
  assert (0 <= h * hour / day) as Hdays by (apply Z.div_pos; [exact Hlow | reflexivity]).
  assert (h * hour / day <= 999999999) as Hmost.
  { apply Z.div_le_upper_bound; [reflexivity | ].
    unfold day, hour, datetime_max, datetime_min in *. lia. }
  destruct (Z.ltb_spec (h * hour / day) (-999999999)); [lia | ].
  destruct (Z.ltb_spec 999999999 (h * hour / day)); [lia | ].
  reflexivity.
Qed.

Lemma datetime_sub_in_range (d delta : Z) :
  datetime_min <= d - delta <= datetime_max ->
  datetime_sub d delta = Return (d - delta).
Proof.
  intros [Hlow Hhigh]. unfold datetime_sub. cbv zeta.
  destruct (Z.ltb_spec (d - delta) datetime_min); [lia | ].
  destruct (Z.ltb_spec datetime_max (d - delta)); [lia | ].
  reflexivity.
Qed.

Lemma datetime_sub_before_min (d delta : Z) :
  d - delta < datetime_min ->
  datetime_sub d delta = Raise (Exc OverflowError).
Proof.
  intros Hlow. unfold datetime_sub. cbv zeta.
  destruct (Z.ltb_spec (d - delta) datetime_min); [reflexivity | lia].
Qed.

(** When the earliest timestamp is a datetime, so are all of them. *)
Lemma sparkline_from_in_range (now n : Z) (rest : list value) :
  forall (i : Z) (acc : list dict),
    datetime_min <= now <= datetime_max ->
    0 <= i ->
    i + Z.of_nat (List.length rest) = n ->
    datetime_min <= top_of_hour now - (n - 1) * hour ->
    sparkline_from now n i rest acc = Return (points_from now n i rest acc).
Proof.
  induction rest as [ | price rest IH]; intros i acc Hnow Hi Hn Hearliest;
    [reflexivity | ].
  pose proof (top_of_hour_in_range now Hnow) as Htop.
  cbn [List.length] in Hn. cbn [sparkline_from points_from]. cbv zeta.
  assert (0 <= n - i - 1 <= n - 1) as Hago by lia.
  rewrite timedelta_hours_in_range by (unfold hour in *; lia).
  cbn [bind].
  rewrite datetime_sub_in_range by (unfold hour in *; lia).
  cbn [bind]. apply IH; try assumption; lia.
Qed.

(** When it is not, the first turn of the loop raises. *)
Lemma map_sparkline_data_overflow (now : Z) (prices : list value) :
  prices <> [] ->
  top_of_hour now - (Z.of_nat (List.length prices) - 1) * hour < datetime_min ->
  map_sparkline_data now prices = Raise (Exc OverflowError).
Proof.
  intros Hne Hearliest. unfold map_sparkline_data.
  destruct prices as [ | price rest]; [congruence | ].
  cbn [truthy negb sparkline_from]. cbv zeta.
  replace (Z.of_nat (List.length (price :: rest)) - 0 - 1)
    with (Z.of_nat (List.length (price :: rest)) - 1) by lia.
  unfold timedelta_hours. cbv zeta.
  destruct ((_ <? _) || (_ <? _)); [reflexivity | ].
  cbn [bind]. now rewrite datetime_sub_before_min.
Qed.

Lemma map_sparkline_data_in_range (now : Z) (prices : list value) :
  datetime_min <= now <= datetime_max ->
  datetime_min <= top_of_hour now - (Z.of_nat (List.length prices) - 1) * hour ->
  map_sparkline_data now prices
  = Return (points_from now (Z.of_nat (List.length prices)) 0 prices []).
Proof.
  intros Hnow Hearliest. unfold map_sparkline_data.
  destruct prices as [ | price rest]; [reflexivity | ].
  cbn [truthy negb].
  apply sparkline_from_in_range; try assumption; lia.
Qed.

(** The instant a point is stamped with. *)
Definition timestamp_of (point : dict) : option Z :=
  match lookup point "timestamp" with
  | Some (VDatetime d) => Some (micros d)
  | _ => None
  end.

Lemma points_nth (now : Z) (prices : list value) (i : nat) (price : value) :
  nth_error prices i = Some price ->
  nth_error (points_from now (Z.of_nat (List.length prices)) 0 prices []) i
  = Some (price_data_point
            (top_of_hour now - (Z.of_nat (List.length prices) - 1 - Z.of_nat i) * hour)
            price).
Proof.
  intros Hi.
  rewrite (points_from_nth now _ prices 0 [] i price Hi).
  do 2 f_equal. lia.
Qed.

(** Whenever the mapper returns, there are as many points as prices. *)
Lemma sparkline_from_returns_length (now n : Z) (rest : list value) :
  forall (i : Z) (acc points : list dict),
    sparkline_from now n i rest acc = Return points ->
    List.length points = (List.length acc + List.length rest)%nat.
Proof.
  induction rest as [ | price rest IH]; intros i acc points H.
  - injection H as <-. simpl. lia.
  - cbn [sparkline_from] in H. cbv zeta in H.
    invert_bind H delta Hdelta. invert_bind H timestamp Htimestamp.
    rewrite (IH _ _ _ H), length_app. simpl. lia.
Qed.

Lemma map_sparkline_data_length (now : Z) (prices : list value) (points : list dict) :
  map_sparkline_data now prices = Return points ->
  List.length points = List.length prices.
Proof.
  unfold map_sparkline_data. destruct prices as [ | p prices].
  - intros H. now injection H as <-.
  - cbn [truthy negb]. intros H.
    now rewrite (sparkline_from_returns_length _ _ _ _ _ _ H).
Qed.

Lemma nth_error_exists {A : Type} (l : list A) (i : nat) :
  (i < List.length l)%nat -> exists x, nth_error l i = Some x.
Proof.
  intros H. destruct (nth_error l i) as [x | ] eqn:E; [eauto | ].
  apply nth_error_None in E. lia.
Qed.




End CoinGeckoSpec.

(** ** Properties of services/coinmarketcap_client.py *)

Module CoinMarketCapSpec.
Import Formatters Values CoinMarketCap.

(** The field [api_data['quote']['USD'][field]] of a payload. *)
Definition usd_field (api_data : dict) (field : string) : option value :=
  match lookup api_data "quote" with
  | Some (VDict quote) =>
      match lookup quote "USD" with
      | Some (VDict usd_quote) => lookup usd_quote field
      | _ => None
      end
  | _ => None
  end.

Lemma usd_field_subscript (api_data : dict) (quote usd_quote x : value)
  (field : string) :
  getitem api_data "quote" = Return quote ->
  subscript quote "USD" = Return usd_quote ->
  subscript usd_quote field = Return x ->
  usd_field api_data field = Some x.
Proof.
  unfold getitem, subscript, usd_field. intros Hquote Husd Hfield.
  destruct (lookup api_data "quote") as [q | ]; [ | discriminate].
  injection Hquote as ->.
  destruct quote; try discriminate. unfold getitem in Husd.
  destruct (lookup entries "USD") as [u | ]; [ | discriminate].
  injection Husd as ->.
  destruct usd_quote; try discriminate. unfold getitem in Hfield.
  destruct (lookup entries0 field); [ | discriminate].
  injection Hfield as ->. reflexivity.
Qed.

Lemma number_Return (v : value) (x : num) :
  number v = Return x -> as_num v = Some x.
Proof. unfold number. destruct (as_num v); intros H; now inversion H. Qed.

(** What the mapper stores under [priceChange24h] and [priceDirection]. *)
Lemma mapped_price_change (str_lower : string -> string)
  (fromisoformat : string -> outcome datetime) (api_data out : dict) (p v : value) :
  usd_field api_data "percent_change_24h" = Some p ->
  usd_field api_data "price" = Some v ->
  map_coinmarketcap_response str_lower fromisoformat api_data = Return out ->
  exists percent price fraction change,
    as_num p = Some percent /\
    as_num v = Some price /\
    py_truediv percent (PInt 100) = Return fraction /\
    py_mul fraction price = Return change /\
    lookup out "priceChange24h" = Some (of_num change) /\
    lookup out "priceDirection"
    = Some (VStr (if py_ge percent (PInt 0) then "up" else "down")).
Proof.
  intros Hp Hv H. unfold map_coinmarketcap_response in H.
  invert_bind H quote Hquote. invert_bind H usd_quote Husd.
  invert_bind H p1 Hp1. invert_bind H percent Hpercent.
  invert_bind H fraction Hfraction.
  invert_bind H v1 Hv1. invert_bind H price Hprice.
  invert_bind H change Hchange.
  invert_binds H.
  rewrite (usd_field_subscript _ _ _ _ _ Hquote Husd Hp1) in Hp. injection Hp as <-.
  rewrite (usd_field_subscript _ _ _ _ _ Hquote Husd Hv1) in Hv. injection Hv as <-.
  match goal with
  | Hagain : subscript usd_quote "percent_change_24h" = Return ?x,
    Hnum : number ?x = Return ?y |- _ =>
      rewrite Hp1 in Hagain; injection Hagain as <-;
      rewrite Hpercent in Hnum; injection Hnum as <-
  end.
  injection H as <-.
  exists percent, price, fraction, change.
  repeat split; auto using number_Return.
Qed.

(** The mapper returns a record whenever the payload has the fields it
    reads, with numbers where it computes, text where it parses, and a price
    change that is in the range of a float. *)
Lemma well_formed_listing_is_mapped (str_lower : string -> string)
  (fromisoformat : string -> outcome datetime) (api_data quote usd_quote : dict)
  (symbol name rank p v cap volume stamp : value) (ticker text : string)
  (percent price fraction change market_cap : num) (updated : datetime) :
  lookup api_data "quote" = Some (VDict quote) ->
  lookup quote "USD" = Some (VDict usd_quote) ->
  lookup api_data "symbol" = Some symbol -> str_value symbol = Some ticker ->
  lookup api_data "name" = Some name ->
  lookup api_data "cmc_rank" = Some rank ->
  lookup usd_quote "percent_change_24h" = Some p -> as_num p = Some percent ->
  lookup usd_quote "price" = Some v -> as_num v = Some price ->
  py_truediv percent (PInt 100) = Return fraction ->
  py_mul fraction price = Return change ->
  lookup usd_quote "market_cap" = Some cap -> as_num cap = Some market_cap ->
  lookup usd_quote "volume_24h" = Some volume ->
  lookup usd_quote "last_updated" = Some stamp -> str_value stamp = Some text ->
  fromisoformat (replace_Z text) = Return updated ->
  map_coinmarketcap_response str_lower fromisoformat api_data
  = Return
      [ ("id", VStr (str_lower ticker)); ("symbol", symbol); ("name", name);
        ("currentPrice", v); ("marketCap", cap); ("volume24h", volume);
        ("priceChange24h", of_num change); ("priceChangePercent24h", p);
        ("sparklineData", VList []); ("rank", rank);
        ("lastUpdated", VDatetime updated);
        ("priceDirection", VStr (if py_ge percent (PInt 0) then "up" else "down"));
        ("marketCapCategory", VEnum (compute_market_cap_category market_cap)) ]%string.
Proof.
  intros Hquote Husd Hsymbol Hticker Hname Hrank Hp Hpercent Hv Hprice Hdiv Hmul
    Hcap Hmarket Hvolume Hstamp Htext Hparse.
  unfold map_coinmarketcap_response, getitem, subscript, getitem, number, lower,
    parse_timestamp.
  rewrite Hquote. cbn [bind]. rewrite Husd. cbn [bind].
  rewrite Hp. cbn [bind]. rewrite Hpercent. cbn [bind]. rewrite Hdiv. cbn [bind].
  rewrite Hv. cbn [bind]. rewrite Hprice. cbn [bind]. rewrite Hmul. cbn [bind].
  rewrite Hsymbol. cbn [bind]. rewrite Hticker. cbn [bind].
  rewrite Hname, Hcap, Hvolume, Hrank. cbn [bind].
  rewrite Hstamp. cbn [bind]. rewrite Htext, Hparse. cbn [bind].
  rewrite Hmarket. reflexivity.
Qed.

(** A payload that has every field the mapper reads: a text symbol, a
    name and a rank, and under [quote.USD] numbers for the percentage, the
    price and the market cap, a volume, a timestamp text that parses, and a
    price change in the range of a float. *)
Definition complete_listing (fromisoformat : string -> outcome datetime)
  (api_data : dict) : bool :=
  match lookup api_data "quote", lookup api_data "symbol",
        lookup api_data "name", lookup api_data "cmc_rank" with
  | Some (VDict quote), Some symbol, Some _, Some _ =>
      match lookup quote "USD" with
      | Some (VDict usd_quote) =>
          match lookup usd_quote "percent_change_24h", lookup usd_quote "price",
                lookup usd_quote "market_cap", lookup usd_quote "volume_24h",
                lookup usd_quote "last_updated" with
          | Some p, Some v, Some cap, Some _, Some stamp =>
              match as_num p, as_num v, as_num cap, str_value stamp, str_value symbol with
              | Some percent, Some price, Some _, Some text, Some _ =>
                  returns (bind (py_truediv percent (PInt 100))
                             (fun fraction => py_mul fraction price))
                  && returns (fromisoformat (replace_Z text))
              | _, _, _, _, _ => false
              end
          | _, _, _, _, _ => false
          end
      | _ => false
      end
  | _, _, _, _ => false
  end.

Lemma complete_listing_is_mapped (str_lower : string -> string)
  (fromisoformat : string -> outcome datetime) (api_data : dict) :
  complete_listing fromisoformat api_data = true ->
  exists out, map_coinmarketcap_response str_lower fromisoformat api_data = Return out.
Proof.
  unfold complete_listing. intros H.
  destruct (lookup api_data "quote") as [ [ | | | | | | | | quote | ] | ] eqn:Hquote;
    try discriminate.
  destruct (lookup api_data "symbol") as [symbol | ] eqn:Hsymbol; try discriminate.
  destruct (lookup api_data "name") as [name | ] eqn:Hname; try discriminate.
  destruct (lookup api_data "cmc_rank") as [rank | ] eqn:Hrank; try discriminate.
  destruct (lookup quote "USD") as [ [ | | | | | | | | usd_quote | ] | ] eqn:Husd;
    try discriminate.
  destruct (lookup usd_quote "percent_change_24h") as [p | ] eqn:Hp; try discriminate.
  destruct (lookup usd_quote "price") as [v | ] eqn:Hv; try discriminate.
  destruct (lookup usd_quote "market_cap") as [cap | ] eqn:Hcap; try discriminate.
  destruct (lookup usd_quote "volume_24h") as [volume | ] eqn:Hvolume; try discriminate.
  destruct (lookup usd_quote "last_updated") as [stamp | ] eqn:Hstamp; try discriminate.
  destruct (as_num p) as [percent | ] eqn:Hpercent; try discriminate.
  destruct (as_num v) as [price | ] eqn:Hprice; try discriminate.
  destruct (as_num cap) as [market_cap | ] eqn:Hmarket; try discriminate.
  destruct (str_value stamp) as [text | ] eqn:Htext; try discriminate.
  destruct (str_value symbol) as [ticker | ] eqn:Hticker; try discriminate.
  apply andb_true_iff in H as [Hchange Hparse].
  destruct (py_truediv percent (PInt 100)) as [fraction | ] eqn:Hdiv; try discriminate.
  cbn [bind] in Hchange.
  destruct (py_mul fraction price) as [change | ] eqn:Hmul; try discriminate.
  destruct (fromisoformat (replace_Z text)) as [updated | ] eqn:Hupdated; try discriminate.
  eexists.
  eapply well_formed_listing_is_mapped; eassumption.
Qed.

(** C9: for a payload with percentage change [p] and price [v], the record
    the mapper returns has [(p / 100) * v] under [priceChange24h] and ['up']
    under [priceDirection] when [p >= 0], ['down'] otherwise; the mapper
    does return a record when the payload is complete; a percentage of 2.5
    with a price of 100 gives a change of 2.5 and the direction ['up']. *)
Theorem price_change_from_percentage (str_lower : string -> string)
  (fromisoformat : string -> outcome datetime) (api_data : dict) (p v : value) :
  usd_field api_data "percent_change_24h" = Some p ->
  usd_field api_data "price" = Some v ->
  (complete_listing fromisoformat api_data = true ->
   exists out,
     map_coinmarketcap_response str_lower fromisoformat api_data = Return out) /\
  (forall out,
      map_coinmarketcap_response str_lower fromisoformat api_data = Return out ->
      exists percent price fraction change,
        as_num p = Some percent /\
        as_num v = Some price /\
        py_truediv percent (PInt 100) = Return fraction /\
        py_mul fraction price = Return change /\
        lookup out "priceChange24h" = Some (of_num change) /\
        lookup out "priceDirection"
        = Some (VStr (if py_ge percent (PInt 0) then "up" else "down"))) /\
  (p = VFloat (mkfloat 5 (-1)) ->
   v = VInt 100 \/ v = VFloat (mkfloat 100 0) ->
   forall out,
     map_coinmarketcap_response str_lower fromisoformat api_data = Return out ->
     lookup out "priceChange24h" = Some (VFloat (mkfloat 5 (-1))) /\
     lookup out "priceDirection" = Some (VStr "up")).
Proof.
  intros Hp Hv. split; [apply complete_listing_is_mapped | ].
  split; [intros out H; exact (mapped_price_change _ _ _ _ _ _ Hp Hv H) | ].
  intros -> Hprice out H.
  pose proof (mapped_price_change _ _ _ _ _ _ Hp Hv H)
    as (percent & price & fraction & change & Epercent & Eprice & Ediv & Emul & Echange & Edir).
  simpl in Epercent. injection Epercent as <-.
  vm_compute in Ediv. injection Ediv as <-.
  rewrite Echange, Edir.
  destruct Hprice as [-> | ->]; simpl in Eprice; injection Eprice as <-;
    vm_compute in Emul; injection Emul as <-; split; reflexivity.
Qed.

(** [str.lower] on ASCII letters. *)
Fixpoint ascii_lower (s : string) : string :=
  match s with
  | EmptyString => EmptyString
  | String c rest =>
      let n := nat_of_ascii c in
      String (if ((65 <=? n) && (n <=? 90))%nat then ascii_of_nat (n + 32) else c)
             (ascii_lower rest)
  end.

(** A parser that knows one timestamp. *)
Definition one_timestamp (s : string) : outcome datetime :=
  if String.eqb s "2026-01-09T12:30:00.000+00:00"
  then Return (utc 1767961800000000)
  else Raise (Exc ValueError).

(** A listing of the fallback provider: 2.5 % on a price of 100. *)
Definition listing : dict :=
  [ ("id", VInt 1); ("name", VStr "Bitcoin"); ("symbol", VStr "BTC");
    ("cmc_rank", VInt 1);
    ("quote",
      VDict [ ("USD",
        VDict [ ("price", VInt 100);
                ("volume_24h", VFloat (mkfloat 28456789012 0));
                ("percent_change_24h", VFloat (mkfloat 5 (-1)));
                ("market_cap", VFloat (mkfloat 831245678901 0));
                ("last_updated", VStr "2026-01-09T12:30:00.000Z") ]) ]) ]%string.

Example listing_is_mapped :
  map_coinmarketcap_response ascii_lower one_timestamp listing
  = Return
      [ ("id", VStr "btc"); ("symbol", VStr "BTC"); ("name", VStr "Bitcoin");
        ("currentPrice", VInt 100);
        ("marketCap", VFloat (mkfloat 831245678901 0));
        ("volume24h", VFloat (mkfloat 28456789012 0));
        ("priceChange24h", VFloat (mkfloat 5 (-1)));
        ("priceChangePercent24h", VFloat (mkfloat 5 (-1)));
        ("sparklineData", VList []);
        ("rank", VInt 1);
        ("lastUpdated", VDatetime (utc 1767961800000000));
        ("priceDirection", VStr "up");
        ("marketCapCategory", VEnum LARGE_CAP) ]%string.
Proof. vm_compute. reflexivity. Qed.

Lemma price_change_from_percentage_witness :
  exists out,
    map_coinmarketcap_response ascii_lower one_timestamp listing = Return out /\
    lookup out "priceChange24h" = Some (VFloat (mkfloat 5 (-1))) /\
    lookup out "priceDirection" = Some (VStr "up").
Proof.
  destruct (price_change_from_percentage ascii_lower one_timestamp listing
              (VFloat (mkfloat 5 (-1))) (VInt 100) eq_refl eq_refl)
    as (Hreturns & _ & Hparticular).
  destruct Hreturns as [out Hout]; [vm_compute; reflexivity | ].
  exists out. split; [exact Hout | ].
  exact (Hparticular eq_refl (or_introl eq_refl) out Hout).
Defined.

End CoinMarketCapSpec.

(** ** Properties of services/cache_service.py *)

Module CacheServiceSpec.
Import Formatters Values CacheService.

Section Service.
Variable store : Type.
Variable json_loads : string -> outcome value.
Variable json_text : value -> string.
Variable isoformat : datetime -> string.

Local Abbreviation _get_json := (_get_json store json_loads).
Local Abbreviation _set_json := (_set_json store json_text isoformat).
Local Abbreviation json_dumps := (json_dumps json_text isoformat).
Local Abbreviation jsonable := (jsonable (_json_serializer isoformat)).

(** Serialization fails with [TypeError] only. *)
Lemma jsonable_raises_TypeError :
  forall (obj : value) (e : exception), jsonable obj = Raise e -> e = Exc TypeError.
Proof.
  fix IH 1. intros obj e. destruct obj as [ | | | | | | | items | entries | ]; simpl;
    try discriminate.
  - induction items as [ | x items IHitems]; [discriminate | ].
    destruct (jsonable x) as [x' | ex] eqn:Ex; simpl.
    + intros H. apply IHitems.
      match type of H with
      | bind (bind ?m _) _ = _ => destruct m; simpl in *; [discriminate | exact H]
      end.
    + intros H. injection H as <-. exact (IH x ex Ex).
  - induction entries as [ | [k x] entries IHentries]; [discriminate | ].
    destruct (jsonable x) as [x' | ex] eqn:Ex; simpl.
    + intros H. apply IHentries.
      match type of H with
      | bind (bind ?m _) _ = _ => destruct m; simpl in *; [discriminate | exact H]
      end.
    + intros H. injection H as <-. exact (IH x ex Ex).
  - intros H. now injection H as <-.
Qed.

Lemma json_dumps_raises_TypeError (data : value) (e : exception) :
  json_dumps data = Raise e -> e = Exc TypeError.
Proof.
  unfold CacheService.json_dumps.
  destruct (jsonable data) as [tree | e'] eqn:E; simpl; [discriminate | ].
  intros H. injection H as <-. exact (jsonable_raises_TypeError data e' E).
Qed.

(** An object that is neither of a JSON type nor a datetime cannot be
    serialized, wherever it sits in a list. *)
Lemma unserializable_object (type_name : string) (truth : bool)
  (before after : list value) :
  Forall (fun v => returns (jsonable v) = true) before ->
  json_dumps (VList (before ++ VObject type_name truth :: after))
  = Raise (Exc TypeError).
Proof.
  intros Hbefore. unfold CacheService.json_dumps. cbn [CacheService.jsonable].
  induction Hbefore as [ | x before Hx _ IH]; [reflexivity | ].
  cbn [app]. destruct (jsonable x) as [x' | ex]; [ | discriminate].
  cbn [bind].
  match goal with
  | |- bind (bind (bind ?m _) _) _ = _ =>
      match type of IH with
      | bind (bind ?m' _) _ = _ => change m with m'; destruct m'
      end
  end; simpl in *; [discriminate | exact IH].
Qed.

End Service.

(** C7: a failure of the backing store while reading (no client, a command
    that raises, a cached text that does not parse) makes [_get_json] return
    [None], the result of a miss; and [_set_json] returns normally whatever
    happens while writing, in particular when the value cannot be
    serialized, in which case the store is not touched.  A failure is an
    instance of [Exception]. *)
Theorem cache_failures_are_absorbed (store : Type)
  (json_loads : string -> outcome value) (json_text : value -> string)
  (isoformat : datetime -> string) (client : option (Redis store))
  (key : string) (s : store) :
  (forall (e : exception) (s1 : store),
      (get_redis_client store client = Raise e /\ s1 = s) \/
      (exists c, client = Some c /\ redis_get c key s = (Raise e, s1)) \/
      (exists c text, client = Some c /\
                      redis_get c key s = (Return (Some text), s1) /\
                      json_loads text = Raise e) ->
      isinstance e Exception = true ->
      _get_json store json_loads client key s = (Return VNone, s1)) /\
  (forall (c : Redis store) (s1 : store),
      client = Some c ->
      redis_get c key s = (Return None, s1) ->
      _get_json store json_loads client key s = (Return VNone, s1)) /\
  (forall (data : value) (ttl : Z),
      (forall c text e s1,
          client = Some c ->
          redis_setex c key ttl text s = (Raise e, s1) ->
          isinstance e Exception = true) ->
      exists s1, _set_json store json_text isoformat client key data ttl s
                 = (Return tt, s1)) /\
  (forall (data : value) (ttl : Z) (e : exception),
      json_dumps json_text isoformat data = Raise e ->
      _set_json store json_text isoformat client key data ttl s = (Return tt, s)).
Proof.
  repeat split.
  - intros e s1 [ [Hclient ->] | [ (c & -> & Hget) | (c & text & -> & Hget & Hloads) ] ] He;
      unfold _get_json, try_except.
    + rewrite Hclient, He. reflexivity.
    + simpl. rewrite Hget, He. reflexivity.
    + simpl. rewrite Hget, Hloads, He. reflexivity.
  - intros c s1 -> Hget. unfold _get_json, try_except. simpl. now rewrite Hget.
  - intros data ttl Hsetex. unfold _set_json, try_except.
    destruct client as [c | ]; simpl; [ | eauto].
    destruct (json_dumps json_text isoformat data) as [text | e] eqn:Hdumps.
    + destruct (redis_setex c key ttl text s) as [ [ [] | e] s1] eqn:Hrun; [eauto | ].
      rewrite (Hsetex c text e s1 eq_refl Hrun). eauto.
    + rewrite (json_dumps_raises_TypeError _ _ _ _ Hdumps). simpl. eauto.
  - intros data ttl e Hdumps. unfold _set_json, try_except.
    destruct client as [c | ]; simpl; [ | reflexivity].
    rewrite Hdumps. rewrite (json_dumps_raises_TypeError _ _ _ _ Hdumps). reflexivity.
Qed.

(** *** A store in memory and a store that cannot be reached *)

Definition memory : Type := list (string * (Z * string)).

Definition in_memory : Redis memory :=
  {| redis_get := fun key s =>
       (Return match find (fun entry => String.eqb (fst entry) key) s with
               | Some (_, (_, text)) => Some text
               | None => None
               end, s);
     redis_setex := fun key ttl text s => (Return tt, (key, (ttl, text)) :: s) |}.

Definition unreachable : Redis memory :=
  {| redis_get := fun _ s => (Raise (Exc RedisConnectionError), s);
     redis_setex := fun _ _ _ s => (Raise (Exc RedisConnectionError), s) |}.

(** Stand-ins for the interpreter's JSON codec and [isoformat]. *)
Definition no_json (text : string) : outcome value := Raise (Exc JSONDecodeError).
Definition some_text (tree : value) : string := "[]".
Definition some_date (d : datetime) : string := "2026-01-09T12:30:00+00:00".

Lemma cache_failures_are_absorbed_witness :
  _get_json memory no_json (Some unreachable) "crypto:list:top20" []
  = (Return VNone, []).
Proof.
  apply (proj1 (cache_failures_are_absorbed memory no_json some_text some_date
                  (Some unreachable) "crypto:list:top20" [])
           (Exc RedisConnectionError) []).
  - right. left. exists unreachable. split; reflexivity.
  - reflexivity.
Defined.

(** The cases of C7, run. *)
Example reads_that_fail :
  _get_json memory no_json None "crypto:list:top20" [] = (Return VNone, []) /\
  _get_json memory no_json (Some unreachable) "crypto:list:top20" [] = (Return VNone, []) /\
  _get_json memory no_json (Some in_memory) "crypto:list:top20"
    [("crypto:list:top20", (300, "{not json"))]%string
  = (Return VNone, [("crypto:list:top20", (300, "{not json"))]%string) /\
  _get_json memory no_json (Some in_memory) "crypto:list:top20" [] = (Return VNone, []).
Proof. repeat split; reflexivity. Qed.

Example writes_that_fail :
  _set_json memory some_text some_date None "crypto:list:top20" (VList []) 300 []
  = (Return tt, []) /\
  _set_json memory some_text some_date (Some unreachable) "crypto:list:top20" (VList []) 300 []
  = (Return tt, []) /\
  _set_json memory some_text some_date (Some in_memory) "crypto:list:top20"
    (VList [VDict [("id", VStr "bitcoin"); ("tags", VObject "set" true)]%string]) 300 []
  = (Return tt, []).
Proof. repeat split; reflexivity. Qed.

(** A write that succeeds stores the text with its time to live. *)
Example write_that_succeeds :
  _set_json memory some_text some_date (Some in_memory) "crypto:list:top20"
    (VList [VDict [("lastUpdated", VDatetime (utc 1767961800000000))]%string]) 300 []
  = (Return tt, [("crypto:list:top20", (300, "[]"))]%string).
Proof. reflexivity. Qed.

(** What [except Exception] does not catch is not a failure of the store:
    a cancellation goes through. *)
Example cancellation_is_not_absorbed :
  _get_json memory no_json
    (Some {| redis_get := fun _ s => (Raise (Exc CancelledError), s);
             redis_setex := fun _ _ _ s => (Return tt, s) |})
    "crypto:list:top20" []
  = (Raise (Exc CancelledError), []).
Proof. reflexivity. Qed.

End CacheServiceSpec.

(** ** The executor of lib/retry.py: bounds, exhaustion, success *)

Module RetryExecutorSpec.
Import Retry RetrySpec.

(** How many times the executor slept. *)
Definition sleep_count (trace : list event) : nat :=
  List.length (filter (fun ev => match ev with Sleep _ => true | Invoke _ => false end) trace).

(** A failure that the executor catches and retries. *)
Definition retried (retryable_exceptions : list exn_class) (e : exception) : bool :=
  isinstance_any e retryable_exceptions && is_retryable_error e.

Lemma call_count_app (t u : list event) :
  call_count (t ++ u) = (call_count t + call_count u)%nat.
Proof. unfold call_count. now rewrite filter_app, length_app. Qed.

Lemma sleep_count_app (t u : list event) :
  sleep_count (t ++ u) = (sleep_count t + sleep_count u)%nat.
Proof. unfold sleep_count. now rewrite filter_app, length_app. Qed.

(** The order of two numbers seen from either side. *)
Lemma xcompare_antisym (a b : xreal) :
  xcompare b a = match xcompare a b with
                 | Some c => Some (CompOpp c)
                 | None => None
                 end.
Proof.
  destruct a as [ | [ | ] | p], b as [ | [ | ] | q]; simpl; try reflexivity.
  now rewrite <- Qcompare_antisym.
Qed.

Lemma xcompare_refl (a : xreal) : xcompare a a = Some Eq \/ xcompare a a = None.
Proof.
  destruct a as [ | [ | ] | p]; simpl; auto.
  left. f_equal. apply Qeq_alt. reflexivity.
Qed.

(** [min(x, y)] is never greater than [y]. *)
Lemma py_min_not_above (x y : num) : py_gt (py_min x y) y = false.
Proof.
  unfold py_min, py_gt, py_lt, num_compare.
  destruct (xcompare (value_of y) (value_of x)) as [ [ | | ] | ] eqn:E.
  - rewrite xcompare_antisym, E. reflexivity.
  - destruct (xcompare_refl (value_of y)) as [-> | ->]; reflexivity.
  - rewrite xcompare_antisym, E. reflexivity.
  - rewrite xcompare_antisym, E. reflexivity.
Qed.

(** One iteration of the loop after a failure that is to be retried. *)
Lemma attempts_retry {S T : Type} (max_attempts : Z) (base_delay : num)
  (retryable_exceptions : list exn_class) (func : S -> outcome T * S)
  (attempt : Z) (rest : list Z) (last : option exception) (s s1 : S)
  (e : exception) (d : num) :
  func s = (Raise e, s1) ->
  retried retryable_exceptions e = true ->
  attempt <> max_attempts - 1 ->
  delay_of attempt base_delay = Return d ->
  Retry.attempts max_attempts base_delay retryable_exceptions func
    (attempt :: rest) last s
  = after [Invoke attempt; Sleep d]
      (Retry.attempts max_attempts base_delay retryable_exceptions func
         rest (Some e) s1).
Proof.
  intros Hfunc Hretried Hmore Hd. cbn [Retry.attempts]. rewrite Hfunc.
  unfold retried in Hretried. apply andb_true_iff in Hretried as [-> ->].
  cbn [negb]. apply Z.eqb_neq in Hmore. rewrite Hmore.
  unfold exponential_backoff_delay. rewrite Hd.
  destruct (Retry.attempts max_attempts base_delay retryable_exceptions func
              rest (Some e) s1) as [ [result s2] trace].
  reflexivity.
Qed.

Section Executor.
Context {S T : Type}.
Variable max_attempts : Z.
Variable base_delay : num.
Variable retryable_exceptions : list exn_class.
Variable func : S -> outcome T * S.

Local Abbreviation attempts :=
  (Retry.attempts max_attempts base_delay retryable_exceptions func).

Lemma attempts_counts (n : nat) :
  forall (a : nat) (last : option exception) (s : S),
    Z.of_nat (a + n) = max_attempts ->
    (call_count (trace_of (attempts (map Z.of_nat (seq a n)) last s)) <= n)%nat /\
    (sleep_count (trace_of (attempts (map Z.of_nat (seq a n)) last s))
     <= call_count (trace_of (attempts (map Z.of_nat (seq a n)) last s)) - 1)%nat.
Proof.
  induction n as [ | n IH]; intros a last s Hn.
  - simpl. destruct last; cbn; lia.
  - cbn [seq map Retry.attempts]. destruct (func s) as [result s1].
    rewrite trace_of_after, call_count_app, sleep_count_app.
    change (call_count [Invoke (Z.of_nat a)]) with 1%nat.
    change (sleep_count [Invoke (Z.of_nat a)]) with 0%nat.
    destruct result as [r | e]; [cbn; lia | ].
    destruct (isinstance_any e retryable_exceptions); [ | cbn; lia].
    destruct (negb (is_retryable_error e)); [cbn; lia | ].
    destruct (Z.eqb_spec (Z.of_nat a) (max_attempts - 1)) as [Hlast | Hmore];
      [cbn; lia | ].
    unfold exponential_backoff_delay.
    destruct (delay_of (Z.of_nat a) base_delay) as [delay | e']; [ | cbn; lia].
    rewrite trace_of_after, call_count_app, sleep_count_app.
    change (call_count [Sleep delay]) with 0%nat.
    change (sleep_count [Sleep delay]) with 1%nat.
    destruct (IH (Datatypes.S a) (Some e) s1 ltac:(lia)) as [Hcalls Hsleeps].
    split; [lia | ].
    destruct n as [ | n']; [lia | ].
    destruct (attempts_starts_with_call max_attempts base_delay retryable_exceptions
                func (Z.of_nat (Datatypes.S a))
                (map Z.of_nat (seq (Datatypes.S (Datatypes.S a)) n')) (Some e) s1)
      as [tail Htail].
    cbn [seq map] in *. rewrite Htail in *.
    change (Invoke (Z.of_nat (Datatypes.S a)) :: tail)
      with ([Invoke (Z.of_nat (Datatypes.S a))] ++ tail) in *.
    rewrite call_count_app in *.
    change (call_count [Invoke (Z.of_nat (Datatypes.S a))]) with 1%nat in *. lia.
Qed.

Lemma attempts_sleeps (rng : list Z) :
  forall (last : option exception) (s : S) (delay : num),
    In (Sleep delay) (trace_of (attempts rng last s)) ->
    exists attempt, delay_of attempt base_delay = Return delay.
Proof.
  induction rng as [ | attempt rest IH]; intros last s delay.
  - simpl. destruct last; simpl; contradiction.
  - simpl. destruct (func s) as [result s1].
    rewrite trace_of_after. simpl.
    intros [H | H]; [discriminate | ]. revert H.
    destruct result as [r | e]; [cbn; contradiction | ].
    destruct (isinstance_any e retryable_exceptions); [ | cbn; contradiction].
    destruct (negb (is_retryable_error e)); [cbn; contradiction | ].
    destruct (attempt =? max_attempts - 1); [cbn; contradiction | ].
    unfold exponential_backoff_delay.
    destruct (delay_of attempt base_delay) as [d | e'] eqn:Hd; [ | cbn; contradiction].
    rewrite trace_of_after. simpl.
    intros [H | H]; [injection H as <-; eauto | eauto].
Qed.

End Executor.

(** X1: The wrapped operation is called at most [max_attempts] times, and the
    executor sleeps only between two calls: there is at least one call more
    than there are sleeps, unless nothing was called. *)
Theorem calls_are_bounded {S T : Type} (max_attempts : Z) (base_delay : num)
  (retryable_exceptions : list exn_class) (func : S -> outcome T * S) (s : S) :
  let trace :=
    trace_of (retry_with_backoff max_attempts base_delay retryable_exceptions func s) in
  (call_count trace <= Z.to_nat max_attempts)%nat /\
  (sleep_count trace <= call_count trace - 1)%nat.
Proof.
  cbv zeta. unfold retry_with_backoff, wrapper, range.
  destruct (Z.le_gt_cases max_attempts 0) as [Hnone | Hsome].
  - replace (Z.to_nat max_attempts) with 0%nat by lia. cbn. lia.
  - apply (attempts_counts max_attempts base_delay retryable_exceptions func
             (Z.to_nat max_attempts) 0 None s).
    simpl. lia.
Qed.

(** X2: Whatever the base delay, an int or a float, no sleep of the executor is
    longer than 30 seconds. *)
Theorem sleeps_are_capped {S T : Type} (max_attempts : Z) (base_delay : num)
  (retryable_exceptions : list exn_class) (func : S -> outcome T * S) (s : S)
  (delay : num) :
  In (Sleep delay)
     (trace_of (retry_with_backoff max_attempts base_delay retryable_exceptions func s)) ->
  py_gt delay thirty = false.
Proof.
  intros Hin.
  destruct (attempts_sleeps max_attempts base_delay retryable_exceptions func
              _ _ _ _ Hin) as [attempt Hdelay].
  unfold delay_of in Hdelay.
  destruct (py_mul base_delay (PInt (2 ^ attempt))) as [scaled | e];
    simpl in Hdelay; [ | discriminate].
  injection Hdelay as <-. apply py_min_not_above.
Qed.

(** Eight timeouts in a row with a base delay of 2.5 s. *)
Definition eight_timeouts : list (outcome nat) :=
  repeat (Raise (Exc ReadTimeout)) 8.

Lemma sleeps_are_capped_witness :
  py_gt thirty thirty = false.
Proof.
  apply (sleeps_are_capped 8 (PFloat (mkfloat 5 (-1))) [Exception] replay eight_timeouts thirty).
  vm_compute. do 9 right. left. reflexivity.
Defined.

(** The state in which the call of attempt [k] is made when the calls
    before it have failed: the state that [k] calls in a row leave. *)
Fixpoint state_before {S T : Type} (func : S -> outcome T * S) (k : nat) (s : S) : S :=
  match k with
  | O => s
  | Datatypes.S k => state_before func k (snd (func s))
  end.

Section Exhaustion.
Context {S T : Type}.
Variable max_attempts : Z.
Variable base_delay : num.
Variable retryable_exceptions : list exn_class.
Variable func : S -> outcome T * S.

Hypothesis always_fails :
  forall s, exists e s1, func s = (Raise e, s1) /\ retried retryable_exceptions e = true.
Hypothesis delays_exist :
  forall k, 0 <= k < max_attempts - 1 -> exists d, delay_of k base_delay = Return d.

Lemma attempts_exhaust (n : nat) :
  forall (a : nat) (last : option exception) (s : S),
    Z.of_nat (a + Datatypes.S n) = max_attempts ->
    exists e trace,
      fst (func (state_before func n s)) = Raise e /\
      Retry.attempts max_attempts base_delay retryable_exceptions func
        (map Z.of_nat (seq a (Datatypes.S n))) last s
      = (Raise (RetryExhausted_ max_attempts e),
         snd (func (state_before func n s)), trace) /\
      retried retryable_exceptions e = true /\
      call_count trace = Datatypes.S n /\
      sleep_count trace = n.
Proof.
  induction n as [ | n IH]; intros a last s Hn.
  - destruct (always_fails s) as (e & s1 & Hfunc & Hretried).
    exists e, [Invoke (Z.of_nat a)]. cbn [seq map Retry.attempts state_before].
    rewrite Hfunc. unfold retried in Hretried.
    apply andb_true_iff in Hretried as [Hcaught Hclass].
    rewrite Hcaught, Hclass. cbn [negb fst snd].
    replace (Z.of_nat a =? max_attempts - 1) with true by (symmetry; apply Z.eqb_eq; lia).
    unfold retried. rewrite Hcaught, Hclass. auto.
  - destruct (always_fails s) as (e & s1 & Hfunc & Hretried).
    destruct (delays_exist (Z.of_nat a) ltac:(lia)) as [d Hd].
    destruct (IH (Datatypes.S a) (Some e) s1 ltac:(lia))
      as (e' & trace & Hlast & Hrun & Hretried' & Hcalls & Hsleeps).
    exists e', ([Invoke (Z.of_nat a); Sleep d] ++ trace).
    change (seq a (Datatypes.S (Datatypes.S n)))
      with (a :: seq (Datatypes.S a) (Datatypes.S n)).
    cbn [map state_before]. rewrite Hfunc. cbn [snd].
    assert (Z.of_nat a <> max_attempts - 1) as Hmore by lia.
    rewrite (attempts_retry _ _ _ _ _ _ last _ _ _ _ Hfunc Hretried Hmore Hd), Hrun.
    split; [exact Hlast | ]. split; [reflexivity | ]. split; [exact Hretried' | ].
    rewrite call_count_app, sleep_count_app, Hcalls, Hsleeps. split; reflexivity.
Qed.

End Exhaustion.


(** A server whose answers go through the statuses 500 to 599, one after
    the other; the state counts the requests. *)
Definition degrading (s : nat) : outcome nat * nat :=
  (Raise (HTTPStatusError_ {| status_code := 500 + Z.of_nat s mod 100 |}),
   Datatypes.S s).


(** The third answer is the one reported. *)
Example last_failure_is_reported :
  fst (fst (retry_with_backoff 3 (PInt 1) [HTTPStatusError] degrading 0%nat))
  = Raise (RetryExhausted_ 3 (HTTPStatusError_ {| status_code := 502 |})).
Proof. vm_compute. reflexivity. Qed.



(** X5: A failure whose class is not among [retryable_exceptions] is not even
    looked at by the classifier: the first call's failure is raised at once,
    also when [is_retryable_error] would call it retryable. *)
Theorem uncaught_failure_is_not_retried {S T : Type} (max_attempts : Z)
  (base_delay : num) (retryable_exceptions : list exn_class)
  (func : S -> outcome T * S) (s s1 : S) (e : exception) :
  1 <= max_attempts ->
  func s = (Raise e, s1) ->
  isinstance_any e retryable_exceptions = false ->
  retry_with_backoff max_attempts base_delay retryable_exceptions func s
  = (Raise e, s1, [Invoke 0]).
Proof.
  intros Hn Hfunc Hclass.
  unfold retry_with_backoff, wrapper. rewrite (range_cons max_attempts Hn).
  simpl. rewrite Hfunc, Hclass. reflexivity.
Qed.

(** [asyncio.TimeoutError] is retryable for the classifier but is not in the
    tuple of [retry_api_call]. *)
Lemma uncaught_failure_is_not_retried_witness :
  is_retryable_error (Exc AsyncioTimeoutError) = true /\
  retry_api_call replay [Raise (Exc AsyncioTimeoutError); Return 1%nat]
  = (Raise (Exc AsyncioTimeoutError), [Return 1%nat], [Invoke 0]).
Proof.
  split; [reflexivity | ].
  apply (uncaught_failure_is_not_retried 3 (PFloat (mkfloat 1 0))
           [TimeoutException; ConnectError; ConnectTimeout; HTTPStatusError] replay
           [Raise (Exc AsyncioTimeoutError); Return 1%nat] [Return 1%nat]
           (Exc AsyncioTimeoutError)).
  - lia.
  - reflexivity.
  - reflexivity.
Defined.

(** X6: With no attempt allowed the operation is never called and the executor
    fails on its closing assertion. *)
Theorem no_attempt_allowed {S T : Type} (max_attempts : Z) (base_delay : num)
  (retryable_exceptions : list exn_class) (func : S -> outcome T * S) (s : S) :
  max_attempts <= 0 ->
  retry_with_backoff max_attempts base_delay retryable_exceptions func s
  = (Raise (Exc AssertionError), s, []).
Proof.
  intros Hn. unfold retry_with_backoff, wrapper, range.
  replace (Z.to_nat max_attempts) with 0%nat by lia. reflexivity.
Qed.

Lemma no_attempt_allowed_witness :
  retry_with_backoff 0 (PInt 1) [Exception] replay [Return 1%nat]
  = (Raise (Exc AssertionError), [Return 1%nat], []).
Proof.
  apply (no_attempt_allowed 0 (PInt 1) [Exception] replay [Return 1%nat]). lia.
Defined.

End RetryExecutorSpec.

(** ** The validator of services/validation_service.py: what it accepts *)

Module ValidatorSpec.
Import Formatters Values Validation ValidationSpec.

(** The messages of one check. *)
Definition check (cond : bool) (message : validation_error) : list validation_error :=
  if cond then [message] else [].

(** The test of the three name fields, without the lookups' outcomes. *)
Definition name_is_bad (record : dict) (key : string) : bool :=
  negb (truthy (get record key)) || negb (is_str (get record key)).

(** The test of [priceChangePercent24h] when it returns. *)
Definition percent_is_bad (record : dict) : bool :=
  match as_num (get record "priceChangePercent24h") with
  | None => true
  | Some x =>
      match to_float x with
      | Return f => is_nan f || is_inf f
      | Raise _ => true
      end
  end.

Definition timestamp_errors (now : Z) (record : dict) : list validation_error :=
  match get record "lastUpdated" with
  | VDatetime d =>
      check (five_minutes <? now - micros d) (Stale_lastUpdated (now - micros d))
  | _ => [Invalid_lastUpdated]
  end.

Definition series_errors (record : dict) : list validation_error :=
  match get record "sparklineData" with
  | VList points =>
      if (168 <? List.length points)%nat then [Long_sparklineData]
      else sparkline_errors 0 points []
  | _ => [Invalid_sparklineData]
  end.

(** The messages of a record, check by check in the order of the source. *)
Definition reported (now : Z) (record : dict) : list (list validation_error) :=
  [ check (name_is_bad record "id") Invalid_id;
    check (name_is_bad record "symbol") Invalid_symbol;
    check (name_is_bad record "name") Invalid_name;
    check (not_a_number_or (get record "currentPrice") (fun x => py_le x (PInt 0)))
      Invalid_currentPrice;
    check (not_a_number_or (get record "marketCap") (fun x => py_le x (PInt 0)))
      Invalid_marketCap;
    check (not_a_number_or (get record "volume24h") (fun x => py_lt x (PInt 0)))
      Invalid_volume24h;
    check (not_a_number_or (get record "priceChange24h") (fun _ => false))
      Invalid_priceChange24h;
    check (percent_is_bad record) Invalid_priceChangePercent24h;
    check match as_int (get record "rank") with
          | None => true
          | Some r => (r <? 1) || (20 <? r)
          end Invalid_rank;
    timestamp_errors now record;
    series_errors record;
    check (negb (in_strs (get record "priceDirection") ["up"; "down"]%string))
      Invalid_priceDirection;
    check (negb (in_strs (get record "marketCapCategory")
                   ["small"; "mid"; "large"]%string))
      Invalid_marketCapCategory ].

Lemma append_if_app (cond : bool) (message : validation_error)
  (errors : list validation_error) :
  append_if cond message errors = errors ++ check cond message.
Proof. unfold append_if, check. destruct cond; [reflexivity | now rewrite app_nil_r]. Qed.

Lemma sparkline_errors_app (points : list value) :
  forall (i : nat) (errors : list validation_error),
    sparkline_errors i points errors = errors ++ sparkline_errors i points [].
Proof.
  induction points as [ | point rest IH]; intros i errors; simpl.
  - now rewrite app_nil_r.
  - destruct point; rewrite ?append_if_app;
      match goal with
      | |- sparkline_errors ?j ?r ?a = _ ++ sparkline_errors ?j ?r ?b =>
          rewrite (IH j a), (IH j b)
      end;
      simpl; now rewrite <- !app_assoc.
Qed.

Lemma not_a_name_eq (record : dict) (key : string) :
  not_a_name record key = Return (name_is_bad record key).
Proof.
  unfold not_a_name, name_is_bad, get, get_default, getitem.
  destruct (lookup record key) as [v | ]; simpl; [ | reflexivity].
  destruct (truthy v); reflexivity.
Qed.

(** The errors of a result are the messages of the checks, in order. *)
Lemma errors_are_reported (now : Z) (record : dict) (result : ValidationResult) :
  validate_cryptocurrency now record = Return result ->
  errors result = List.concat (reported now record).
Proof.
  unfold validate_cryptocurrency. rewrite !not_a_name_eq. cbn [bind].
  intros H.
  invert_bind H bad_percent Hpercent. invert_bind H errs Herrs.
  injection H as <-. cbn [errors].
  assert (bad_percent = percent_is_bad record) as ->.
  { unfold percent_is_bad.
    destruct (as_num (get record "priceChangePercent24h")) as [x | ];
      [ | now injection Hpercent as <-].
    unfold _is_finite, math_isnan, math_isinf in Hpercent.
    destruct (to_float x) as [f | e]; cbn [bind] in Hpercent; [ | discriminate].
    destruct (is_nan f); cbn [bind] in Hpercent; injection Hpercent as <-;
      [reflexivity | ].
    now rewrite negb_involutive. }
  assert (errs
          = List.concat (firstn 9 (reported now record)) ++ timestamp_errors now record)
    as ->.
  { unfold timestamp_errors. cbn [firstn reported List.concat].
    destruct (get record "lastUpdated") as [ | | | | | | d | | | ];
      try (injection Herrs as <-; rewrite !append_if_app;
           cbn [app]; now rewrite <- !app_assoc, ?app_nil_r).
    destruct (utcoffset d); [ | discriminate].
    injection Herrs as <-. rewrite !append_if_app.
    cbn [app]. now rewrite <- !app_assoc, ?app_nil_r. }
  rewrite !append_if_app.
  replace (match get record "sparklineData" with
           | VList sparkline_data =>
               if (168 <? List.length sparkline_data)%nat
               then _ ++ [Long_sparklineData]
               else if (0 <? List.length sparkline_data)%nat
                    then sparkline_errors 0 sparkline_data _
                    else _
           | _ => _ ++ [Invalid_sparklineData]
           end)
    with ((List.concat (firstn 9 (reported now record)) ++ timestamp_errors now record)
            ++ series_errors record).
  - cbn [firstn reported List.concat]. now rewrite <- !app_assoc, ?app_nil_r.
  - unfold series_errors.
    destruct (get record "sparklineData") as [ | | | | | | | points | | ];
      try reflexivity.
    destruct (168 <? List.length points)%nat; [reflexivity | ].
    destruct points as [ | p points];
      [cbn [sparkline_errors List.length Nat.ltb Nat.leb]; now rewrite app_nil_r | ].
    change (0 <? List.length (p :: points))%nat with true. cbv iota.
    symmetry. apply sparkline_errors_app.
Qed.

(** *** Acceptance *)

(** [truthy] and a [str]: a non-empty text. *)
Definition is_name (v : value) : bool := truthy v && is_str v.

(** A number on which [ok] holds. *)
Definition number_such_that (v : value) (ok : num -> bool) : bool :=
  match as_num v with
  | Some x => ok x
  | None => false
  end.

(** A sparkline point that [validate_price_data_point] accepts. *)
Definition point_ok (point : value) : bool :=
  match point with
  | VDict p => is_valid (validate_price_data_point p)
  | _ => false
  end.

(** The conjunction of the thirteen field conditions. *)
Definition acceptable (now : Z) (record : dict) : bool :=
  is_name (get record "id")
  && is_name (get record "symbol")
  && is_name (get record "name")
  && number_such_that (get record "currentPrice") (fun x => negb (py_le x (PInt 0)))
  && number_such_that (get record "marketCap") (fun x => negb (py_le x (PInt 0)))
  && number_such_that (get record "volume24h") (fun x => negb (py_lt x (PInt 0)))
  && number_such_that (get record "priceChange24h") (fun _ => true)
  && negb (percent_is_bad record)
  && match as_int (get record "rank") with
     | Some r => (1 <=? r) && (r <=? 20)
     | None => false
     end
  && match get record "lastUpdated" with
     | VDatetime d => now - micros d <=? five_minutes
     | _ => false
     end
  && match get record "sparklineData" with
     | VList points => (List.length points <=? 168)%nat && forallb point_ok points
     | _ => false
     end
  && in_strs (get record "priceDirection") ["up"; "down"]%string
  && in_strs (get record "marketCapCategory") ["small"; "mid"; "large"]%string.

Lemma check_nil (cond : bool) (message : validation_error) :
  check cond message = [] <-> cond = false.
Proof. unfold check. destruct cond; split; intros H; try reflexivity; discriminate. Qed.

Lemma name_is_good (record : dict) (key : string) :
  name_is_bad record key = false <-> is_name (get record key) = true.
Proof.
  unfold name_is_bad, is_name.
  destruct (truthy (get record key)), (is_str (get record key)); simpl;
    split; intros H; try reflexivity; discriminate.
Qed.

Lemma is_a_number_such_that (v : value) (test : num -> bool) :
  not_a_number_or v test = false <-> number_such_that v (fun x => negb (test x)) = true.
Proof.
  unfold not_a_number_or, number_such_that.
  destruct (as_num v) as [x | ]; [ | split; discriminate].
  destruct (test x); simpl; split; intros H; try reflexivity; discriminate.
Qed.

(** The per-point checks of the record validator and
    [validate_price_data_point] accept the same points. *)
Lemma sparkline_errors_none (points : list value) :
  forall i : nat,
    sparkline_errors i points [] = [] <-> forallb point_ok points = true.
Proof.
  induction points as [ | point rest IH]; intros i.
  - simpl. split; reflexivity.
  - cbn [sparkline_errors forallb]. rewrite andb_true_iff, <- (IH (S i)).
    destruct point as [ | | | | | | | | p | ];
      try (rewrite sparkline_errors_app; simpl; split;
           [discriminate | intros [H _]; discriminate]).
    rewrite sparkline_errors_app, !append_if_app. cbn [app point_ok].
    unfold validate_price_data_point. cbn [is_valid]. rewrite !append_if_app.
    cbn [app]. rewrite length_eqb_0.
    split.
    + intros H. apply app_eq_nil in H as [H1 H2]. split; [ | exact H2].
      apply app_eq_nil in H1 as [Ht Hp].
      apply check_nil in Ht. apply check_nil in Hp. now rewrite Ht, Hp.
    + intros [H1 H2]. rewrite H2, app_nil_r.
      apply app_eq_nil in H1 as [Ht Hp].
      apply check_nil in Ht. apply check_nil in Hp. now rewrite Ht, Hp.
Qed.

Lemma reported_nothing (now : Z) (record : dict) :
  List.concat (reported now record) = [] <-> acceptable now record = true.
Proof.
  rewrite concat_nil_Forall. unfold reported, acceptable.
  rewrite !Forall_cons_iff, Forall_nil_iff, !andb_true_iff, !check_nil.
  rewrite !name_is_good, !is_a_number_such_that, !negb_false_iff, negb_true_iff.
  assert (match as_int (get record "rank") with
          | Some r => (r <? 1) || (20 <? r)
          | None => true
          end = false
          <-> match as_int (get record "rank") with
              | Some r => (1 <=? r) && (r <=? 20)
              | None => false
              end = true) as Hrank.
  { destruct (as_int (get record "rank")) as [r | ]; [ | split; discriminate].
    destruct (Z.ltb_spec r 1), (Z.ltb_spec 20 r), (Z.leb_spec 1 r), (Z.leb_spec r 20);
      simpl; split; intros E; try reflexivity; try discriminate; lia. }
  assert (timestamp_errors now record = []
          <-> match get record "lastUpdated" with
              | VDatetime d => now - micros d <=? five_minutes
              | _ => false
              end = true) as Htime.
  { unfold timestamp_errors.
    destruct (get record "lastUpdated") as [ | | | | | | d | | | ];
      try (split; discriminate).
    rewrite check_nil.
    destruct (Z.ltb_spec five_minutes (now - micros d)),
             (Z.leb_spec (now - micros d) five_minutes);
      split; intros E; try reflexivity; try discriminate; lia. }
  assert (series_errors record = []
          <-> match get record "sparklineData" with
              | VList points =>
                  (List.length points <=? 168)%nat && forallb point_ok points
              | _ => false
              end = true) as Hseries.
  { unfold series_errors.
    destruct (get record "sparklineData") as [ | | | | | | | points | | ];
      try (split; discriminate).
    rewrite andb_true_iff, <- (sparkline_errors_none points 0).
    destruct (Nat.ltb_spec 168 (List.length points)),
             (Nat.leb_spec (List.length points) 168); try lia.
    - split; [discriminate | intros [E _]; discriminate].
    - tauto. }
  rewrite Hrank, Htime, Hseries. tauto.
Qed.

(** X7: A record is valid exactly when it is acceptable: the three names are
    non-empty texts, the price and the market cap are numbers that are not
    [<= 0], the volume is a number that is not [< 0], the price change is a
    number, the percentage is a finite number, the rank is an int from 1 to
    20, [lastUpdated] is a datetime at most five minutes before [now], the
    sparkline is a list of at most 168 points that
    [validate_price_data_point] accepts, and the direction and the category
    are one of their texts. *)
Theorem valid_means_acceptable (now : Z) (record : dict) (result : ValidationResult) :
  validate_cryptocurrency now record = Return result ->
  is_valid result = acceptable now record.
Proof.
  intros H. apply eq_true_iff_eq.
  destruct (validate_cryptocurrency_well_formed now record result H) as [Hvalid _].
  rewrite Hvalid, (errors_are_reported now record result H).
  apply reported_nothing.
Qed.

Lemma valid_means_acceptable_witness :
  false = acceptable half_past_twelve (stale "bitcoin").
Proof.
  apply (valid_means_acceptable half_past_twelve (stale "bitcoin")
           {| is_valid := false; errors := [Stale_lastUpdated 600000000]; data := None |}).
  vm_compute. reflexivity.
Defined.

(** The acceptance test has holes that the source shows: a price that is
    NaN or infinite is not [<= 0], and a timestamp in the future is not
    older than five minutes. *)
Example nan_price_and_future_timestamp_are_accepted :
  acceptable half_past_twelve
    (("currentPrice", VFloat S754_nan)
       :: ("marketCap", VFloat (S754_infinity false))
       :: sample "bitcoin" (VDatetime (utc (half_past_twelve + 86400000000))))%string
  = true.
Proof. vm_compute. reflexivity. Qed.

(** X8: The per-point checks inside [validate_cryptocurrency] pass on a list of
    points exactly when every point is a dict that
    [validate_price_data_point] accepts; a point that is not a dict never
    passes. *)
Theorem point_checks_agree (points : list value) (i : nat) :
  sparkline_errors i points [] = [] <-> forallb point_ok points = true.
Proof. apply sparkline_errors_none. Qed.

(** X9: Validation raises in two cases only: [lastUpdated] is a datetime
    without a time zone, or [priceChangePercent24h] is an int too large for
    a float; every other record, however ill-typed, gets a result. *)
Theorem validation_raises_only_for (now : Z) (record : dict) :
  (exists result, validate_cryptocurrency now record = Return result) <->
  oversized_percent record = false /\ zoneless_timestamp record = false.
Proof.
  pose proof (validate_cryptocurrency_returns now record) as H.
  destruct (validate_cryptocurrency now record) as [result | e]; simpl in H.
  - symmetry in H. apply andb_true_iff in H as [H1 H2].
    apply negb_true_iff in H1. apply negb_true_iff in H2. split; eauto.
  - split; [intros [result Hr]; discriminate | ].
    intros [H1 H2]. rewrite H1, H2 in H. discriminate.
Qed.

(** *** The fields that are read *)

(** The thirteen keys the validator looks up. *)
Definition fields : list string :=
  [ "id"; "symbol"; "name"; "currentPrice"; "marketCap"; "volume24h";
    "priceChange24h"; "priceChangePercent24h"; "rank"; "lastUpdated";
    "sparklineData"; "priceDirection"; "marketCapCategory" ]%string.

(** The result for another record. *)
Definition carried_by (record : dict) (result : ValidationResult) : ValidationResult :=
  {| is_valid := is_valid result;
     errors := errors result;
     data := option_map (fun _ => record) (data result) |}.

Lemma get_agrees (r1 r2 : dict) (key : string) :
  lookup r1 key = lookup r2 key -> get r1 key = get r2 key.
Proof. unfold get, get_default. now intros ->. Qed.

(** X10: Validation depends on the thirteen fields only: two records that agree
    on them get the same verdict and the same messages, or make validation
    raise the same exception; any other key of a record is ignored. *)
Theorem validation_reads_its_fields (now : Z) (r1 r2 : dict) :
  (forall key, In key fields -> lookup r1 key = lookup r2 key) ->
  validate_cryptocurrency now r1
  = bind (validate_cryptocurrency now r2) (fun result => Return (carried_by r1 result)).
Proof.
  intros Hsame.
  assert (forall key, In key fields -> get r1 key = get r2 key) as Hget.
  { intros key Hkey. apply get_agrees, Hsame, Hkey. }
  unfold validate_cryptocurrency. rewrite !not_a_name_eq. cbn [bind].
  unfold name_is_bad.
  rewrite !(Hget "id"%string), !(Hget "symbol"%string), !(Hget "name"%string),
    (Hget "currentPrice"%string), (Hget "marketCap"%string),
    (Hget "volume24h"%string), (Hget "priceChange24h"%string),
    (Hget "priceChangePercent24h"%string), (Hget "rank"%string),
    (Hget "lastUpdated"%string), (Hget "sparklineData"%string),
    (Hget "priceDirection"%string), (Hget "marketCapCategory"%string)
    by (unfold fields; simpl; tauto).
  destruct (match as_num (get r2 "priceChangePercent24h") with
            | Some x => bind (_is_finite x) (fun finite => Return (negb finite))
            | None => Return true
            end) as [bad_percent | e]; cbn [bind]; [ | reflexivity].
  destruct (get r2 "lastUpdated") as [ | | | | | | d | | | ]; cbn [bind];
    try (unfold carried_by; cbn [is_valid errors data];
         match goal with
         | |- context [(List.length ?l =? 0)%nat] =>
             destruct (List.length l =? 0)%nat; reflexivity
         end).
  destruct (utcoffset d); cbn [bind]; [ | reflexivity].
  unfold carried_by; cbn [is_valid errors data].
  match goal with
  | |- context [(List.length ?l =? 0)%nat] =>
      destruct (List.length l =? 0)%nat; reflexivity
  end.
Qed.

(** A record with a field the validator does not know. *)
Lemma validation_reads_its_fields_witness :
  validate_cryptocurrency half_past_twelve
    (("image", VStr "https://example.org/btc.png")%string :: fresh "bitcoin")
  = bind (validate_cryptocurrency half_past_twelve (fresh "bitcoin"))
      (fun result =>
         Return (carried_by
                   (("image", VStr "https://example.org/btc.png")%string :: fresh "bitcoin")
                   result)).
Proof.
  apply (validation_reads_its_fields half_past_twelve
           (("image", VStr "https://example.org/btc.png")%string :: fresh "bitcoin")
           (fresh "bitcoin")).
  intros key Hkey. unfold fields in Hkey. simpl in Hkey.
  repeat (destruct Hkey as [<- | Hkey]; [reflexivity | ]). contradiction.
Defined.

(** *** The batch filter *)

Lemma filter_from_returns (clock : nat -> Z) (crypto_list : list dict) :
  forall (i : nat) (valid_cryptos : list dict) (invalid_cryptos : list rejection),
    returns (filter_from clock i crypto_list valid_cryptos invalid_cryptos)
    = forallb (fun entry => returns (validate_cryptocurrency (clock (fst entry)) (snd entry)))
        (enumerate_from i crypto_list).
Proof.
  induction crypto_list as [ | crypto_data rest IH];
    intros i valid_cryptos invalid_cryptos; [reflexivity | ].
  rewrite enumerate_from_cons. cbn [filter_from forallb fst snd].
  destruct (validate_cryptocurrency (clock i) crypto_data) as [validation | e];
    [ | reflexivity].
  cbn [bind returns andb].
  destruct (is_valid validation);
    [destruct (data validation) as [d | ]; [destruct (truthy (VDict d)) | ] | ];
    apply IH.
Qed.

(** When the loop returns, validation has returned on every record. *)
Lemma loop_has_validated (clock : nat -> Z) (batch : list dict)
  (lists : list dict * list rejection) (i : nat) (r : dict) :
  filter_from clock 0 batch [] [] = Return lists ->
  nth_error batch i = Some r ->
  exists result, validate_cryptocurrency (clock i) r = Return result.
Proof.
  pose proof (filter_from_returns clock batch 0 [] []) as H.
  intros Hrun Hi. rewrite Hrun in H. simpl in H. symmetry in H.
  rewrite forallb_forall in H.
  specialize (H (i, r)). cbn [fst snd] in H.
  destruct (validate_cryptocurrency (clock i) r) as [result | e]; [eauto | ].
  discriminate H. apply in_enumerate_from. exists i. auto.
Qed.

(** The records that pass and the entries of those that do not, in order. *)
Definition acceptances (clock : nat -> Z) (batch : list dict) : list dict :=
  map snd (filter (accepted clock) (enumerate_from 0 batch)).
Definition rejections (clock : nat -> Z) (batch : list dict) : list rejection :=
  map (rejection_of clock)
    (filter (fun e => negb (accepted clock e)) (enumerate_from 0 batch)).

Lemma loop_returns (clock : nat -> Z) (batch : list dict) :
  (forall i r, nth_error batch i = Some r ->
               exists result, validate_cryptocurrency (clock i) r = Return result) ->
  filter_from clock 0 batch [] [] = Return (acceptances clock batch, rejections clock batch).
Proof.
  intros Hall. rewrite filter_from_partition; [reflexivity | ].
  intros j r Hj. cbn [Nat.add]. destruct (Hall j r Hj) as [result Hresult].
  unfold verdict. rewrite Hresult. discriminate.
Qed.

(** The filter returns what the loop returns, once the log is written. *)
Lemma filter_returns_inv (console : Type)
  (print_summary : nat -> console -> outcome unit * console)
  (print_rejection : rejection -> console -> outcome unit * console)
  (clock : nat -> Z) (batch : list dict) (out out' : console)
  (lists : list dict * list rejection) :
  filter_valid_cryptocurrencies console print_summary print_rejection clock batch out
  = (Return lists, out') ->
  filter_from clock 0 batch [] [] = Return lists /\
  log_rejections console print_summary print_rejection (snd lists) out = (Return tt, out').
Proof.
  unfold filter_valid_cryptocurrencies.
  destruct (filter_from clock 0 batch [] []) as [[valid rejected] | e]; [ | discriminate].
  destruct (log_rejections console print_summary print_rejection rejected out)
    as [[[] | e] out1] eqn:Hlog; [ | discriminate].
  intros H. injection H as <- <-. split; [reflexivity | exact Hlog].
Qed.


Lemma map_snd_enumerate_from {A : Type} (l : list A) :
  forall i, map snd (enumerate_from i l) = l.
Proof.
  induction l as [ | x l IH]; intros i; [reflexivity | ].
  rewrite enumerate_from_cons. simpl. now rewrite IH.
Qed.

Lemma filter_none {A : Type} (f : A -> bool) (l : list A) :
  (forall x, In x l -> f x = false) -> filter f l = [].
Proof.
  induction l as [ | x l IH]; intros H; [reflexivity | ].
  simpl. rewrite (H x (or_introl eq_refl)). apply IH. intros y Hy. apply H. now right.
Qed.

(** X12: With the clock held still, filtering is idempotent: the valid records
    of a batch all pass again, in the same order, and none is rejected, so
    that nothing is printed, on whatever console. *)
Theorem filter_is_idempotent (console : Type)
  (print_summary : nat -> console -> outcome unit * console)
  (print_rejection : rejection -> console -> outcome unit * console)
  (now : Z) (batch valid : list dict) (rejected : list rejection)
  (out out' : console) :
  filter_valid_cryptocurrencies console print_summary print_rejection
    (fun _ => now) batch out = (Return (valid, rejected), out') ->
  forall (console2 : Type) (print_summary2 : nat -> console2 -> outcome unit * console2)
         (print_rejection2 : rejection -> console2 -> outcome unit * console2)
         (out2 : console2),
    filter_valid_cryptocurrencies console2 print_summary2 print_rejection2
      (fun _ => now) valid out2 = (Return (valid, []), out2).
Proof.
  intros Hrun console2 print_summary2 print_rejection2 out2.
  apply filter_returns_inv in Hrun as [Hrun _].
  assert (forall j r, nth_error batch j = Some r ->
                      verdict ((fun _ => now) (0 + j)%nat) r <> None) as Hbatch.
  { intros j r Hj.
    destruct (loop_has_validated (fun _ => now) batch _ j r Hrun Hj)
      as [result Hresult].
    unfold verdict. rewrite Hresult. discriminate. }
  rewrite (filter_from_partition _ _ 0 [] [] Hbatch) in Hrun.
  injection Hrun as Hvalid _. cbn [app] in Hvalid.
  assert (forall r, In r valid -> verdict now r = Some true) as Hall.
  { intros r Hr. rewrite <- Hvalid in Hr.
    apply in_map_iff in Hr as ([k r'] & Heq & Hin). simpl in Heq. subst r'.
    apply filter_In in Hin as [_ Hacc]. unfold accepted in Hacc. cbn [fst snd] in Hacc.
    destruct (verdict now r) as [ [ | ] | ]; try discriminate. reflexivity. }
  assert (forall e, In e (enumerate_from 0 valid) -> accepted (fun _ => now) e = true)
    as Hacc.
  { intros [k r] Hin. apply in_enumerate_from in Hin as (j & _ & Hj).
    unfold accepted. cbn [fst snd]. rewrite (Hall r (nth_error_In _ _ Hj)). reflexivity. }
  assert (filter_from (fun _ => now) 0 valid [] [] = Return (valid, [])) as Hagain.
  { rewrite filter_from_partition.
    - rewrite (forallb_filter_id (accepted (fun _ => now)))
        by (apply forallb_forall; exact Hacc).
      rewrite filter_none by (intros e He; rewrite (Hacc e He); reflexivity).
      cbn [app map]. now rewrite map_snd_enumerate_from.
    - intros j r Hj. rewrite (Hall r (nth_error_In _ _ Hj)). discriminate. }
  unfold filter_valid_cryptocurrencies. rewrite Hagain. reflexivity.
Qed.

Lemma filter_is_idempotent_witness :
  filter_valid_cryptocurrencies nat lines_of_summary lines_of_rejection
    (fun _ => half_past_twelve) [fresh "bitcoin"; fresh "ethereum"] 2%nat
  = (Return ([fresh "bitcoin"; fresh "ethereum"], []), 2%nat).
Proof.
  apply (fun Hrun =>
           filter_is_idempotent nat lines_of_summary lines_of_rejection half_past_twelve
             [fresh "bitcoin"; stale "dogecoin"; fresh "ethereum"]
             [fresh "bitcoin"; fresh "ethereum"]
             [ {| rejected_id := VStr "dogecoin";
                  rejected_errors := [Stale_lastUpdated 600000000];
                  rejected_data := stale "dogecoin" |} ]
             0%nat 2%nat Hrun nat lines_of_summary lines_of_rejection 2%nat).
  vm_compute. reflexivity.
Defined.

(** X30: Whenever the filter returns a pair, it is the partition of the
    batch: the first list holds the individually valid records, in order,
    and nothing else; the second holds one entry per individually invalid
    record, in order, with its id (or [unknown]), its error list and the
    record; and the lengths add up to the length of the batch. *)
Theorem returned_pair_is_the_partition (console : Type)
  (print_summary : nat -> console -> outcome unit * console)
  (print_rejection : rejection -> console -> outcome unit * console)
  (clock : nat -> Z) (batch valid : list dict) (rejected : list rejection)
  (out out' : console) :
  filter_valid_cryptocurrencies console print_summary print_rejection clock batch out
  = (Return (valid, rejected), out') ->
  valid = map snd (filter (accepted clock) (enumerate_from 0 batch)) /\
  rejected = map (rejection_of clock) (filter (refused clock) (enumerate_from 0 batch)) /\
  (forall i r, nth_error batch i = Some r ->
               individually_valid (clock i) r \/ individually_invalid (clock i) r) /\
  (forall i r, nth_error batch i = Some r ->
               individually_valid (clock i) r -> In r valid) /\
  (forall r, In r valid ->
             exists i, nth_error batch i = Some r /\ individually_valid (clock i) r) /\
  (forall x, In x rejected ->
             exists i r result,
               nth_error batch i = Some r /\
               validate_cryptocurrency (clock i) r = Return result /\
               is_valid result = false /\
               rejected_id x = get_default r "id" (VStr "unknown") /\
               rejected_errors x = errors result /\
               rejected_data x = r) /\
  List.length rejected = invalid_count clock batch /\
  (List.length valid + List.length rejected = List.length batch)%nat.
Proof.
  intros Hrun. apply filter_returns_inv in Hrun as [Hloop _].
  assert (forall i r, nth_error batch i = Some r ->
                      individually_valid (clock i) r \/ individually_invalid (clock i) r)
    as Hverdict.
  { intros i r Hi.
    destruct (loop_has_validated clock batch _ i r Hloop Hi) as [result Hresult].
    unfold individually_valid, individually_invalid, verdict. rewrite Hresult.
    destruct (is_valid result); auto. }
  destruct (loop_partitions clock batch Hverdict)
    as (valid' & rejected' & Hloop' & Hvalid & Hrejected & Hkept & Honly & Hentries
        & Hcount & Hlength).
  rewrite Hloop in Hloop'. injection Hloop' as <- <-.
  auto 10.
Qed.

Lemma returned_pair_is_the_partition_witness :
  [fresh "bitcoin"; fresh "ethereum"]
  = map snd (filter (accepted (fun _ => half_past_twelve))
               (enumerate_from 0 [fresh "bitcoin"; stale "dogecoin"; fresh "ethereum"])) /\
  (List.length [fresh "bitcoin"; fresh "ethereum"] + 1
   = List.length [fresh "bitcoin"; stale "dogecoin"; fresh "ethereum"])%nat.
Proof.
  destruct (returned_pair_is_the_partition nat lines_of_summary lines_of_rejection
              (fun _ => half_past_twelve)
              [fresh "bitcoin"; stale "dogecoin"; fresh "ethereum"]
              [fresh "bitcoin"; fresh "ethereum"]
              [ {| rejected_id := VStr "dogecoin";
                   rejected_errors := [Stale_lastUpdated 600000000];
                   rejected_data := stale "dogecoin" |} ]
              0%nat 2%nat)
    as (Hvalid & _ & _ & _ & _ & _ & _ & Hlength).
  - vm_compute. reflexivity.
  - split; [exact Hvalid | exact Hlength].
Defined.

End ValidatorSpec.

(** ** Properties of the formatting functions of lib/formatters.py *)

Module FormattingSpec.
Import Formatting.
Local Open Scope string_scope.

Lemma bind_bind {A B C : Type} (m : outcome A) (f : A -> outcome B) (g : B -> outcome C) :
  bind (bind m f) g = bind m (fun a => bind (f a) g).
Proof. destruct m; reflexivity. Qed.

(** X13: From a thousand up, a price is the compact number with a dollar sign in
    front, whatever the number of decimals asked for: both raise or both
    return, with the same suffix. *)
Theorem price_is_compact_number (fixed grouped : Z -> num -> outcome string)
  (scientific : num -> outcome string) (value : num) (decimals : Z) :
  py_ge value (PInt 1000) = true ->
  format_price fixed grouped scientific value decimals
  = bind (format_number_compact fixed value) (fun text => Return ("$" ++ text)).
Proof.
  intros Hlarge. unfold format_price, format_number_compact. rewrite Hlarge.
  repeat match goal with
         | |- context [if py_ge value ?c then _ else _] => destruct (py_ge value c)
         end;
    match goal with
    | |- context [py_truediv value ?c] =>
        destruct (py_truediv value c) as [scaled | e]; cbn [bind]; [ | reflexivity];
        destruct (fixed 2 scaled) as [text | e]; reflexivity
    end.
Qed.

(** A formatter that writes every number as [1.50], for the witness. *)
Definition two_decimals (d : Z) (x : num) : outcome string := Return "1.50".

Lemma price_is_compact_number_witness :
  format_price two_decimals two_decimals (two_decimals 4) (PInt 1500000) 2
  = bind (format_number_compact two_decimals (PInt 1500000))
      (fun text => Return ("$" ++ text)).
Proof.
  apply (price_is_compact_number two_decimals two_decimals (two_decimals 4)
           (PInt 1500000) 2).
  reflexivity.
Defined.

(** X14: Below a thousand the number of decimals asked for is used only from one
    cent up: a price under one cent, a negative one included, goes to the
    scientific notation, and a NaN to the grouped one. *)
Theorem small_price_notation (fixed grouped : Z -> num -> outcome string)
  (scientific : num -> outcome string) (price : num) (decimals : Z) :
  py_ge price (PInt 1000) = false ->
  format_price fixed grouped scientific price decimals
  = bind (if py_lt price hundredth then scientific price else grouped decimals price)
      (fun text => Return ("$" ++ text)).
Proof.
  intros Hsmall. unfold format_price.
  assert (Hbelow : forall c : Z, 1000 <= c -> py_ge price (PInt c) = false).
  { intros c Hc. revert Hsmall. unfold py_ge, num_compare. cbn [value_of].
    destruct (value_of price) as [ | negative | q]; cbn [xcompare]; try tauto.
    destruct (Qcompare_spec q (inject_Z 1000)) as [E | L | G]; try discriminate.
    intros _.
    destruct (Qcompare_spec q (inject_Z c)) as [E' | L' | G']; try reflexivity; exfalso.
    - rewrite E' in L. revert L. unfold Qlt, inject_Z. simpl. lia.
    - assert (inject_Z c < inject_Z 1000)%Q as F by (eapply Qlt_trans; eassumption).
      revert F. unfold Qlt, inject_Z. simpl. lia. }
  rewrite !Hbelow by lia.
  destruct (py_lt price hundredth); reflexivity.
Qed.

Lemma small_price_notation_witness :
  format_price two_decimals two_decimals (two_decimals 4) (PInt (-5)) 2
  = bind (if py_lt (PInt (-5)) hundredth then two_decimals 4 (PInt (-5))
          else two_decimals 2 (PInt (-5)))
      (fun text => Return ("$" ++ text)).
Proof.
  apply (small_price_notation two_decimals two_decimals (two_decimals 4) (PInt (-5)) 2).
  reflexivity.
Defined.

(** X15: Without the sign, a percentage and its opposite are formatted alike. *)
Theorem unsigned_percentage_is_even (fixed : Z -> num -> outcome string)
  (percentage : num) (decimals : Z) :
  format_percentage fixed (py_neg percentage) decimals false
  = format_percentage fixed percentage decimals false.
Proof.
  unfold format_percentage.
  replace (py_abs (py_neg percentage)) with (py_abs percentage); [reflexivity | ].
  destruct percentage as [z | f]; simpl.
  - now rewrite Z.abs_opp.
  - destruct f; reflexivity.
Qed.

End FormattingSpec.

(** ** Properties of lib/error_handling.py *)

Module ErrorHandlingSpec.
Import ErrorHandling.
Local Open Scope string_scope.

Definition generic_message : string :=
  "An unexpected error occurred. Please try again later.".

(** X16: Whatever the exception and its class, the message shown is one of
    five fixed texts, none of which quotes the exception, and it is decided
    by the name of the class of the exception alone: each of the names
    [TimeoutError], [ConnectionError], [HTTPStatusError] and
    [ValidationError] has its own text, and every other name, that of a
    subclass of one of these included, gets the generic text. *)
Theorem message_is_sanitized (Exn : Type) (type_name : Exn -> string)
  (exception : Exn) :
  In (safe_error_message Exn type_name exception)
     [ "Request timed out. Please try again.";
       "Unable to connect to service. Please try again later.";
       "External service error. Please try again later.";
       "Invalid data format. Please check your input.";
       generic_message ] /\
  (safe_error_message Exn type_name exception <> generic_message <->
   In (type_name exception)
      ["TimeoutError"; "ConnectionError"; "HTTPStatusError"; "ValidationError"]) /\
  (type_name exception = "TimeoutError" ->
   safe_error_message Exn type_name exception = "Request timed out. Please try again.") /\
  (type_name exception = "ConnectionError" ->
   safe_error_message Exn type_name exception
   = "Unable to connect to service. Please try again later.") /\
  (type_name exception = "HTTPStatusError" ->
   safe_error_message Exn type_name exception
   = "External service error. Please try again later.") /\
  (type_name exception = "ValidationError" ->
   safe_error_message Exn type_name exception
   = "Invalid data format. Please check your input.").
Proof.
  unfold safe_error_message, error_mappings, generic_message. cbv zeta.
  generalize (type_name exception) as name. intros name.
  cbn [mapping_get].
  destruct (String.eqb_spec "TimeoutError" name) as [<- | H1].
  { split; [cbn; auto 10 | ]. split; [split; [intros _; cbn; auto 10 | discriminate] | ].
    repeat split; intros; try reflexivity; discriminate. }
  destruct (String.eqb_spec "ConnectionError" name) as [<- | H2].
  { split; [cbn; auto 10 | ]. split; [split; [intros _; cbn; auto 10 | discriminate] | ].
    repeat split; intros; try reflexivity; discriminate. }
  destruct (String.eqb_spec "HTTPStatusError" name) as [<- | H3].
  { split; [cbn; auto 10 | ]. split; [split; [intros _; cbn; auto 10 | discriminate] | ].
    repeat split; intros; try reflexivity; discriminate. }
  destruct (String.eqb_spec "ValidationError" name) as [<- | H4].
  { split; [cbn; auto 10 | ]. split; [split; [intros _; cbn; auto 10 | discriminate] | ].
    repeat split; intros; try reflexivity; discriminate. }
  split; [cbn; auto 10 | ]. split.
  - split; [intros H; exfalso; apply H; reflexivity | ].
    intros [E | [E | [E | [E | E]]]]; try contradiction; congruence.
  - repeat split; intros E; congruence.
Qed.

(** [type(exception).__name__] for the classes of the retry executor and of
    the HTTP library that the embedding names. *)
Definition class_name (c : exn_class) : string :=
  match c with
  | BaseException => "BaseException"
  | Exception => "Exception"
  | CancelledError => "CancelledError"
  | KeyboardInterrupt => "KeyboardInterrupt"
  | ArithmeticError => "ArithmeticError"
  | OverflowError => "OverflowError"
  | ZeroDivisionError => "ZeroDivisionError"
  | AssertionError => "AssertionError"
  | AttributeError => "AttributeError"
  | LookupError => "LookupError"
  | KeyError => "KeyError"
  | RuntimeError => "RuntimeError"
  | TypeError => "TypeError"
  | ValueError => "ValueError"
  | JSONDecodeError => "JSONDecodeError"
  | AsyncioTimeoutError => "TimeoutError"
  | RedisError => "RedisError"
  | RedisConnectionError => "ConnectionError"
  | HTTPError => "HTTPError"
  | RequestError => "RequestError"
  | TransportError => "TransportError"
  | TimeoutException => "TimeoutException"
  | ConnectTimeout => "ConnectTimeout"
  | ReadTimeout => "ReadTimeout"
  | WriteTimeout => "WriteTimeout"
  | PoolTimeout => "PoolTimeout"
  | NetworkError => "NetworkError"
  | ConnectError => "ConnectError"
  | ReadError => "ReadError"
  | HTTPStatusError => "HTTPStatusError"
  | RetryExhausted => "RetryExhausted"
  end.

(** Among these, the failures that the retry executor lets through or
    raises, other than an [HTTPStatusError] itself, get the generic text:
    the timeouts and connection errors of the HTTP library are not named
    [TimeoutError] or [ConnectionError]. *)
Example transport_failures_get_the_generic_text (e : exception) :
  isinstance e RequestError = true \/ type_of e = RetryExhausted ->
  safe_error_message exception (fun e => class_name (type_of e)) e = generic_message.
Proof.
  unfold isinstance, safe_error_message.
  destruct (type_of e); intros [H | H]; try discriminate H; reflexivity.
Qed.

End ErrorHandlingSpec.

(** ** Properties of the clients' request methods *)

Module ClientsSpec.
Import Values Retry RetrySpec Clients.

(** Every class that [retry_api_call] lists derives from [Exception]. *)
Lemma listed_is_an_Exception (e : exception) :
  isinstance e Exception = false ->
  isinstance_any e [TimeoutException; ConnectError; ConnectTimeout; HTTPStatusError]
  = false.
Proof.
  unfold isinstance_any, isinstance. destruct (type_of e); vm_compute; congruence.
Qed.

(** The probe returns a bool unless the failure is outside [Exception]. *)
Lemma probe_raises_no_Exception {W : Type} (aenter aexit : W -> outcome unit * W)
  (request : W -> outcome Response * W) (raise_for_status : Response -> outcome unit)
  (s s1 : W) (e : exception) :
  probe W aenter aexit request raise_for_status s = (Raise e, s1) ->
  isinstance e Exception = false.
Proof.
  unfold probe.
  destruct (async_with _ _ _ _ _) as [[available | e0] s2].
  - discriminate.
  - destruct (isinstance e0 Exception) eqn:E; [discriminate | ].
    intros H. injection H as <- _. exact E.
Qed.

(** X17: [ping] sends one request and never sleeps, although it is decorated
    with [retry_api_call]: a failure of the request is turned into [False]
    before the decorator sees it, and what is not an [Exception] is not
    retried. *)
Theorem ping_is_not_retried {W : Type} (aenter aexit : W -> outcome unit * W)
  (request : W -> outcome Response * W) (raise_for_status : Response -> outcome unit)
  (s : W) :
  let '(result, s1, trace) := ping W aenter aexit request raise_for_status s in
  trace = [Invoke 0] /\
  (result, s1) = probe W aenter aexit request raise_for_status s /\
  match result with
  | Return _ => True
  | Raise e => isinstance e Exception = false
  end.
Proof.
  unfold ping, retry_api_call, retry_with_backoff, wrapper.
  change (range 3) with [0; 1; 2]. cbn [attempts].
  destruct (probe W aenter aexit request raise_for_status s) as [[available | e] s1] eqn:E.
  - cbn. auto.
  - pose proof (probe_raises_no_Exception _ _ _ _ _ _ _ E) as Hclass.
    rewrite (listed_is_an_Exception e Hclass). cbn. auto.
Qed.

(** The request made from state [s] is answered with [response] and
    leaves state [s1]: the client's context opens, the server answers, and
    the context closes. *)
Definition exchange {W : Type} (aenter aexit : W -> outcome unit * W)
  (request : W -> outcome Response * W) (s : W) (response : Response) (s1 : W) : Prop :=
  exists s_in s_out,
    aenter s = (Return tt, s_in) /\
    request s_in = (Return response, s_out) /\
    aexit s_out = (Return tt, s1).

(** A fetch whose answer is refused by [raise_for_status]. *)
Lemma fetch_refused {W : Type} (aenter aexit : W -> outcome unit * W)
  (request : W -> outcome Response * W) (raise_for_status : Response -> outcome unit)
  (json : Response -> outcome value) (s : W) :
  (forall s, exists s1, aenter s = (Return tt, s1)) ->
  (forall s, exists s1, aexit s = (Return tt, s1)) ->
  (forall s, exists response s1,
      request s = (Return response, s1) /\
      500 <= status_code response < 600 /\
      raise_for_status response = Raise (HTTPStatusError_ response)) ->
  exists response s1,
    exchange aenter aexit request s response s1 /\
    fetch W aenter aexit request raise_for_status json s
    = (Raise (HTTPStatusError_ response), s1) /\
    500 <= status_code response < 600.
Proof.
  intros Henter Hexit Hrequest. unfold fetch, async_with, exchange.
  destruct (Henter s) as (s1 & E1).
  destruct (Hrequest s1) as (response & s2 & E2 & Hstatus & E3).
  destruct (Hexit s2) as (s3 & E4).
  exists response, s3. rewrite E1, E2, E3, E4. cbn [bind]. eauto 10.
Qed.

(** X18: Against a server that keeps answering with a 5xx status, a fetch makes
    three requests, sleeps 1.0 s and then 2.0 s between them, and raises
    [RetryExhausted] around the [HTTPStatusError] of the third answer, the
    one that the server gives to the request made after the first two. *)
Theorem fetch_gives_up_after_three_requests {W : Type}
  (aenter aexit : W -> outcome unit * W) (request : W -> outcome Response * W)
  (raise_for_status : Response -> outcome unit) (json : Response -> outcome value)
  (s : W) :
  (forall s, exists s1, aenter s = (Return tt, s1)) ->
  (forall s, exists s1, aexit s = (Return tt, s1)) ->
  (forall s, exists response s1,
      request s = (Return response, s1) /\
      500 <= status_code response < 600 /\
      raise_for_status response = Raise (HTTPStatusError_ response)) ->
  exists first second third s1 s2 s3,
    exchange aenter aexit request s first s1 /\
    exchange aenter aexit request s1 second s2 /\
    exchange aenter aexit request s2 third s3 /\
    get_top_cryptocurrencies W aenter aexit request raise_for_status json s
    = (Raise (RetryExhausted_ 3 (HTTPStatusError_ third)), s3,
       [ Invoke 0; Sleep (PFloat (mkfloat 1 0));
         Invoke 1; Sleep (PFloat (mkfloat 2 0));
         Invoke 2 ]) /\
    500 <= status_code third < 600.
Proof.
  intros Henter Hexit Hrequest.
  unfold get_top_cryptocurrencies, retry_api_call, retry_with_backoff, wrapper.
  change (range 3) with [0; 1; 2].
  destruct (fetch_refused aenter aexit request raise_for_status json s
              Henter Hexit Hrequest) as (r0 & s1 & A0 & E0 & H0).
  destruct (fetch_refused aenter aexit request raise_for_status json s1
              Henter Hexit Hrequest) as (r1 & s2 & A1 & E1 & H1).
  destruct (fetch_refused aenter aexit request raise_for_status json s2
              Henter Hexit Hrequest) as (r2 & s3 & A2 & E2 & H2).
  exists r0, r1, r2, s1, s2, s3.
  split; [exact A0 | ]. split; [exact A1 | ]. split; [exact A2 | ].
  split; [ | exact H2].
  cbn [attempts]. rewrite E0.
  change (isinstance_any (HTTPStatusError_ r0)
            [TimeoutException; ConnectError; ConnectTimeout; HTTPStatusError]) with true.
  cbv iota. rewrite (server_errors_are_retryable r0 H0). cbn [negb].
  change (0 =? 3 - 1) with false. cbv iota.
  change (exponential_backoff_delay 0 (PFloat (mkfloat 1 0)))
    with (@Return unit tt, [Sleep (PFloat (mkfloat 1 0))]).
  cbv iota. cbn [attempts]. rewrite E1.
  change (isinstance_any (HTTPStatusError_ r1)
            [TimeoutException; ConnectError; ConnectTimeout; HTTPStatusError]) with true.
  cbv iota. rewrite (server_errors_are_retryable r1 H1). cbn [negb].
  change (1 =? 3 - 1) with false. cbv iota.
  change (exponential_backoff_delay 1 (PFloat (mkfloat 1 0)))
    with (@Return unit tt, [Sleep (PFloat (mkfloat 2 0))]).
  cbv iota. cbn [attempts]. rewrite E2.
  change (isinstance_any (HTTPStatusError_ r2)
            [TimeoutException; ConnectError; ConnectTimeout; HTTPStatusError]) with true.
  cbv iota. rewrite (server_errors_are_retryable r2 H2). cbn [negb].
  change (2 =? 3 - 1) with true. cbv iota.
  reflexivity.
Qed.

(** A server whose answers go through the statuses 500 to 599, one after
    the other; the state counts the requests. *)
Definition enter (s : nat) : outcome unit * nat := (Return tt, s).
Definition unavailable (s : nat) : outcome Response * nat :=
  (Return {| status_code := 500 + Z.of_nat s mod 100 |}, S s).
Definition refuse (response : Response) : outcome unit :=
  Raise (HTTPStatusError_ response).
Definition no_body (response : Response) : outcome value := Return VNone.

Lemma fetch_gives_up_after_three_requests_witness :
  exists first second third s1 s2 s3,
    exchange enter enter unavailable 0%nat first s1 /\
    exchange enter enter unavailable s1 second s2 /\
    exchange enter enter unavailable s2 third s3 /\
    get_top_cryptocurrencies nat enter enter unavailable refuse no_body 0%nat
    = (Raise (RetryExhausted_ 3 (HTTPStatusError_ third)), s3,
       [ Invoke 0; Sleep (PFloat (mkfloat 1 0));
         Invoke 1; Sleep (PFloat (mkfloat 2 0));
         Invoke 2 ]) /\
    500 <= status_code third < 600.
Proof.
  apply (fetch_gives_up_after_three_requests enter enter unavailable refuse no_body 0%nat).
  - intros s. exists s. reflexivity.
  - intros s. exists s. reflexivity.
  - intros s. exists {| status_code := 500 + Z.of_nat s mod 100 |}, (S s).
    split; [reflexivity | ].
    pose proof (Z.mod_pos_bound (Z.of_nat s) 100 ltac:(lia)) as Hbound.
    split; [cbn [status_code]; lia | reflexivity].
Defined.

(** The answers are 500, 501 and 502, and the last one is reported. *)
Example third_answer_is_reported :
  fst (fst (get_top_cryptocurrencies nat enter enter unavailable refuse no_body 0%nat))
  = Raise (RetryExhausted_ 3 (HTTPStatusError_ {| status_code := 502 |})).
Proof. vm_compute. reflexivity. Qed.

(** Indexing a payload fails with [KeyError] or [TypeError] only. *)
Lemma subscript_raises (v : value) (key : string) (e : exception) :
  CoinMarketCap.subscript v key = Raise e -> e = Exc KeyError \/ e = Exc TypeError.
Proof.
  unfold CoinMarketCap.subscript, getitem.
  destruct v; try (intros H; injection H as <-; now right).
  destruct (lookup entries key); [discriminate | ].
  intros H. injection H as <-. now left.
Qed.

(** X19: When the fallback provider answers and the answer is accepted and
    decoded, the listings are [payload['data']] after a single request; an
    answer without [data], or one that is not an object, fails right there
    with [KeyError] or [TypeError]: it is neither retried nor wrapped in
    [RetryExhausted]. *)
Theorem listings_are_fetched_once {W : Type} (aenter aexit : W -> outcome unit * W)
  (request : W -> outcome Response * W) (raise_for_status : Response -> outcome unit)
  (json : Response -> outcome value) (s s1 s2 s3 : W) (response : Response)
  (payload : value) :
  aenter s = (Return tt, s1) ->
  request s1 = (Return response, s2) ->
  raise_for_status response = Return tt ->
  json response = Return payload ->
  aexit s2 = (Return tt, s3) ->
  get_top_listings W aenter aexit request raise_for_status json s
  = (CoinMarketCap.subscript payload "data", s3, [Invoke 0]).
Proof.
  intros Henter Hrequest Hstatus Hjson Hexit.
  unfold get_top_listings, retry_api_call, retry_with_backoff, wrapper.
  change (range 3) with [0; 1; 2]. cbn [attempts].
  unfold fetch_data, async_with.
  rewrite Henter, Hrequest, Hstatus, Hjson, Hexit. cbn [bind].
  destruct (CoinMarketCap.subscript payload "data") as [listings | e] eqn:E;
    [reflexivity | ].
  destruct (subscript_raises _ _ _ E) as [-> | ->]; reflexivity.
Qed.

Definition answered (s : nat) : outcome Response * nat :=
  (Return {| status_code := 200 |}, S s).
Definition let_through (response : Response) : outcome unit := Return tt.
Definition no_data (response : Response) : outcome value :=
  Return (VDict [("status", VDict [])]%string).

Lemma listings_are_fetched_once_witness :
  get_top_listings nat enter enter answered let_through no_data 0%nat
  = (CoinMarketCap.subscript (VDict [("status", VDict [])]%string) "data", 1%nat,
     [Invoke 0]).
Proof.
  apply (listings_are_fetched_once enter enter answered let_through no_data
           0%nat 0%nat 1%nat 1%nat {| status_code := 200 |}
           (VDict [("status", VDict [])]%string));
    reflexivity.
Defined.

End ClientsSpec.

(** ** Properties of lib/redis_client.py *)

Module RedisClientSpec.
Import RedisClient.
Local Open Scope string_scope.

(** X20: [init_redis_pool] assigns both globals before it verifies the
    connection: when it raises, either the URL or the pool could not be made
    and the globals are as before, or the verification ping failed and the
    unverified client stays installed, so that [get_redis_client] returns
    it.  When it returns, the installed client has answered the ping. *)
Theorem init_installs_before_verifying {W : Type} (environ : string -> option string)
  (int : string -> outcome Z) (str : Z -> string)
  (from_url : string -> outcome (ConnectionPool W))
  (Redis : ConnectionPool W -> Client W)
  (g g1 : globals W) (s s1 : W) (result : outcome unit) :
  init_redis_pool W environ int str from_url Redis g s = (result, g1, s1) ->
  (exists e, result = Raise e /\ g1 = g /\ s1 = s /\
             (get_redis_url environ int str = Raise e \/
              exists url, get_redis_url environ int str = Return url /\
                          from_url url = Raise e)) \/
  (exists pool,
      g1 = {| _redis_pool := Some pool; _redis_client := Some (Redis pool) |} /\
      get_redis_client W g1 = Return (Redis pool) /\
      client_ping (Redis pool) s = (result, s1)).
Proof.
  unfold init_redis_pool.
  destruct (get_redis_url environ int str) as [url | e] eqn:Eurl.
  - destruct (from_url url) as [pool | e] eqn:Epool.
    + cbn [_redis_pool _redis_client].
      destruct (client_ping (Redis pool) s) as [[[] | e] s2] eqn:Eping;
        intros H; injection H as <- <- <-; right; exists pool;
        (split; [reflexivity | split; [reflexivity | exact Eping]]).
    + intros H. injection H as <- <- <-. left. exists e. eauto 10.
  - intros H. injection H as <- <- <-. left. exists e. auto 10.
Qed.

(** A pool that is made from any URL, and a server that does not answer. *)
Definition silent : Client nat :=
  {| client_ping := fun s => (Raise (Exc RedisConnectionError), S s);
     client_close := fun s => (Return tt, s) |}.
Definition a_pool : ConnectionPool nat :=
  {| disconnect := fun s => (Return tt, s) |}.
Definition unset : globals nat := {| _redis_pool := None; _redis_client := None |}.
Definition no_environ (key : string) : option string := None.
Definition some_int (text : string) : outcome Z := Return 6379.
Definition some_str (n : Z) : string := "6379".

Lemma init_installs_before_verifying_witness :
  (exists e, @Raise unit (Exc RedisConnectionError) = Raise e /\
             {| _redis_pool := Some a_pool; _redis_client := Some silent |} = unset /\
             1%nat = 0%nat /\
             (get_redis_url no_environ some_int some_str = Raise e \/
              exists url, get_redis_url no_environ some_int some_str = Return url /\
                          (fun _ => Return a_pool) url = Raise e)) \/
  (exists pool,
      {| _redis_pool := Some a_pool; _redis_client := Some silent |}
      = {| _redis_pool := Some pool; _redis_client := Some ((fun _ => silent) pool) |} /\
      get_redis_client nat {| _redis_pool := Some a_pool; _redis_client := Some silent |}
      = Return ((fun _ => silent) pool) /\
      client_ping ((fun _ => silent) pool) 0%nat
      = (Raise (Exc RedisConnectionError), 1%nat)).
Proof.
  apply (init_installs_before_verifying no_environ some_int some_str
           (fun _ => Return a_pool) (fun _ => silent) unset
           {| _redis_pool := Some a_pool; _redis_client := Some silent |}
           0%nat 1%nat (Raise (Exc RedisConnectionError))).
  reflexivity.
Defined.

(** [ping_redis] returns [(True, latency)] or [(False, None)] unless the
    failure is outside [Exception]. *)
Lemma ping_redis_result {W : Type} (time : W -> float) (g : globals W) (s s1 : W)
  (result : outcome (bool * option float)) :
  ping_redis W time g s = (result, s1) ->
  match result with
  | Return (connected, latency) =>
      if connected then latency <> None else latency = None
  | Raise e => isinstance e Exception = false
  end.
Proof.
  unfold ping_redis, get_redis_client.
  destruct (_redis_client g) as [client | ].
  - destruct (client_ping client s) as [[a | e] s2].
    + intros H. injection H as <- _. discriminate.
    + destruct (isinstance e Exception) eqn:E; intros H; injection H as <- _;
        [reflexivity | exact E].
  - change (isinstance (Exc RuntimeError) Exception) with true. cbv iota.
    intros H. injection H as <- _. reflexivity.
Qed.

(** X21: After [close_redis_pool] has returned, both globals are unset:
    [get_redis_client] raises [RuntimeError], and [ping_redis] reports
    [(False, None)] without reaching the server. *)
Theorem closed_pool_is_gone {W : Type} (time : W -> float) (g g1 : globals W)
  (s s1 : W) (a : unit) :
  close_redis_pool W g s = (Return a, g1, s1) ->
  g1 = {| _redis_pool := None; _redis_client := None |} /\
  get_redis_client W g1 = Raise (Exc RuntimeError) /\
  forall s2, ping_redis W time g1 s2 = (Return (false, None), s2).
Proof.
  intros H.
  assert (g1 = {| _redis_pool := None; _redis_client := None |}) as ->.
  { revert H. unfold close_redis_pool, close_pool.
    destruct g as [pool client]. cbn [_redis_pool _redis_client].
    destruct client as [client | ].
    - destruct (client_close client s) as [[u | e] s2]; [ | discriminate].
      destruct pool as [pool | ].
      + destruct (disconnect pool s2) as [[v | e] s3]; [ | discriminate].
        intros H. now injection H as _ <- _.
      + intros H. now injection H as _ <- _.
    - destruct pool as [pool | ].
      + destruct (disconnect pool s) as [[v | e] s3]; [ | discriminate].
        intros H. now injection H as _ <- _.
      + intros H. now injection H as _ <- _. }
  split; [reflexivity | ]. split; reflexivity.
Qed.

Definition installed : globals nat :=
  {| _redis_pool := Some a_pool; _redis_client := Some silent |}.

Lemma closed_pool_is_gone_witness :
  unset = Build_globals nat None None /\
  get_redis_client nat unset = Raise (Exc RuntimeError) /\
  forall s2, ping_redis nat (fun _ => S754_zero false) unset s2
             = (Return (false, None), s2).
Proof.
  apply (closed_pool_is_gone (fun _ : nat => S754_zero false) installed unset
           0%nat 0%nat tt).
  reflexivity.
Defined.

End RedisClientSpec.

(** ** Properties of api/routes/health.py *)

Module HealthSpec.
Import Values Retry Clients RedisClient Health ClientsSpec RedisClientSpec.
Local Open Scope string_scope.

(** [report[section][field]] *)
Definition item (report : dict) (section field : string) : value :=
  match get report section with
  | VDict d => get d field
  | _ => VNone
  end.

(** [ping] returns a bool unless the failure is outside [Exception]. *)
Lemma ping_raises_no_Exception {W : Type} (aenter aexit : W -> outcome unit * W)
  (request : W -> outcome Response * W) (raise_for_status : Response -> outcome unit)
  (s s1 : W) (e : exception) (trace : list event) :
  ping W aenter aexit request raise_for_status s = (Raise e, s1, trace) ->
  isinstance e Exception = false.
Proof.
  unfold ping, retry_api_call, retry_with_backoff, wrapper.
  change (range 3) with [0; 1; 2]. cbn [attempts].
  destruct (probe W aenter aexit request raise_for_status s) as [[available | e0] s2] eqn:E.
  - discriminate.
  - pose proof (probe_raises_no_Exception _ _ _ _ _ _ _ E) as Hclass.
    rewrite (listed_is_an_Exception e0 Hclass). cbn.
    intros H. injection H as <- _. exact Hclass.
Qed.

(** X22: The report is consistent: the status is [degraded] exactly when the
    report says that the cache is not connected or that both APIs are
    unavailable, and [healthy] otherwise; a cache that is not connected has
    no latency, and a latency of zero is not reported either. *)
Theorem health_report_is_consistent {W : Type} (time : W -> float) (clock : W -> Z)
  (isoformat : datetime -> string) (aenter aexit : W -> outcome unit * W)
  (coingecko_request coinmarketcap_request : W -> outcome Response * W)
  (raise_for_status : Response -> outcome unit) (g : globals W) (s s1 : W)
  (report : dict) :
  health_check W time clock isoformat aenter aexit coingecko_request
    coinmarketcap_request raise_for_status g s = (Return report, s1) ->
  (get report "status" = VStr "degraded" <->
   item report "cache" "connected" = VBool false \/
   (item report "external_apis" "coingecko" = VStr "unavailable" /\
    item report "external_apis" "coinmarketcap" = VStr "unavailable")) /\
  (get report "status" <> VStr "degraded" -> get report "status" = VStr "healthy") /\
  (item report "cache" "connected" = VBool false ->
   item report "cache" "latency_ms" = VNone) /\
  (item report "cache" "latency_ms" = VNone \/
   truthy (item report "cache" "latency_ms") = true).
Proof.
  unfold health_check.
  destruct (ping_redis W time g s) as [[[connected latency] | e] s2] eqn:Eredis;
    [ | discriminate].
  pose proof (ping_redis_result _ _ _ _ _ Eredis) as Hredis. cbv beta iota in Hredis.
  destruct (ping W aenter aexit coingecko_request raise_for_status s2)
    as [[[coingecko | e] s3] t3]; [ | discriminate].
  destruct (ping W aenter aexit coinmarketcap_request raise_for_status s3)
    as [[[coinmarketcap | e] s4] t4]; [ | discriminate].
  intros H. injection H as <- _.
  unfold item, get, get_default. cbn [lookup String.eqb Ascii.eqb Bool.eqb].
  split; [ | split; [ | split]].
  - destruct connected, coingecko, coinmarketcap; cbn;
      (split; [intros H | intros [H | [H1 H2]]]);
      try reflexivity; try discriminate; auto.
  - destruct connected, coingecko, coinmarketcap; cbn; intros H;
      try reflexivity; exfalso; apply H; reflexivity.
  - destruct connected; [discriminate | ]. now rewrite Hredis.
  - destruct latency as [latency | ]; [ | now left].
    destruct latency; cbn; auto.
Qed.

(** One clock tick per request; the cache answers, CoinGecko does not. *)
Definition answering : Client nat :=
  {| client_ping := fun s => (Return tt, S s);
     client_close := fun s => (Return tt, s) |}.
Definition connected : globals nat :=
  {| _redis_pool := None; _redis_client := Some answering |}.
Definition seconds (s : nat) : float := mkfloat (Z.of_nat s) 0.
Definition no_route (s : nat) : outcome Response * nat :=
  (Raise (Exc ConnectError), S s).
Definition answer (s : nat) : outcome Response * nat :=
  (Return {| status_code := 200 |}, S s).
Definition accept (response : Response) : outcome unit := Return tt.
Definition a_date (d : datetime) : string := "2026-01-09T12:30:00+00:00".

Definition a_report : dict :=
  [ ("status", VStr "healthy");
    ("timestamp", VStr "2026-01-09T12:30:00+00:00");
    ("cache", VDict [("connected", VBool true);
                     ("latency_ms", VFloat (mkfloat 1000 0))]);
    ("external_apis", VDict [("coingecko", VStr "unavailable");
                             ("coinmarketcap", VStr "available")]) ].

Lemma health_report_is_consistent_witness :
  (get a_report "status" = VStr "degraded" <->
   item a_report "cache" "connected" = VBool false \/
   (item a_report "external_apis" "coingecko" = VStr "unavailable" /\
    item a_report "external_apis" "coinmarketcap" = VStr "unavailable")) /\
  (get a_report "status" <> VStr "degraded" -> get a_report "status" = VStr "healthy") /\
  (item a_report "cache" "connected" = VBool false ->
   item a_report "cache" "latency_ms" = VNone) /\
  (item a_report "cache" "latency_ms" = VNone \/
   truthy (item a_report "cache" "latency_ms") = true).
Proof.
  apply (health_report_is_consistent seconds (fun _ => 0) a_date enter enter
           no_route answer accept connected 0%nat 3%nat a_report).
  vm_compute. reflexivity.
Defined.

(** X23: The health check does not raise an [Exception]: whatever fails in the
    three probes is reported in the answer, and only a failure outside
    [Exception], such as a cancellation, gets through. *)
Theorem health_check_raises_no_Exception {W : Type} (time : W -> float)
  (clock : W -> Z) (isoformat : datetime -> string)
  (aenter aexit : W -> outcome unit * W)
  (coingecko_request coinmarketcap_request : W -> outcome Response * W)
  (raise_for_status : Response -> outcome unit) (g : globals W) (s s1 : W)
  (e : exception) :
  health_check W time clock isoformat aenter aexit coingecko_request
    coinmarketcap_request raise_for_status g s = (Raise e, s1) ->
  isinstance e Exception = false.
Proof.
  unfold health_check.
  destruct (ping_redis W time g s) as [[[connected latency] | e0] s2] eqn:Eredis.
  - destruct (ping W aenter aexit coingecko_request raise_for_status s2)
      as [[[coingecko | e1] s3] t3] eqn:E1.
    + destruct (ping W aenter aexit coinmarketcap_request raise_for_status s3)
        as [[[coinmarketcap | e2] s4] t4] eqn:E2; [discriminate | ].
      intros H. injection H as <- _.
      exact (ping_raises_no_Exception _ _ _ _ _ _ _ _ E2).
    + intros H. injection H as <- _.
      exact (ping_raises_no_Exception _ _ _ _ _ _ _ _ E1).
  - intros H. injection H as <- _.
    exact (ping_redis_result _ _ _ _ _ Eredis).
Qed.

Definition cancelled (s : nat) : outcome Response * nat :=
  (Raise (Exc CancelledError), S s).

Lemma health_check_raises_no_Exception_witness :
  isinstance (Exc CancelledError) Exception = false.
Proof.
  apply (health_check_raises_no_Exception seconds (fun _ => 0) a_date enter enter
           no_route cancelled accept connected 0%nat 3%nat (Exc CancelledError)).
  vm_compute. reflexivity.
Defined.

End HealthSpec.

(** ** Properties of the public methods of services/cache_service.py *)

Module CacheApiSpec.
Import Formatters Values Validation ValidationSpec ValidatorSpec.
Import CacheService CacheServiceSpec CacheApi.
Local Open Scope string_scope.

(** What the service caches. *)
Inductive entry : Type :=
| Top
| Gainers
| Losers
| Details (crypto_id : string)
| Sparkline (crypto_id : string).

Definition key_of (e : entry) : string :=
  match e with
  | Top => top_key
  | Gainers => gainers_key
  | Losers => losers_key
  | Details crypto_id => details_key crypto_id
  | Sparkline crypto_id => sparkline_key crypto_id
  end.

(** The getter and the setter of an entry. *)
Definition cache_get {store : Type} (json_loads : string -> outcome value)
  (client : option (Redis store)) (e : entry) : store -> outcome value * store :=
  match e with
  | Top => get_top_cryptocurrencies store json_loads client
  | Gainers => get_gainers store json_loads client
  | Losers => get_losers store json_loads client
  | Details crypto_id => get_cryptocurrency_details store json_loads client crypto_id
  | Sparkline crypto_id => get_sparkline store json_loads client crypto_id
  end.

Definition cache_set {store : Type} (json_text : value -> string)
  (isoformat : datetime -> string) (default_ttl : Z) (client : option (Redis store))
  (e : entry) : value -> option Z -> store -> outcome unit * store :=
  match e with
  | Top => set_top_cryptocurrencies store json_text isoformat default_ttl client
  | Gainers => set_gainers store json_text isoformat default_ttl client
  | Losers => set_losers store json_text isoformat default_ttl client
  | Details crypto_id =>
      set_cryptocurrency_details store json_text isoformat default_ttl client crypto_id
  | Sparkline crypto_id => set_sparkline store json_text isoformat client crypto_id
  end.

(** The expiry that the setter of an entry passes on. *)
Definition expiry (default_ttl : Z) (e : entry) (ttl : option Z) : Z :=
  match e with
  | Sparkline _ => ttl_or ttl sparkline_ttl
  | _ => ttl_or ttl default_ttl
  end.

Lemma cache_get_key {store : Type} (json_loads : string -> outcome value)
  (client : option (Redis store)) (e : entry) (s : store) :
  cache_get json_loads client e s = _get_json store json_loads client (key_of e) s.
Proof. destruct e; reflexivity. Qed.

Lemma cache_set_key {store : Type} (json_text : value -> string)
  (isoformat : datetime -> string) (default_ttl : Z) (client : option (Redis store))
  (e : entry) (data : value) (ttl : option Z) (s : store) :
  cache_set json_text isoformat default_ttl client e data ttl s
  = _set_json store json_text isoformat client (key_of e) data
      (expiry default_ttl e ttl) s.
Proof. destruct e; reflexivity. Qed.

(** Entries that differ have keys that differ. *)
Lemma key_of_injective (a b : entry) : key_of a = key_of b -> a = b.
Proof.
  destruct a, b; cbn; intros H; try reflexivity; try discriminate H;
    injection H as ->; reflexivity.
Qed.

Lemma expiry_is_positive (default_ttl : Z) (e : entry) (ttl : option Z) :
  0 < default_ttl ->
  match ttl with Some t => 0 <= t | None => True end ->
  0 < expiry default_ttl e ttl.
Proof.
  intros Hdefault Httl.
  assert (forall d, 0 < d -> 0 < ttl_or ttl d) as H.
  { intros d Hd. unfold ttl_or. destruct ttl as [t | ]; [ | exact Hd].
    destruct (Z.eqb_spec t 0); lia. }
  destruct e; cbn; apply H; try exact Hdefault; reflexivity.
Qed.

(** X24: With a store that keeps what is written with a positive expiry, and a
    codec that reads back what it writes, the getter of an entry returns,
    right after the setter, the JSON image of the data: every datetime in
    it has become its ISO text.  The expiry may be left out or be zero; the
    default is then used. *)
Theorem cached_data_is_read_back {store : Type} (json_loads : string -> outcome value)
  (json_text : value -> string) (isoformat : datetime -> string) (default_ttl : Z)
  (client : Redis store) (e : entry) (data tree : value) (ttl : option Z) (s : store) :
  (forall key expires text s, 0 < expires ->
      exists s1 s2, redis_setex client key expires text s = (Return tt, s1) /\
                    redis_get client key s1 = (Return (Some text), s2)) ->
  json_loads (json_text tree) = Return tree ->
  0 < default_ttl ->
  match ttl with Some t => 0 <= t | None => True end ->
  jsonable (_json_serializer isoformat) data = Return tree ->
  exists s1 s2,
    cache_set json_text isoformat default_ttl (Some client) e data ttl s
    = (Return tt, s1) /\
    cache_get json_loads (Some client) e s1 = (Return tree, s2).
Proof.
  intros Hstore Hcodec Hdefault Httl Htree.
  destruct (Hstore (key_of e) (expiry default_ttl e ttl) (json_text tree) s
              (expiry_is_positive default_ttl e ttl Hdefault Httl))
    as (s1 & s2 & Hset & Hget).
  exists s1, s2. rewrite cache_set_key, cache_get_key.
  unfold _set_json, _get_json, json_dumps, get_redis_client, try_except.
  rewrite Htree. cbn [bind]. rewrite Hset, Hget, Hcodec. split; reflexivity.
Qed.

(** A codec for one tree, and a record with a datetime in it. *)
Definition the_tree : value :=
  VDict [("lastUpdated", VStr "2026-01-09T12:30:00+00:00")].
Definition one_tree (text : string) : outcome value := Return the_tree.

Lemma cached_data_is_read_back_witness :
  exists s1 s2,
    cache_set some_text some_date 300 (Some in_memory) (Details "bitcoin")
      (VDict [("lastUpdated", VDatetime (utc half_past_twelve))]) (Some 0) []
    = (Return tt, s1) /\
    cache_get one_tree (Some in_memory) (Details "bitcoin") s1 = (Return the_tree, s2).
Proof.
  apply (cached_data_is_read_back one_tree some_text some_date 300 in_memory
           (Details "bitcoin")
           (VDict [("lastUpdated", VDatetime (utc half_past_twelve))]) the_tree
           (Some 0) []).
  - intros key expires text s _. exists ((key, (expires, text)) :: s), ((key, (expires, text)) :: s).
    split; [reflexivity | ]. cbn. now rewrite String.eqb_refl.
  - reflexivity.
  - lia.
  - cbn. lia.
  - reflexivity.
Defined.

(** What [_get_json] returns depends on the answer of the store only. *)
Lemma _get_json_answer {store : Type} (json_loads : string -> outcome value)
  (client : Redis store) (key : string) (s s' : store) :
  fst (redis_get client key s) = fst (redis_get client key s') ->
  fst (_get_json store json_loads (Some client) key s)
  = fst (_get_json store json_loads (Some client) key s').
Proof.
  unfold _get_json, get_redis_client, try_except.
  destruct (redis_get client key s) as [[[text | ] | e] s1],
           (redis_get client key s') as [[[text' | ] | e'] s1'];
    cbn [fst]; intros H; try discriminate H; try reflexivity.
  - injection H as ->. destruct (json_loads text') as [tree | e];
      [reflexivity | destruct (isinstance e Exception); reflexivity].
  - injection H as ->. destruct (isinstance e' Exception); reflexivity.
Qed.

(** X25: With a store in which a write leaves the other keys as they were,
    setting an entry does not change what the getter of another entry
    returns: the five kinds of keys never collide. *)
Theorem entries_are_kept_apart {store : Type} (json_loads : string -> outcome value)
  (json_text : value -> string) (isoformat : datetime -> string) (default_ttl : Z)
  (client : Redis store) (a b : entry) (data : value) (ttl : option Z) (s : store) :
  (forall key other expires text s, key <> other ->
      fst (redis_get client other (snd (redis_setex client key expires text s)))
      = fst (redis_get client other s)) ->
  a <> b ->
  fst (cache_get json_loads (Some client) b
         (snd (cache_set json_text isoformat default_ttl (Some client) a data ttl s)))
  = fst (cache_get json_loads (Some client) b s).
Proof.
  intros Hstore Hab. rewrite cache_set_key, !cache_get_key.
  apply _get_json_answer.
  unfold _set_json at 1. unfold get_redis_client, try_except.
  destruct (json_dumps json_text isoformat data) as [text | e].
  - assert (key_of a <> key_of b) as Hkeys
        by (intros H; apply Hab, key_of_injective, H).
    specialize (Hstore (key_of a) (key_of b) (expiry default_ttl a ttl) text s Hkeys).
    destruct (redis_setex client (key_of a) (expiry default_ttl a ttl) text s)
      as [[u | e] s1]; cbn [snd] in *; [exact Hstore | ].
    destruct (isinstance e Exception); exact Hstore.
  - destruct (isinstance e Exception); reflexivity.
Qed.

Lemma entries_are_kept_apart_witness :
  fst (cache_get one_tree (Some in_memory) (Sparkline "bitcoin")
         (snd (cache_set some_text some_date 300 (Some in_memory) (Details "bitcoin")
                 VNone None [])))
  = fst (cache_get one_tree (Some in_memory) (Sparkline "bitcoin") []).
Proof.
  apply (entries_are_kept_apart one_tree some_text some_date 300 in_memory
           (Details "bitcoin") (Sparkline "bitcoin") VNone None []).
  - intros key other expires text s Hne. cbn.
    destruct (String.eqb_spec key other) as [E | _]; [contradiction | reflexivity].
  - discriminate.
Defined.

(** *** What comes back from the cache *)

(** The entries of a dict, serialized one after the other. *)
Fixpoint each_entry (default : value -> outcome string) (l : dict) : outcome dict :=
  match l with
  | [] => Return []
  | (k, x) :: l =>
      bind (jsonable default x) (fun x =>
      bind (each_entry default l) (fun l => Return ((k, x) :: l)))
  end.

Lemma jsonable_dict (default : value -> outcome string) (entries : dict) :
  jsonable default (VDict entries)
  = bind (each_entry default entries) (fun entries => Return (VDict entries)).
Proof.
  cbn [jsonable]. f_equal.
  induction entries as [ | [k x] l IH]; [reflexivity | ].
  cbn [each_entry]. rewrite <- IH. reflexivity.
Qed.

(** No datetime is left in what is serialized. *)
Lemma jsonable_is_not_a_datetime (default : value -> outcome string) (x y : value) :
  jsonable default x = Return y -> is_datetime y = false.
Proof.
  destruct x as [ | | | | | | | items | entries | ];
    try (cbn; intros H; injection H as <-; reflexivity).
  - cbn [jsonable]. intros H. invert_bind H text Htext. now injection H as <-.
  - cbn [jsonable]. intros H. invert_bind H l Hl. now injection H as <-.
  - rewrite jsonable_dict. intros H. invert_bind H l Hl. now injection H as <-.
  - cbn [jsonable]. intros H. invert_bind H text Htext. now injection H as <-.
Qed.

Lemma each_entry_has_no_datetime (default : value -> outcome string) (l : dict) :
  forall (tree : dict) (key : string),
    each_entry default l = Return tree -> is_datetime (get tree key) = false.
Proof.
  induction l as [ | [k x] l IH]; intros tree key H.
  - injection H as <-. reflexivity.
  - cbn [each_entry] in H. invert_bind H x' Hx. invert_bind H tree' Htree.
    injection H as <-. specialize (IH tree' key Htree).
    unfold get, get_default in *. cbn [lookup].
    destruct (String.eqb k key); [ | exact IH].
    exact (jsonable_is_not_a_datetime default x x' Hx).
Qed.

(** X26: A record that has gone through the cache's serializer does not pass
    the validator any more: its [lastUpdated] is the ISO text of the
    datetime, which the validator reports as not being a datetime. *)
Theorem cached_record_is_not_valid (default : value -> outcome string) (now : Z)
  (record cached : dict) (result : ValidationResult) :
  jsonable default (VDict record) = Return (VDict cached) ->
  validate_cryptocurrency now cached = Return result ->
  In Invalid_lastUpdated (errors result) /\ is_valid result = false.
Proof.
  intros Htree Hresult.
  rewrite jsonable_dict in Htree. invert_bind Htree entries Hentries.
  injection Htree as <-.
  pose proof (each_entry_has_no_datetime default record entries "lastUpdated" Hentries)
    as Hlast.
  assert (In Invalid_lastUpdated (errors result)) as Hin.
  { rewrite (errors_are_reported now entries result Hresult).
    apply in_concat. exists (timestamp_errors now entries). split.
    - unfold reported. do 9 right. left. reflexivity.
    - unfold timestamp_errors.
      destruct (get entries "lastUpdated"); try (left; reflexivity). discriminate. }
  split; [exact Hin | ].
  destruct (validate_cryptocurrency_well_formed now entries result Hresult) as (Hvalid & _).
  destruct (is_valid result); [ | reflexivity].
  destruct Hvalid as [Hvalid _]. rewrite (Hvalid eq_refl) in Hin. contradiction.
Qed.

(** A valid record, its image in the cache and the verdict on the image. *)
Definition cached_bitcoin : dict :=
  Eval vm_compute in
    match jsonable (_json_serializer some_date) (VDict (fresh "bitcoin")) with
    | Return (VDict cached) => cached
    | _ => []
    end.
Definition verdict_on_cached_bitcoin : ValidationResult :=
  Eval vm_compute in
    match validate_cryptocurrency half_past_twelve cached_bitcoin with
    | Return result => result
    | Raise _ => {| is_valid := true; errors := []; data := None |}
    end.

Lemma cached_record_is_not_valid_witness :
  In Invalid_lastUpdated (errors verdict_on_cached_bitcoin) /\
  is_valid verdict_on_cached_bitcoin = false.
Proof.
  apply (cached_record_is_not_valid (_json_serializer some_date) half_past_twelve
           (fresh "bitcoin") cached_bitcoin verdict_on_cached_bitcoin).
  - vm_compute. reflexivity.
  - vm_compute. reflexivity.
Defined.

End CacheApiSpec.

(** ** Properties of the CoinGecko mapper *)

Module CoinGeckoMapperSpec.
Import Formatters Values Validation ValidationSpec ValidatorSpec.
Import CoinGecko CoinMarketCap CoinGeckoMapper.
Local Open Scope string_scope.

(** The messages about the shape of a record, as opposed to the messages
    about the numbers and texts that the API sent. *)
Definition about_the_shape (error : validation_error) : bool :=
  match error with
  | Invalid_lastUpdated
  | Invalid_sparklineData
  | Invalid_sparkline_point _
  | Invalid_sparkline_timestamp _
  | Invalid_priceDirection
  | Invalid_marketCapCategory => true
  | _ => false
  end.

Definition has_timestamp (point : dict) : Prop :=
  is_datetime (get point "timestamp") = true.

Lemma sparkline_from_has_timestamps (now n : Z) (rest : list value) :
  forall (i : Z) (points result : list dict),
    sparkline_from now n i rest points = Return result ->
    Forall has_timestamp points ->
    Forall has_timestamp result.
Proof.
  induction rest as [ | price rest IH]; intros i points result Hrun Hpoints.
  - injection Hrun as <-. exact Hpoints.
  - cbn [sparkline_from] in Hrun. cbv zeta in Hrun.
    invert_bind Hrun delta Hdelta. invert_bind Hrun timestamp Htimestamp.
    apply (IH _ _ _ Hrun). apply Forall_app. split; [exact Hpoints | ].
    constructor; [reflexivity | constructor].
Qed.

Lemma map_sparkline_has_timestamps (characters : string -> list string) (now : Z)
  (prices : value) (points : list dict) :
  map_sparkline characters now prices = Return points -> Forall has_timestamp points.
Proof.
  unfold map_sparkline. destruct (negb (truthy prices)).
  - intros H. injection H as <-. constructor.
  - intros H. invert_bind H items Hitems.
    apply (sparkline_from_has_timestamps _ _ _ _ _ _ H). constructor.
Qed.

(** Points with a timestamp get messages about their price only. *)
Lemma sparkline_errors_of_points (points : list dict) :
  Forall has_timestamp points ->
  forall (i : nat) (errors : list validation_error) (error : validation_error),
    In error (sparkline_errors i (map VDict points) errors) ->
    In error errors \/ about_the_shape error = false.
Proof.
  induction 1 as [ | point points Hpoint _ IH]; intros i errors error Hin.
  - left. exact Hin.
  - cbn [map sparkline_errors] in Hin. unfold has_timestamp in Hpoint.
    rewrite Hpoint in Hin. cbn [negb append_if] in Hin.
    apply IH in Hin as [Hin | Hshape]; [ | right; exact Hshape].
    rewrite append_if_app in Hin. apply in_app_or in Hin as [Hin | Hin];
      [left; exact Hin | right].
    unfold check in Hin. destruct (not_a_number_or _ _); [ | contradiction].
    destruct Hin as [<- | []]. reflexivity.
Qed.

Lemma in_check (cond : bool) (message error : validation_error) :
  In error (check cond message) -> cond = true /\ error = message.
Proof.
  unfold check. destruct cond; [ | contradiction].
  intros [<- | []]. split; reflexivity.
Qed.

Lemma parse_timestamp_is_a_datetime (fromisoformat : string -> outcome datetime)
  (v parsed : value) :
  parse_timestamp fromisoformat v = Return parsed -> is_datetime parsed = true.
Proof.
  unfold parse_timestamp. destruct (str_value v) as [text | ]; [ | discriminate].
  intros H. invert_bind H d Hd. now injection H as <-.
Qed.

(** X27: What the mapper returns has the shape that the validator asks for: no
    message of the validator about a record made by the mapper is about
    [lastUpdated] not being a datetime, [sparklineData] not being an array of
    points with a timestamp, [priceDirection] or [marketCapCategory].  What
    the validator can still refuse are the numbers and texts of the API. *)
Theorem mapped_record_has_the_shape (str_upper : string -> string)
  (fromisoformat : string -> outcome datetime) (characters : string -> list string)
  (now clock : Z) (api_data record : dict)
  (result : ValidationResult) (error : validation_error) :
  map_coingecko_response str_upper fromisoformat characters now api_data = Return record ->
  validate_cryptocurrency clock record = Return result ->
  In error (errors result) ->
  about_the_shape error = false.
Proof.
  intros Hmap Hresult Hin.
  rewrite (errors_are_reported clock record result Hresult) in Hin.
  unfold map_coingecko_response in Hmap.
  invert_bind Hmap sparkline_prices Hprices.
  invert_bind Hmap ident Hident.
  invert_bind Hmap symbol0 Hsymbol0.
  invert_bind Hmap symbol Hsymbol.
  invert_bind Hmap name Hname.
  invert_bind Hmap current_price Hcurrent.
  invert_bind Hmap market_cap Hcap0.
  invert_bind Hmap volume Hvolume.
  invert_bind Hmap price_change Hchange.
  invert_bind Hmap price_change_percent Hpercent0.
  invert_bind Hmap points Hpoints.
  invert_bind Hmap rank Hrank.
  invert_bind Hmap last_updated0 Hlast0.
  invert_bind Hmap last_updated Hlast.
  invert_bind Hmap percent0 Hpercent1.
  invert_bind Hmap percent Hpercent.
  invert_bind Hmap cap0 Hcap1.
  invert_bind Hmap cap Hcap.
  injection Hmap as <-.
  apply parse_timestamp_is_a_datetime in Hlast.
  apply map_sparkline_has_timestamps in Hpoints.
  apply in_concat in Hin as (messages & Hmessages & Hin).
  unfold reported, timestamp_errors, series_errors, get, get_default in Hmessages.
  cbn [lookup String.eqb Ascii.eqb Bool.eqb] in Hmessages.
  cbn [In] in Hmessages.
  repeat (destruct Hmessages as [<- | Hmessages]);
    try (apply in_check in Hin as (Hcond & ->); try reflexivity);
    try contradiction.
  - destruct last_updated; try discriminate Hlast.
    apply in_check in Hin as (_ & ->). reflexivity.
  - destruct (168 <? List.length (map VDict points))%nat.
    + destruct Hin as [<- | []]. reflexivity.
    + apply (sparkline_errors_of_points points Hpoints) in Hin as [[] | Hshape].
      exact Hshape.
  - exfalso. revert Hcond. unfold in_strs, eq_str. cbn.
    destruct (py_ge percent (PInt 0)); discriminate.
  - exfalso. revert Hcond. unfold in_strs, eq_str. cbn.
    destruct (compute_market_cap_category cap); discriminate.
Qed.

(** A market entry of the provider, ranked 25th, with two hourly prices. *)
Definition market : dict :=
  [ ("id", VStr "bitcoin"); ("symbol", VStr "btc"); ("name", VStr "Bitcoin");
    ("current_price", VInt 42350);
    ("market_cap", VInt 831245678901);
    ("market_cap_rank", VInt 25);
    ("total_volume", VInt 28456789012);
    ("price_change_24h", VFloat (mkfloat 52375 (-2)));
    ("price_change_percentage_24h", VFloat (mkfloat 5 (-2)));
    ("last_updated", VStr "2026-01-09T12:30:00.000Z");
    ("sparkline_in_7d", VDict [("price", VList [VInt 42000; VInt 42350])]) ].

(** Stand-ins for [str.upper], [datetime.fromisoformat] and the
    characters of a text, right for a text in ASCII. *)
Definition shout (text : string) : string := "BTC".
Definition letters (text : string) : list string :=
  map (fun c => String c EmptyString) (list_ascii_of_string text).
Definition parse_one (s : string) : outcome datetime :=
  if String.eqb s "2026-01-09T12:30:00.000+00:00"
  then Return (utc half_past_twelve)
  else Raise (Exc ValueError).

Definition mapped_market : dict :=
  Eval vm_compute in
    match map_coingecko_response shout parse_one letters half_past_twelve market with
    | Return record => record
    | Raise _ => []
    end.
Definition verdict_on_market : ValidationResult :=
  Eval vm_compute in
    match validate_cryptocurrency half_past_twelve mapped_market with
    | Return result => result
    | Raise _ => {| is_valid := true; errors := []; data := None |}
    end.

Lemma mapped_record_has_the_shape_witness :
  about_the_shape Invalid_rank = false.
Proof.
  apply (mapped_record_has_the_shape shout parse_one letters half_past_twelve
           half_past_twelve market mapped_market verdict_on_market Invalid_rank).
  - vm_compute. reflexivity.
  - vm_compute. reflexivity.
  - vm_compute. auto.
Defined.

Lemma getitem_get (d : dict) (key : string) (v : value) :
  getitem d key = Return v -> get d key = v.
Proof.
  unfold getitem, get, get_default. destruct (lookup d key); [ | discriminate].
  intros H. now injection H as <-.
Qed.

Lemma number_is_a_number (v : value) (x : num) :
  number v = Return x -> as_num v = Some x.
Proof.
  unfold number. destruct (as_num v); [ | discriminate].
  intros H. now injection H as <-.
Qed.

(** X28: A market entry whose 24 h percentage or whose market cap is missing,
    null or not a number is not mapped: the mapper raises, as it compares
    the one with 0 and the other with the thresholds of the categories. *)
Theorem unquoted_market_is_not_mapped (str_upper : string -> string)
  (fromisoformat : string -> outcome datetime) (characters : string -> list string)
  (now : Z) (api_data : dict) :
  as_num (get api_data "price_change_percentage_24h") = None \/
  as_num (get api_data "market_cap") = None ->
  returns (map_coingecko_response str_upper fromisoformat characters now api_data) = false.
Proof.
  intros Hnull.
  destruct (map_coingecko_response str_upper fromisoformat characters now api_data)
    as [record | e] eqn:Hmap; [exfalso | reflexivity].
  unfold map_coingecko_response in Hmap.
  invert_bind Hmap sparkline_prices Hprices.
  invert_bind Hmap ident Hident.
  invert_bind Hmap symbol0 Hsymbol0.
  invert_bind Hmap symbol Hsymbol.
  invert_bind Hmap name Hname.
  invert_bind Hmap current_price Hcurrent.
  invert_bind Hmap market_cap Hcap0.
  invert_bind Hmap volume Hvolume.
  invert_bind Hmap price_change Hchange.
  invert_bind Hmap price_change_percent Hpercent0.
  invert_bind Hmap points Hpoints.
  invert_bind Hmap rank Hrank.
  invert_bind Hmap last_updated0 Hlast0.
  invert_bind Hmap last_updated Hlast.
  invert_bind Hmap percent0 Hpercent1.
  invert_bind Hmap percent Hpercent.
  invert_bind Hmap cap0 Hcap1.
  invert_bind Hmap cap Hcap.
  apply getitem_get in Hpercent1, Hcap1.
  apply number_is_a_number in Hpercent, Hcap.
  rewrite Hpercent1, Hcap1, Hpercent, Hcap in Hnull.
  destruct Hnull; discriminate.
Qed.

(** The entry of a coin for which the provider has no 24 h percentage. *)
Definition unquoted : dict :=
  [ ("id", VStr "newcoin"); ("symbol", VStr "new"); ("name", VStr "New Coin");
    ("current_price", VInt 1);
    ("market_cap", VInt 1000000);
    ("market_cap_rank", VInt 20);
    ("total_volume", VInt 1000);
    ("price_change_24h", VNone);
    ("price_change_percentage_24h", VNone);
    ("last_updated", VStr "2026-01-09T12:30:00.000Z") ].

Lemma unquoted_market_is_not_mapped_witness :
  returns (map_coingecko_response shout parse_one letters half_past_twelve unquoted) = false.
Proof.
  apply (unquoted_market_is_not_mapped shout parse_one letters half_past_twelve unquoted).
  left. reflexivity.
Defined.

Example unquoted_market_raises_TypeError :
  map_coingecko_response shout parse_one letters half_past_twelve unquoted
  = Raise (Exc TypeError).
Proof. vm_compute. reflexivity. Qed.

(** A message of the validator makes the record invalid. *)
Lemma reported_error_invalidates (clock : Z) (record : dict) (result : ValidationResult)
  (error : validation_error) :
  validate_cryptocurrency clock record = Return result ->
  In error (errors result) ->
  is_valid result = false.
Proof.
  intros Hresult Hin.
  destruct (validate_cryptocurrency_well_formed clock record result Hresult)
    as (Hvalid & _).
  destruct (is_valid result); [ | reflexivity].
  destruct Hvalid as [Hvalid _]. rewrite (Hvalid eq_refl) in Hin. contradiction.
Qed.

(** X29: The mapper keeps every price that the provider sends: a series of more
    than 168 prices is mapped to as many points, and the validator then
    refuses the record for its length. *)
Theorem long_sparkline_is_rejected (str_upper : string -> string)
  (fromisoformat : string -> outcome datetime) (characters : string -> list string)
  (now clock : Z)
  (api_data series record : dict) (prices : list value) (result : ValidationResult) :
  lookup api_data "sparkline_in_7d" = Some (VDict series) ->
  lookup series "price" = Some (VList prices) ->
  (168 < List.length prices)%nat ->
  map_coingecko_response str_upper fromisoformat characters now api_data = Return record ->
  validate_cryptocurrency clock record = Return result ->
  (exists points,
      map_sparkline_data now prices = Return points /\
      List.length points = List.length prices /\
      get record "sparklineData" = VList (map VDict points)) /\
  In Long_sparklineData (errors result) /\
  is_valid result = false.
Proof.
  intros Hseries Hprice Hlong Hmap Hresult.
  assert (exists points,
             map_sparkline_data now prices = Return points /\
             List.length points = List.length prices /\
             get record "sparklineData" = VList (map VDict points))
    as (points & Hrun & Hlength & Hget).
  { unfold map_coingecko_response in Hmap.
    unfold contains, get_default, method_get in Hmap.
    rewrite Hseries in Hmap. unfold get_default in Hmap. rewrite Hprice in Hmap.
    cbn [bind] in Hmap.
    invert_bind Hmap ident Hident.
    invert_bind Hmap symbol0 Hsymbol0.
    invert_bind Hmap symbol Hsymbol.
    invert_bind Hmap name Hname.
    invert_bind Hmap current_price Hcurrent.
    invert_bind Hmap market_cap Hcap0.
    invert_bind Hmap volume Hvolume.
    invert_bind Hmap price_change Hchange.
    invert_bind Hmap price_change_percent Hpercent0.
    invert_bind Hmap points Hpoints.
    invert_bind Hmap rank Hrank.
    invert_bind Hmap last_updated0 Hlast0.
    invert_bind Hmap last_updated Hlast.
    invert_bind Hmap percent0 Hpercent1.
    invert_bind Hmap percent Hpercent.
    invert_bind Hmap cap0 Hcap1.
    invert_bind Hmap cap Hcap.
    injection Hmap as <-.
    assert (map_sparkline_data now prices = Return points) as Hrun.
    { unfold map_sparkline in Hpoints. unfold map_sparkline_data.
      destruct (negb (truthy (VList prices))); [exact Hpoints | ].
      cbn [items_of bind] in Hpoints. exact Hpoints. }
    exists points. split; [exact Hrun | ].
    split; [exact (CoinGeckoSpec.map_sparkline_data_length now prices points Hrun) | ].
    unfold get, get_default. cbn [lookup String.eqb Ascii.eqb Bool.eqb]. reflexivity. }
  split; [exists points; auto | ].
  assert (In Long_sparklineData (errors result)) as Hin.
  { rewrite (errors_are_reported clock record result Hresult).
    apply in_concat. exists (series_errors record). split.
    - unfold reported. do 10 right. left. reflexivity.
    - unfold series_errors. rewrite Hget.
      assert (List.length (map VDict points) = List.length prices) as ->
        by (rewrite length_map; exact Hlength).
      apply Nat.ltb_lt in Hlong. rewrite Hlong. left. reflexivity. }
  split; [exact Hin | ].
  exact (reported_error_invalidates clock record result _ Hresult Hin).
Qed.

(** Hourly prices of a week and one hour. *)
Definition long_series : list value := repeat (VInt 42000) 169.
Definition long_market : dict :=
  ("sparkline_in_7d", VDict [("price", VList long_series)]) :: market.
Definition mapped_long_market : dict :=
  Eval vm_compute in
    match map_coingecko_response shout parse_one letters half_past_twelve long_market with
    | Return record => record
    | Raise _ => []
    end.
Definition verdict_on_long_market : ValidationResult :=
  Eval vm_compute in
    match validate_cryptocurrency half_past_twelve mapped_long_market with
    | Return result => result
    | Raise _ => {| is_valid := true; errors := []; data := None |}
    end.

Lemma long_sparkline_is_rejected_witness :
  (exists points,
      map_sparkline_data half_past_twelve long_series = Return points /\
      List.length points = List.length long_series /\
      get mapped_long_market "sparklineData" = VList (map VDict points)) /\
  In Long_sparklineData (errors verdict_on_long_market) /\
  is_valid verdict_on_long_market = false.
Proof.
  apply (long_sparkline_is_rejected shout parse_one letters half_past_twelve half_past_twelve
           long_market [("price", VList long_series)] mapped_long_market long_series
           verdict_on_long_market).
  - reflexivity.
  - reflexivity.
  - vm_compute. lia.
  - vm_compute. reflexivity.
  - vm_compute. reflexivity.
Defined.

End CoinGeckoMapperSpec.
